(** * A shallow embedding of the cov-backend booking, payment and wallet core

    The Express/Mongoose controllers are modelled as functions from a
    database snapshot [state] (one finite map per collection) to the next
    snapshot and the HTTP response.  Monetary amounts are JavaScript
    numbers: where the code divides (fee percentages) they are IEEE-754
    binary64 values, modelled with the kernel's primitive floats, and
    [Math.round] is modelled exactly on the binary value. *)

From Stdlib Require Import ZArith PrimFloat FloatOps SpecFloat Uint63.
From stdpp Require Import base gmap strings list pretty.

Open Scope Z_scope.

(* ------------------------------------------------------------------ *)
(** ** JavaScript numbers *)

Module Js.

(** An integral JS number (|z| < 2^63) as a binary64 value; exact below 2^53. *)
Definition num (z : Z) : float :=
  if z <? 0 then PrimFloat.opp (PrimFloat.of_uint63 (Uint63.of_Z (- z)))
  else PrimFloat.of_uint63 (Uint63.of_Z z).

(** [Math.round x]: the integer closest to [x], ties towards +infinity,
    i.e. floor (x + 1/2) computed exactly on the binary value
    [(-1)^s * m * 2^e].  NaN and infinities do not arise in the code below
    and are sent to 0. *)
Definition round (x : float) : Z :=
  match Prim2SF x with
  | S754_zero _ => 0
  | S754_finite s m e =>
      let n := if s then Z.neg m else Z.pos m in
      if 0 <=? e then n * 2 ^ e
      else (2 * n + 2 ^ (- e)) / 2 ^ (1 - e)
  | _ => 0
  end.

Definition mul (x y : float) : float := PrimFloat.mul x y.
Definition div (x y : float) : float := PrimFloat.div x y.

(** [parseInt(v) || 0] for an optional integral body field. *)
Definition int_or_zero (v : option Z) : Z :=
  match v with Some n => n | None => 0 end.

End Js.

(** [process.env.PLATFORM_FEE_PERCENT || "10"] with the variable unset. *)
Definition PLATFORM_FEE_PERCENT : Z := 10.

(** [Math.round(amount * (feePercentage / 100))]: the platform fee used by
    [createRideEarning], [completePayment], [payWithWallet],
    [createPaymentIntent] and the webhook handler. *)
Definition platform_fee (amount fee_percentage : Z) : Z :=
  Js.round (Js.mul (Js.num amount) (Js.div (Js.num fee_percentage) (Js.num 100))).

(** [Math.round(amount * ((100 - feePercentage) / 100))]: the driver share
    reversed on cancellations and on [charge.refunded]. *)
Definition driver_share (amount : float) (fee_percentage : Z) : Z :=
  Js.round (Js.mul amount (Js.div (Js.num (100 - fee_percentage)) (Js.num 100))).

(** Round half up of [g * p / 100] in exact integer arithmetic. *)
Definition half_up_percent (g p : Z) : Z := (g * p + 50) / 100.

(** Checking a boolean property on the integers [g0 .. g0 + n - 1]. *)
Fixpoint all_from (n : nat) (g : Z) (P : Z -> bool) : bool :=
  match n with
  | O => true
  | S k => P g && all_from k (g + 1) P
  end.

(* ------------------------------------------------------------------ *)
(** ** Documents (src/unnamed/part_007, src/src/models/Booking.js,
       src/unnamed/part_005, src/src/models/PasswordReset.js,
       src/unnamed/part_006, src/src/models/Rating.js) *)

(** Object ids, Stripe ids and instants (milliseconds) are integers. *)
Abbreviation oid := Z (only parsing).

Inductive ride_status := RideActive | RideCancelled | RideCompleted.

Record ride := mkRide {
  ride_driver_id : oid;
  ride_datetime_start : Z;
  ride_seats_total : Z;
  ride_seats_left : Z;
  ride_price_per_seat : float;   (** in euros, a JS number *)
  ride_luggage_capacity : Z;
  ride_luggage_left : Z;
  r_status : ride_status
}.

Inductive booking_status := BPending | BAccepted | BRejected | BCancelled.
Inductive payment_status := PayPending | PayPaid | PayFailed | PayRefunded.
Inductive payment_method := Card | WalletMethod.
Inductive refund_reason :=
  PassengerCancelled | DriverCancelled | RideCancelledReason | AdminAction.

Record booking := mkBooking {
  bk_ride_id : oid;
  bk_passenger_id : oid;
  bk_seats : Z;
  bk_luggage_count : Z;
  bk_status : booking_status;
  bk_payment_status : payment_status;
  bk_payment_method : option payment_method;
  bk_payment_intent_id : option oid;
  bk_refund_id : option oid;
  bk_refunded_at : option Z;
  bk_refund_reason : option refund_reason
}.

(** Wallets are unique per user ([user_id: unique]); they are keyed by
    their owner, so a transaction's [wallet_id] is its owner's id. *)
Record wallet := mkWallet {
  w_balance : Z;
  w_pending_balance : Z;
  w_total_earned : Z;
  w_total_withdrawn : Z
}.

Definition new_wallet : wallet := mkWallet 0 0 0 0.

Inductive tx_type :=
  RideEarning | RidePayment | PlatformFee | Withdrawal | WithdrawalFailed
| Refund | Bonus | Adjustment.
Inductive tx_status := TxPending | TxCompleted | TxFailed | TxCancelled.

Record txn := mkTxn {
  tx_wallet_id : oid;
  tx_user_id : oid;
  tx_kind : tx_type;
  tx_amount : Z;
  tx_gross_amount : Z;
  tx_fee_amount : Z;
  tx_fee_percentage : Z;
  tx_net_amount : Z;
  tx_state : tx_status;
  tx_reference_id : option oid;
  tx_payment_intent_id : option oid;
  tx_transfer_id : option oid
}.

Inductive payout_status :=
  PoPending | PoProcessing | PoCompleted | PoFailed | PoCancelled.

Record payout := mkPayout {
  po_user_id : oid;
  po_wallet_id : oid;
  po_amount : Z;
  po_status : payout_status;
  po_stripe_payout_id : option oid;
  po_stripe_transfer_id : option oid;
  po_transaction_id : option oid
}.

Record user := mkUser { u_stripeAccountId : option oid }.

Inductive rating_type := DriverToPassenger | PassengerToDriver.

Record rating := mkRating {
  rt_from_user : oid;
  rt_to_user : oid;
  rt_booking_id : oid;
  rt_ride_id : oid;
  rt_type : rating_type;
  rt_stars : Z
}.

Inductive offer_status := OfferPending | OfferAccepted | OfferRejected.

Record offer := mkOffer {
  of_id : oid;
  of_driver : oid;
  of_ride : option oid;
  of_price_per_seat : float;
  of_status : offer_status
}.

Inductive request_status :=
  ReqPending | ReqMatched | ReqAccepted | ReqCancelled | ReqExpired.

(** [rr_payment_status] is the value of [payment_status] read back from a
    stored request.  [rideRequestSchema] declares no such path, so with
    mongoose's default strict mode nothing assigned to it is persisted. *)
Record ride_request := mkRequest {
  rr_passenger : oid;
  rr_seats_needed : Z;
  rr_status : request_status;
  rr_matched_driver : option oid;
  rr_matched_ride : option oid;
  rr_offers : list offer;
  rr_payment_status : option payment_status
}.

(** A PaymentIntent created at the PSP. *)
Record intent := mkIntent {
  pi_amount : Z;
  pi_application_fee_amount : option Z;
  pi_transfer_destination : option oid;
  pi_ride_id : oid;
  pi_passenger_id : oid;
  pi_seats : Z;
  pi_luggage_count : Z
}.

(** The database snapshot, one collection per field, plus the PSP objects
    the code creates.  [txns] is in insertion order ([findOne] returns the
    first match); [next_id] hands out fresh ObjectIds. *)
Record state := mkState {
  users : gmap oid user;
  rides : gmap oid ride;
  bookings : gmap oid booking;
  wallets : gmap oid wallet;
  txns : list (oid * txn);
  payouts : gmap oid payout;
  ratings : list rating;
  requests : gmap oid ride_request;
  intents : list intent;
  psp_refunds : list oid;
  next_id : oid
}.

Definition set_rides (f : gmap oid ride -> gmap oid ride) (s : state) : state :=
  mkState (users s) (f (rides s)) (bookings s) (wallets s) (txns s) (payouts s)
    (ratings s) (requests s) (intents s) (psp_refunds s) (next_id s).
Definition set_bookings (f : gmap oid booking -> gmap oid booking) (s : state) : state :=
  mkState (users s) (rides s) (f (bookings s)) (wallets s) (txns s) (payouts s)
    (ratings s) (requests s) (intents s) (psp_refunds s) (next_id s).
Definition set_wallets (f : gmap oid wallet -> gmap oid wallet) (s : state) : state :=
  mkState (users s) (rides s) (bookings s) (f (wallets s)) (txns s) (payouts s)
    (ratings s) (requests s) (intents s) (psp_refunds s) (next_id s).
Definition set_txns (f : list (oid * txn) -> list (oid * txn)) (s : state) : state :=
  mkState (users s) (rides s) (bookings s) (wallets s) (f (txns s)) (payouts s)
    (ratings s) (requests s) (intents s) (psp_refunds s) (next_id s).
Definition set_payouts (f : gmap oid payout -> gmap oid payout) (s : state) : state :=
  mkState (users s) (rides s) (bookings s) (wallets s) (txns s) (f (payouts s))
    (ratings s) (requests s) (intents s) (psp_refunds s) (next_id s).
Definition set_ratings (f : list rating -> list rating) (s : state) : state :=
  mkState (users s) (rides s) (bookings s) (wallets s) (txns s) (payouts s)
    (f (ratings s)) (requests s) (intents s) (psp_refunds s) (next_id s).
Definition set_requests (f : gmap oid ride_request -> gmap oid ride_request) (s : state) : state :=
  mkState (users s) (rides s) (bookings s) (wallets s) (txns s) (payouts s)
    (ratings s) (f (requests s)) (intents s) (psp_refunds s) (next_id s).
Definition set_intents (f : list intent -> list intent) (s : state) : state :=
  mkState (users s) (rides s) (bookings s) (wallets s) (txns s) (payouts s)
    (ratings s) (requests s) (f (intents s)) (psp_refunds s) (next_id s).
Definition set_psp_refunds (f : list oid -> list oid) (s : state) : state :=
  mkState (users s) (rides s) (bookings s) (wallets s) (txns s) (payouts s)
    (ratings s) (requests s) (intents s) (f (psp_refunds s)) (next_id s).
Definition bump_id (s : state) : state :=
  mkState (users s) (rides s) (bookings s) (wallets s) (txns s) (payouts s)
    (ratings s) (requests s) (intents s) (psp_refunds s) (next_id s + 1).

(* ------------------------------------------------------------------ *)
(** ** Controllers run in a state-and-exception monad

    A handler's [await]s read and write the snapshot in order; a thrown
    exception keeps every write made before it (there are no multi-document
    transactions); the outer [catch (error) { next(error) }] turns it into
    an error response. *)

Inductive exn :=
  DuplicateKey       (** MongoServerError E11000 on a unique index *)
| ValidationError    (** mongoose schema validation on save/create *)
| ReferenceError     (** an undeclared identifier is read *)
| TypeError          (** a property of null/undefined is read *)
| StripeError        (** a Stripe API call rejects *)
| InsufficientBalance. (** [wallet.withdraw] throws *)

Inductive result (A : Type) := Ret (a : A) | Throw (e : exn).
Arguments Ret {A} a.
Arguments Throw {A} e.

Definition M (A : Type) : Type := state -> state * result A.

Definition ret {A} (a : A) : M A := fun s => (s, Ret a).
Definition bind {A B} (m : M A) (k : A -> M B) : M B :=
  fun s => match m s with
           | (s', Ret a) => k a s'
           | (s', Throw e) => (s', Throw e)
           end.
Definition throw {A} (e : exn) : M A := fun s => (s, Throw e).
Definition get : M state := fun s => (s, Ret s).
Definition modify (f : state -> state) : M unit := fun s => (f s, Ret tt).
Definition try_catch {A} (m : M A) (h : exn -> M A) : M A :=
  fun s => match m s with
           | (s', Throw e) => h e s'
           | r => r
           end.

Notation "'let*' x ':=' m 'in' k" := (bind m (fun x => k))
  (at level 200, x pattern, m at level 100, k at level 200).

(** HTTP responses: [res.status(code).json({message})], or the error
    handler reached through [next(error)]. *)
Inductive response :=
  Resp (code : Z) (msg : string)
| CanRate (can : bool) (reason : string)  (** [res.json({success: true, data: {canRate, reason}})] *)
| NextError (e : exn).

Definition handler (m : M response) : M response :=
  try_catch m (fun e => ret (NextError e)).

Definition run (m : M response) (s : state) : state * response :=
  match handler m s with
  | (s', Ret r) => (s', r)
  | (s', Throw e) => (s', NextError e)
  end.

(* ------------------------------------------------------------------ *)
(** ** Model methods *)

Definition fresh_id : M oid :=
  fun s => (bump_id s, Ret (next_id s)).

Definition find_user (u : oid) : M (option user) :=
  fun s => (s, Ret (users s !! u)).
Definition find_ride (r : oid) : M (option ride) :=
  fun s => (s, Ret (rides s !! r)).
Definition find_booking (b : oid) : M (option booking) :=
  fun s => (s, Ret (bookings s !! b)).

(** [driver?.stripeAccountId] of a looked-up user. *)
Definition has_stripe (u : option user) : bool :=
  match u with Some usr => bool_decide (is_Some (u_stripeAccountId usr)) | None => false end.

(** walletSchema: every amount has [min: 0], checked on [save]. *)
Definition wallet_valid (w : wallet) : bool :=
  bool_decide (0 <= w_balance w /\ 0 <= w_pending_balance w
               /\ 0 <= w_total_earned w /\ 0 <= w_total_withdrawn w).

Definition wallet_save (owner : oid) (w : wallet) : M unit :=
  if wallet_valid w then modify (set_wallets (insert owner w)) else throw ValidationError.

(** [Wallet.getOrCreateWallet(userId)] *)
Definition getOrCreateWallet (u : oid) : M wallet :=
  fun s => match wallets s !! u with
           | Some w => (s, Ret w)
           | None => (set_wallets (insert u new_wallet) s, Ret new_wallet)
           end.

Definition set_balance (w : wallet) (b : Z) : wallet :=
  mkWallet b (w_pending_balance w) (w_total_earned w) (w_total_withdrawn w).

(** [wallet.addEarnings(amount, false)] *)
Definition addEarnings (owner : oid) (w : wallet) (amount : Z) : M wallet :=
  let w' := mkWallet (w_balance w + amount) (w_pending_balance w)
                     (w_total_earned w + amount) (w_total_withdrawn w) in
  let* _ := wallet_save owner w' in ret w'.

(** [wallet.withdraw(amount)] *)
Definition withdraw (owner : oid) (w : wallet) (amount : Z) : M wallet :=
  if w_balance w <? amount then throw InsufficientBalance else
  let w' := mkWallet (w_balance w - amount) (w_pending_balance w)
                     (w_total_earned w) (w_total_withdrawn w + amount) in
  let* _ := wallet_save owner w' in ret w'.

(** [wallet.refundWithdrawal(amount)] *)
Definition refundWithdrawal (owner : oid) (w : wallet) (amount : Z) : M wallet :=
  let w' := mkWallet (w_balance w + amount) (w_pending_balance w)
                     (w_total_earned w) (w_total_withdrawn w - amount) in
  let* _ := wallet_save owner w' in ret w'.

(** [Transaction.create(...)]: appended in insertion order. *)
Definition txn_create (t : txn) : M oid :=
  let* k := fresh_id in
  let* _ := modify (set_txns (fun l => l ++ [(k, t)])) in
  ret k.

(** [transactionSchema.statics.createRideEarning]
    (src/src/models/PasswordReset.js 177-214).  The subtraction
    [gross_amount - fee_amount] is on integers below 2^53, hence exact. *)
Definition createRideEarning (wallet_id user_id gross_amount fee_percentage : Z)
    (booking_id intent_id : option oid) : M oid :=
  let fee_amount := platform_fee gross_amount fee_percentage in
  let net_amount := gross_amount - fee_amount in
  txn_create (mkTxn wallet_id user_id RideEarning net_amount gross_amount
                fee_amount fee_percentage net_amount TxCompleted booking_id
                intent_id None).

(** [transactionSchema.statics.createWithdrawal] *)
Definition createWithdrawal (wallet_id user_id amount payout_id : Z) : M oid :=
  txn_create (mkTxn wallet_id user_id Withdrawal (- amount) amount 0 10 amount
                TxPending (Some payout_id) None None).

(** bookingSchema validators (src/src/models/Booking.js 17-82). *)
Definition booking_valid (b : booking) : bool :=
  let paid_or_refunded :=
    match bk_payment_status b with PayPaid | PayRefunded => true | _ => false end in
  let refunded := match bk_payment_status b with PayRefunded => true | _ => false end in
  let card := match bk_payment_method b with Some Card => true | _ => false end in
  bool_decide (1 <= bk_seats b) && bool_decide (0 <= bk_luggage_count b)
  && (negb paid_or_refunded || bool_decide (is_Some (bk_payment_method b)))
  && (negb (card && paid_or_refunded) || bool_decide (is_Some (bk_payment_intent_id b)))
  && (negb (refunded && card) || bool_decide (is_Some (bk_refund_id b)))
  && (negb refunded || bool_decide (is_Some (bk_refunded_at b)))
  && (negb refunded || bool_decide (is_Some (bk_refund_reason b))).

(** [booking.save()] of a loaded document. *)
Definition booking_save (k : oid) (b : booking) : M unit :=
  if booking_valid b then modify (set_bookings (insert k b)) else throw ValidationError.

(** [Booking.create(...)]: validation, then the unique
    [(ride_id, passenger_id)] index. *)
Definition booking_create (b : booking) : M oid :=
  if negb (booking_valid b) then throw ValidationError else
  fun s =>
    if bool_decide (map_Exists (fun _ b' => bk_ride_id b' = bk_ride_id b
                                 /\ bk_passenger_id b' = bk_passenger_id b) (bookings s))
    then (s, Throw DuplicateKey)
    else (let k := next_id s in
          (set_bookings (insert k b) (bump_id s), Ret k)).

(** [Ride.findByIdAndUpdate(id, { $inc: {seats_left, luggage_left} })]:
    no validators run on this update. *)
Definition ride_inc (r : oid) (dseats dluggage : Z) : M unit :=
  modify (set_rides (fun m =>
    match m !! r with
    | Some rd => <[r := mkRide (ride_driver_id rd) (ride_datetime_start rd)
                        (ride_seats_total rd) (ride_seats_left rd + dseats)
                        (ride_price_per_seat rd) (ride_luggage_capacity rd)
                        (ride_luggage_left rd + dluggage) (r_status rd)]> m
    | None => m
    end)).

(** [Math.round(price_per_seat * seats * 100)]: a booking's price in cents. *)
Definition total_cents (price : float) (seats : Z) : Z :=
  Js.round (Js.mul (Js.mul price (Js.num seats)) (Js.num 100)).

(** An empty database with fresh ids from 1. *)
Definition empty_state : state :=
  mkState ∅ ∅ ∅ ∅ [] ∅ [] ∅ [] [] 1.

(* ------------------------------------------------------------------ *)
(** ** [payWithWallet] (src/src/controllers/rideRequestController.js
       1675-1851).  [seats] is the body field; a missing field or 0 is
       falsy. *)

Definition payWithWallet (userId : oid) (rideId : option oid) (seats : Z)
    (luggage_count : option Z) : M response :=
  match rideId with
  | None => ret (Resp 400 "rideId and seats are required"%string)
  | Some rid =>
  if seats =? 0 then ret (Resp 400 "rideId and seats are required"%string) else
  let* ro := find_ride rid in
  match ro with
  | None => ret (Resp 404 "Ride not found"%string)
  | Some rd =>
  (* [ride.driver_id?._id || ride.driver_id]: when the driver's user
     document is gone, populate('driver_id') leaves null and
     [driverId.toString()] throws a TypeError. *)
  let* driver := find_user (ride_driver_id rd) in
  match driver with
  | None => throw TypeError
  | Some _ =>
  let driverId := ride_driver_id rd in
  if driverId =? userId then ret (Resp 400 "You cannot book your own ride"%string) else
  if ride_seats_left rd <? seats then
    ret (Resp 400 "Only ${ride.seats_left} seats available"%string) else
  let totalAmount := total_cents (ride_price_per_seat rd) seats in
  let* passengerWallet := getOrCreateWallet userId in
  if w_balance passengerWallet <? totalAmount then
    ret (Resp 400 "Insufficient wallet balance"%string) else
  (* passengerWallet.balance -= totalAmount; await passengerWallet.save() *)
  let* _ := wallet_save userId
              (set_balance passengerWallet (w_balance passengerWallet - totalAmount)) in
  let lug := Js.int_or_zero luggage_count in
  let* bk := booking_create (mkBooking rid userId seats lug BAccepted PayPaid
                               (Some WalletMethod) None None None None) in
  let* _ := ride_inc rid (- seats) (- lug) in
  let* _ := txn_create (mkTxn userId userId RidePayment (- totalAmount) totalAmount
                          0 0 totalAmount TxCompleted (Some bk) None None) in
  let* driverWallet := getOrCreateWallet driverId in
  let platformFee := platform_fee totalAmount PLATFORM_FEE_PERCENT in
  let driverEarnings := totalAmount - platformFee in
  let* _ := addEarnings driverId driverWallet driverEarnings in
  let* _ := txn_create (mkTxn driverId driverId RideEarning driverEarnings totalAmount
                          platformFee PLATFORM_FEE_PERCENT driverEarnings TxCompleted
                          (Some bk) None None) in
  ret (Resp 201 "Booking paid with wallet balance! No Stripe fees applied."%string)
  end
  end
  end.

(* ------------------------------------------------------------------ *)
(** ** [BookingController.updateBooking]
       (src/src/controllers/bookingController.js 217-727)

    [now] is the request time (ms), [refund_answer] the outcome of
    [stripe.refunds.create]: [Some (refund.id, refund.amount)] or [None]
    when the call rejects.  [stripe.paymentIntents.retrieve] only chooses
    refund parameters and its errors are swallowed.  The notifications sent
    after the save write no collection modelled here; the one of a
    cancellation fails (see [apply_status]). *)

Definition booking_status_eqb (x y : booking_status) : bool :=
  match x, y with
  | BPending, BPending | BAccepted, BAccepted
  | BRejected, BRejected | BCancelled, BCancelled => true
  | _, _ => false
  end.

Definition booking_status_name (x : booking_status) : string :=
  match x with
  | BPending => "pending" | BAccepted => "accepted"
  | BRejected => "rejected" | BCancelled => "cancelled"
  end%string.

Definition is_refunded (b : booking) : bool :=
  match bk_payment_status b with PayRefunded => true | _ => false end.
Definition is_paid (b : booking) : bool :=
  match bk_payment_status b with PayPaid => true | _ => false end.

Definition with_seats (b : booking) (n : Z) : booking :=
  mkBooking (bk_ride_id b) (bk_passenger_id b) n (bk_luggage_count b) (bk_status b)
    (bk_payment_status b) (bk_payment_method b) (bk_payment_intent_id b)
    (bk_refund_id b) (bk_refunded_at b) (bk_refund_reason b).
Definition with_status (b : booking) (st : booking_status) : booking :=
  mkBooking (bk_ride_id b) (bk_passenger_id b) (bk_seats b) (bk_luggage_count b) st
    (bk_payment_status b) (bk_payment_method b) (bk_payment_intent_id b)
    (bk_refund_id b) (bk_refunded_at b) (bk_refund_reason b).
Definition with_payment_status (b : booking) (ps : payment_status) : booking :=
  mkBooking (bk_ride_id b) (bk_passenger_id b) (bk_seats b) (bk_luggage_count b)
    (bk_status b) ps (bk_payment_method b) (bk_payment_intent_id b)
    (bk_refund_id b) (bk_refunded_at b) (bk_refund_reason b).
(** [payment_status = "refunded"; refunded_at = now; refund_reason = reason] *)
Definition mark_refunded (b : booking) (now : Z) (reason : refund_reason) : booking :=
  mkBooking (bk_ride_id b) (bk_passenger_id b) (bk_seats b) (bk_luggage_count b)
    (bk_status b) PayRefunded (bk_payment_method b) (bk_payment_intent_id b)
    (bk_refund_id b) (Some now) (Some reason).

(** [(rideDate - now) / (1000 * 60 * 60) < h] on millisecond instants. *)
Definition hours_until_lt (start now h : Z) : bool := start - now <? h * 3600000.

(** [driverWallet.balance -= e; driverWallet.total_earned -= e; save()] *)
Definition reverse_earnings (owner : oid) (w : wallet) (e : Z) : M unit :=
  wallet_save owner (mkWallet (w_balance w - e) (w_pending_balance w)
                       (w_total_earned w - e) (w_total_withdrawn w)).

(** Credit a passenger's wallet balance: [balance += amount; save()]. *)
Definition credit_balance (owner : oid) (amount : Z) : M unit :=
  let* w := getOrCreateWallet owner in
  wallet_save owner (set_balance w (w_balance w + amount)).

(** The statements of the refund [try] block (lines 385-589) before
    line 591; the result is the bkg document as they leave it. *)
Definition cancel_refund_branch (now : Z) (refund_answer : option (oid * Z))
    (id : oid) (bkg : booking) (rd : ride) : M booking :=
  let passenger := bk_passenger_id bkg in
  let driverId := ride_driver_id rd in
  match bk_payment_method bkg, bk_payment_intent_id bkg with
  | Some Card, Some pi =>
      match refund_answer with
      | None => throw StripeError
      | Some (_, amount) =>
      let* _ := modify (set_psp_refunds (fun l => l ++ [pi])) in
      let* _ := credit_balance passenger amount in
      let* _ := txn_create (mkTxn passenger passenger Refund amount amount 0 0 amount
                              TxCompleted (Some id) (Some pi) None) in
      let* driver := find_user driverId in
      let* _ :=
        if has_stripe driver then ret tt else
        try_catch
          (let* driverWallet := getOrCreateWallet driverId in
           (* grossAmount = price_per_seat * seats * 100, not rounded; the
              ledger's gross_amount keeps its nearest integer *)
           let grossAmount := Js.mul (Js.mul (ride_price_per_seat rd)
                                        (Js.num (bk_seats bkg))) (Js.num 100) in
           let driverEarnings := driver_share grossAmount PLATFORM_FEE_PERCENT in
           if driverEarnings <=? w_balance driverWallet then
             let* _ := reverse_earnings driverId driverWallet driverEarnings in
             let* _ := txn_create (mkTxn driverId driverId Refund (- driverEarnings)
                                     (Js.round grossAmount) 0 0 driverEarnings
                                     TxCompleted (Some id) (Some pi) None) in
             ret tt
           else ret tt)
          (fun _ => ret tt) in
      ret bkg
      end
  | Some WalletMethod, _ =>
      let totalAmount := total_cents (ride_price_per_seat rd) (bk_seats bkg) in
      let driverEarnings := driver_share (Js.num totalAmount) PLATFORM_FEE_PERCENT in
      let* _ := credit_balance passenger totalAmount in
      let* _ := txn_create (mkTxn passenger passenger Refund totalAmount totalAmount 0 0
                              totalAmount TxCompleted (Some id) None None) in
      let* driverWallet := getOrCreateWallet driverId in
      let* _ :=
        if driverEarnings <=? w_balance driverWallet then
          let* _ := reverse_earnings driverId driverWallet driverEarnings in
          let* _ := txn_create (mkTxn driverId driverId Refund (- driverEarnings)
                                  totalAmount 0 0 driverEarnings TxCompleted (Some id)
                                  None None) in
          ret tt
        else ret tt in
      ret (mark_refunded bkg now PassengerCancelled)
  | _, _ => ret bkg
  end.

(** The whole [try { ... } catch (refundError) { ... }] of lines 384-604:
    the bkg document when control leaves it, and whether the [catch]
    ran.  Line 591 sets [payment_status = "refunded"]; line 592 then reads
    [refund.id], but [refund] is the [const] of the card branch (line 418)
    and is not in scope there: a ReferenceError, caught with the document
    as line 591 left it.  Lines 593-594 are never reached. *)
Definition cancel_refund (now : Z) (refund_answer : option (oid * Z))
    (id : oid) (bkg : booking) (rd : ride) : M (booking * bool) :=
  fun s =>
    match cancel_refund_branch now refund_answer id bkg rd s with
    | (s1, Throw _) => (s1, Ret (bkg, true))
    | (s1, Ret b1) => (s1, Ret (with_payment_status b1 PayRefunded, true))
    end.

(** Lines 272-311: the optional seat change. *)
Definition update_seats (isPassenger : bool) (bkg : booking) (rd : ride)
    (seats : option Z) : response + booking :=
  match seats with
  | Some n =>
      if (n =? 0) || (n =? bk_seats bkg) then inr bkg
      else if negb isPassenger then
        inl (Resp 403 "Only the passenger can change the number of seats."%string)
      else if negb (booking_status_eqb (bk_status bkg) BPending) then
        inl (Resp 400 "You can only change the number of seats for a pending booking."%string)
      else
        let seatsDifference := n - bk_seats bkg in
        if (0 <? seatsDifference) && (ride_seats_left rd <? seatsDifference) then
          inl (Resp 400 "Only ${ride.seats_left} more seat(s) available on this ride"%string)
        else inr (with_seats bkg n)
  | None => inr bkg
  end.

(** Lines 319-376: the permission and transition checks of a status change. *)
Definition check_transition (now : Z) (isDriver isPassenger : bool)
    (bkg : booking) (rd : ride) (status : booking_status) : option response :=
  let oldStatus := bk_status bkg in
  match status with
  | BAccepted | BRejected =>
      if negb isDriver then
        Some (Resp 403 "Only the driver can accept or reject bookings"%string)
      else if negb (booking_status_eqb oldStatus BPending) then
        Some (Resp 400 "Can only accept/reject pending bookings"%string)
      else None
  | BCancelled =>
      if negb isPassenger then
        Some (Resp 403 "Only the passenger can cancel their booking"%string)
      else if negb (booking_status_eqb oldStatus BPending
                    || booking_status_eqb oldStatus BAccepted) then
        Some (Resp 400 "Cannot cancel this booking"%string)
      else if hours_until_lt (ride_datetime_start rd) now 24
              && booking_status_eqb oldStatus BAccepted then
        Some (Resp 400 "Cannot cancel less than 24 hours before the ride"%string)
      else None
  | BPending => None
  end.

(** Lines 612-666: the new status, the message, and the capacity update. *)
Definition apply_status (id : oid) (bkg : booking) (rd : ride)
    (oldStatus status : booking_status) : M response :=
  let bkg := with_status bkg status in
  let message :=
    if booking_status_eqb status BCancelled && is_refunded bkg
    then "Booking cancelled and refund processed successfully"%string
    else ("Booking " ++ booking_status_name status ++ " successfully")%string in
  let rideId := bk_ride_id bkg in
  let lug := bk_luggage_count bkg in
  let* stop :=
    if booking_status_eqb oldStatus BPending && booking_status_eqb status BAccepted then
      if ride_seats_left rd <? bk_seats bkg then
        ret (Some (Resp 400 "Cannot accept booking. Only ${ride.seats_left} seat(s) available."%string))
      else if (0 <? lug) && (ride_luggage_left rd <? lug) then
        ret (Some (Resp 400 "Cannot accept booking. Only ${ride.luggage_left} luggage spot(s) available."%string))
      else
        let* _ := ride_inc rideId (- bk_seats bkg) (if 0 <? lug then - lug else 0) in
        ret None
    else if booking_status_eqb oldStatus BAccepted && booking_status_eqb status BCancelled then
      let* _ := ride_inc rideId (bk_seats bkg) (if 0 <? lug then lug else 0) in
      ret None
    else ret None in
  match stop with
  | Some r => ret r
  | None =>
      let* _ := booking_save id bkg in
      (* Lines 674-712: the notification of a cancellation is addressed to
         [booking.ride_id.driver_id.toString()].  [driver_id] is the
         populated user document, whose toString is its inspected text and
         not an ObjectId, so Notification.create rejects on the cast of
         [user_id]. *)
      if booking_status_eqb status BCancelled then throw ValidationError
      else ret (Resp 200 message)
  end.

(** The handler.  Its [catch] (lines 719-725) logs [`... for ID ${id}:`],
    but [id] is the [const] of the [try] block (line 219) and is not in
    scope there: every error leaves the handler as a ReferenceError, the
    returned promise rejects and [next(error)] is never called.  Its
    outcomes are therefore read from the monad, not through [run]. *)
Definition updateBooking (now : Z) (refund_answer : option (oid * Z)) (id userId : oid)
    (status : option booking_status) (seats : option Z) : M response :=
  try_catch (
  let* bo := find_booking id in
  match bo with
  | None => ret (Resp 404 "Booking not found"%string)
  | Some bkg =>
  let* ro := find_ride (bk_ride_id bkg) in
  match ro with
  | None => ret (Resp 404 "Associated ride not found"%string)
  | Some rd =>
  (* Line 252: [ride.driver_id._id] throws a TypeError when the driver's
     user document is gone and the nested populate left null. *)
  let* driver := find_user (ride_driver_id rd) in
  match driver with
  | None => throw TypeError
  | Some _ =>
  let isDriver := ride_driver_id rd =? userId in
  let isPassenger := bk_passenger_id bkg =? userId in
  if negb isDriver && negb isPassenger then
    ret (Resp 403 "You don't have permission to modify this booking"%string) else
  match update_seats isPassenger bkg rd seats with
  | inl r => ret r
  | inr bkg =>
  let oldStatus := bk_status bkg in
  match status with
  | Some st =>
      if booking_status_eqb st oldStatus then
        let* _ := booking_save id bkg in
        ret (Resp 200 "Booking updated successfully"%string)
      else
      match check_transition now isDriver isPassenger bkg rd st with
      | Some r => ret r
      | None =>
          let* bkg :=
            if booking_status_eqb st BCancelled && is_paid bkg then
              let* res := cancel_refund now refund_answer id bkg rd in
              ret (fst res)
            else ret bkg in
          apply_status id bkg rd oldStatus st
      end
  | None =>
      let* _ := booking_save id bkg in
      ret (Resp 200 "Booking updated successfully"%string)
  end
  end
  end
  end
  end)
  (fun _ => throw ReferenceError).

(* ------------------------------------------------------------------ *)
(** ** Card payments (src/src/controllers/rideRequestController.js) *)

(** [stripe.refunds.create({ payment_intent })]: [ok] is the PSP's answer. *)
Definition psp_refund (ok : bool) (pi : oid) : M unit :=
  if ok then modify (set_psp_refunds (fun l => l ++ [pi])) else throw StripeError.

(** [driver?.stripeAccountId] of the ride's driver. *)
Definition driver_account (driver : option user) : option oid :=
  match driver with Some u => u_stripeAccountId u | None => None end.

(** [createPaymentIntent] (lines 1221-1309).  [create_ok] is the outcome
    of [stripe.paymentIntents.create]. *)
Definition createPaymentIntent (create_ok : bool) (userId : oid) (rideId : option oid)
    (seats : Z) (luggage_count : option Z) : M response :=
  match rideId with
  | None => ret (Resp 400 "rideId and seats are required"%string)
  | Some rid =>
  if seats =? 0 then ret (Resp 400 "rideId and seats are required"%string) else
  let* ro := find_ride rid in
  match ro with
  | None => ret (Resp 404 "Ride not found"%string)
  | Some rd =>
  if ride_seats_left rd <? seats then
    ret (Resp 400 "Only ${ride.seats_left} seats available"%string) else
  let* driver := find_user (ride_driver_id rd) in
  let totalAmount := total_cents (ride_price_per_seat rd) seats in
  let applicationFeeAmount := platform_fee totalAmount PLATFORM_FEE_PERCENT in
  let dest := driver_account driver in
  let paymentIntentData :=
    mkIntent totalAmount
      (match dest with Some _ => Some applicationFeeAmount | None => None end)
      dest rid userId seats (Js.int_or_zero luggage_count) in
  if create_ok then
    let* _ := modify (set_intents (fun l => l ++ [paymentIntentData])) in
    ret (Resp 201 "PaymentIntent created"%string)
  else throw StripeError
  end
  end.

(** [completePayment] (lines 1427-1560).  [pi_answer] is the result of
    [stripe.paymentIntents.retrieve]: [Some (status === "succeeded", amount)],
    or [None] when the call rejects; [refund_ok] the outcome of the refunds
    the handler issues. *)
Definition completePayment (pi_answer : option (bool * Z)) (refund_ok : bool)
    (userId : oid) (paymentIntentId rideId : option oid) (seats : Z)
    (luggage_count : option Z) : M response :=
  match paymentIntentId, rideId with
  | Some pid, Some rid =>
  if seats =? 0 then
    ret (Resp 400 "paymentIntentId, rideId and seats are required"%string) else
  match pi_answer with
  | None => throw StripeError
  | Some (succeeded, amount) =>
  if negb succeeded then
    ret (Resp 400 "Payment not completed. Status: ${paymentIntent.status}"%string) else
  let* ro := find_ride rid in
  match ro with
  | None => ret (Resp 404 "Ride not found"%string)
  | Some rd =>
  if ride_seats_left rd <? seats then
    let* _ := psp_refund refund_ok pid in
    ret (Resp 400 "Seats no longer available. Payment refunded."%string) else
  let lug := Js.int_or_zero luggage_count in
  let* created :=
    try_catch
      (let* k := booking_create (mkBooking rid userId seats lug BAccepted PayPaid
                                   (Some Card) (Some pid) None None None) in
       ret (Some k))
      (fun _ => ret None) in
  match created with
  | None =>
      let* _ := try_catch (psp_refund refund_ok pid) (fun _ => ret tt) in
      ret (Resp 500 "Failed to create booking. Payment has been refunded."%string)
  | Some bk =>
      let* _ := ride_inc rid (- seats) (- lug) in
      let driverId := ride_driver_id rd in
      let* driver := find_user driverId in
      let* _ :=
        if has_stripe driver then ret tt else
        try_catch
          (let* wallet := getOrCreateWallet driverId in
           let grossAmount := amount in
           let feeAmount := platform_fee grossAmount PLATFORM_FEE_PERCENT in
           let netAmount := grossAmount - feeAmount in
           let* _ := addEarnings driverId wallet netAmount in
           let* _ := createRideEarning driverId driverId grossAmount PLATFORM_FEE_PERCENT
                       (Some bk) (Some pid) in
           ret tt)
          (fun _ => ret tt) in
      ret (Resp 201 "Payment completed and booking confirmed!"%string)
  end
  end
  end
  | _, _ => ret (Resp 400 "paymentIntentId, rideId and seats are required"%string)
  end.

(* ------------------------------------------------------------------ *)
(** ** [BookingController.create] (src/src/controllers/bookingController.js
       15-140): a pending booking request; capacity is reserved only on
       acceptance. *)

Definition booking_exists (bs : gmap oid booking) (rid passengerId : oid) : bool :=
  bool_decide (map_Exists (fun _ b => bk_ride_id b = rid /\ bk_passenger_id b = passengerId) bs).

Definition ride_status_eqb (x y : ride_status) : bool :=
  match x, y with
  | RideActive, RideActive | RideCancelled, RideCancelled
  | RideCompleted, RideCompleted => true
  | _, _ => false
  end.

Definition createBooking (now : Z) (rideId passengerId : oid) (seats : Z)
    (luggage_count : option Z) : M response :=
  let* ro := find_ride rideId in
  match ro with
  | None => ret (Resp 404 "Ride not found"%string)
  | Some rd =>
  if negb (ride_status_eqb (r_status rd) RideActive) then
    ret (Resp 400 "This ride is not available for booking"%string) else
  if ride_datetime_start rd <=? now then
    ret (Resp 400 "Cannot book a ride in the past"%string) else
  if ride_driver_id rd =? passengerId then
    ret (Resp 400 "You cannot book your own ride"%string) else
  let* s := get in
  if booking_exists (bookings s) rideId passengerId then
    ret (Resp 409 "You already have a booking for this ride"%string) else
  if ride_seats_left rd <? seats then
    ret (Resp 400 "Only ${ride.seats_left} seat(s) available"%string) else
  let requestedLuggage := Js.int_or_zero luggage_count in
  if (0 <? requestedLuggage) && (ride_luggage_left rd <? requestedLuggage) then
    ret (Resp 400 "Only ${ride.luggage_left} luggage spot(s) available"%string) else
  let* _ := booking_create (mkBooking rideId passengerId seats requestedLuggage
                              BPending PayPending None None None None None) in
  ret (Resp 201 "Booking request created successfully"%string)
  end.

(* ------------------------------------------------------------------ *)
(** ** [RideController.create] and [RideController.cancel]
       (src/unnamed/part_012 17-150 and 638-975) *)

(** rideSchema validators ([min] on the counters and the price). *)
Definition ride_valid (rd : ride) : bool :=
  bool_decide (1 <= ride_seats_total rd /\ 0 <= ride_seats_left rd
               /\ 0 <= ride_luggage_capacity rd /\ 0 <= ride_luggage_left rd)
  && negb (PrimFloat.ltb (ride_price_per_seat rd) (Js.num 0)).

(** [airport_found] is the outcome of [Airport.findById]; the route lookup
    only fills a field not modelled here. *)
Definition createRide (now : Z) (airport_found : bool) (driverId datetime_start seats_total : Z)
    (price_per_seat : float) (luggage_capacity : option Z) : M response :=
  if negb airport_found then ret (Resp 404 "Airport not found"%string) else
  if datetime_start <=? now then ret (Resp 400 "Ride date must be in the future"%string) else
  let luggage := Js.int_or_zero luggage_capacity in
  let rd := mkRide driverId datetime_start seats_total seats_total price_per_seat
              luggage luggage RideActive in
  if negb (ride_valid rd) then throw ValidationError else
  let* k := fresh_id in
  let* _ := modify (set_rides (insert k rd)) in
  ret (Resp 201 "Ride created successfully"%string).

(** [Booking.findByIdAndUpdate(id, fields)]: no validators run. *)
Definition booking_update (k : oid) (f : booking -> booking) : M unit :=
  modify (set_bookings (fun m => match m !! k with
                                 | Some b => <[k := f b]> m
                                 | None => m
                                 end)).

Definition set_refund (b : booking) (refund_id : option oid) (now : Z)
    (reason : refund_reason) : booking :=
  mkBooking (bk_ride_id b) (bk_passenger_id b) (bk_seats b) (bk_luggage_count b)
    (bk_status b) PayRefunded (bk_payment_method b) (bk_payment_intent_id b)
    refund_id (Some now) (Some reason).

Definition is_pending_or_accepted (b : booking) : bool :=
  match bk_status b with BPending | BAccepted => true | _ => false end.

(** [Booking.updateMany({ ride_id: id, status: {$in: [pending, accepted]} },
    { status: "cancelled" })] *)
Definition cancel_ride_bookings (rid : oid) (bs : gmap oid booking) : gmap oid booking :=
  (fun b => if (bk_ride_id b =? rid) && is_pending_or_accepted b
            then with_status b BCancelled else b) <$> bs.

(** One iteration of the refund loop (lines 729-931). *)
Definition ride_cancel_refund (now : Z) (refund_answer : oid -> option (oid * Z))
    (driverId : oid) (rd : ride) (k : oid) (b : booking) : M unit :=
  match bk_payment_method b, bk_payment_intent_id b with
  | Some Card, Some pi =>
      match refund_answer k with
      | None => throw StripeError
      | Some (refund_id, amount) =>
      let* _ := modify (set_psp_refunds (fun l => l ++ [pi])) in
      let passenger := bk_passenger_id b in
      let* _ := getOrCreateWallet passenger in
      let* _ := txn_create (mkTxn passenger passenger Refund amount amount 0 0 amount
                              TxCompleted (Some k) (Some pi) None) in
      let* driver := find_user driverId in
      let* _ :=
        if has_stripe driver then ret tt else
        try_catch
          (let* driverWallet := getOrCreateWallet driverId in
           let grossAmount := Js.mul (Js.mul (ride_price_per_seat rd)
                                        (Js.num (bk_seats b))) (Js.num 100) in
           let driverEarnings := driver_share grossAmount PLATFORM_FEE_PERCENT in
           if driverEarnings <=? w_balance driverWallet then
             let* _ := reverse_earnings driverId driverWallet driverEarnings in
             let* _ := txn_create (mkTxn driverId driverId Refund (- driverEarnings)
                                     (Js.round grossAmount) 0 0 driverEarnings
                                     TxCompleted (Some k) (Some pi) None) in
             ret tt
           else ret tt)
          (fun _ => ret tt) in
      booking_update k (fun b' => set_refund b' (Some refund_id) now RideCancelledReason)
      end
  | Some WalletMethod, _ =>
      let totalAmount := total_cents (ride_price_per_seat rd) (bk_seats b) in
      let driverEarnings := driver_share (Js.num totalAmount) PLATFORM_FEE_PERCENT in
      let passenger := bk_passenger_id b in
      let* _ := credit_balance passenger totalAmount in
      let* _ := txn_create (mkTxn passenger passenger Refund totalAmount totalAmount 0 0
                              totalAmount TxCompleted (Some k) None None) in
      let* driverWallet := getOrCreateWallet driverId in
      let* _ :=
        if driverEarnings <=? w_balance driverWallet then
          let* _ := reverse_earnings driverId driverWallet driverEarnings in
          let* _ := txn_create (mkTxn driverId driverId Refund (- driverEarnings)
                                  totalAmount 0 0 driverEarnings TxCompleted (Some k)
                                  None None) in
          ret tt
        else ret tt in
      booking_update k (fun b' => set_refund b' (bk_refund_id b') now RideCancelledReason)
  | _, _ => ret tt
  end.

(** The loop with its [try/catch] per booking: (processed, failed). *)
Fixpoint ride_cancel_refunds (now : Z) (refund_answer : oid -> option (oid * Z))
    (driverId : oid) (rd : ride) (l : list (oid * booking)) : M (Z * Z) :=
  match l with
  | [] => ret (0, 0)
  | (k, b) :: l' =>
      let* ok := try_catch (let* _ := ride_cancel_refund now refund_answer driverId rd k b in
                            ret true) (fun _ => ret false) in
      let* pf := ride_cancel_refunds now refund_answer driverId rd l' in
      ret (if ok then (pf.1 + 1, pf.2) else (pf.1, pf.2 + 1))
  end.

(** [Booking.find({ ride_id, status: {$in: [pending, accepted]},
    payment_status: "paid" })], in key order. *)
Definition paid_bookings (rid : oid) (bs : gmap oid booking) : list (oid * booking) :=
  filter (fun kb => (bk_ride_id kb.2 =? rid) && is_pending_or_accepted kb.2 && is_paid kb.2)
    (map_to_list bs).

Definition ride_with_status (rd : ride) (st : ride_status) : ride :=
  mkRide (ride_driver_id rd) (ride_datetime_start rd) (ride_seats_total rd)
    (ride_seats_left rd) (ride_price_per_seat rd) (ride_luggage_capacity rd)
    (ride_luggage_left rd) st.

Definition cancelRide (now : Z) (refund_answer : oid -> option (oid * Z))
    (id driverId : oid) : M response :=
  let* ro := find_ride id in
  match ro with
  | None => ret (Resp 404 "Ride not found"%string)
  | Some existingRide =>
  if negb (ride_driver_id existingRide =? driverId) then
    ret (Resp 403 "You can only cancel your own rides"%string) else
  if hours_until_lt (ride_datetime_start existingRide) now 12 then
    ret (Resp 400 "Cannot cancel ride less than 12 hours before departure. Please contact support if this is an emergency."%string) else
  let* s := get in
  let paidBookings := paid_bookings id (bookings s) in
  let* _ := modify (set_rides (insert id (ride_with_status existingRide RideCancelled))) in
  let* _ := modify (set_bookings (cancel_ride_bookings id)) in
  let* counts := ride_cancel_refunds now refund_answer driverId existingRide paidBookings in
  let processed := counts.1 in
  let failed := counts.2 in
  let some_processed := 0 <? processed in
  let some_failed := 0 <? failed in
  let message :=
    ("Ride cancelled successfully"
     ++ (if some_processed then ". " ++ pretty processed ++ " passenger refund(s) processed" else "")
     ++ (if some_failed then ". " ++ pretty failed ++ " refund(s) failed - please contact support" else ""))%string in
  ret (Resp 200 message)
  end.

(* ------------------------------------------------------------------ *)
(** ** Ledger and payout queries *)

(** [Transaction.findOne(filter)]: the first match in insertion order. *)
Definition txn_find (P : txn -> bool) : M (option (oid * txn)) :=
  fun s => (s, Ret (List.find (fun kt => P kt.2) (txns s))).

(** [Transaction.findOneAndUpdate(filter, fields)]: the first match. *)
Fixpoint update_first (P : txn -> bool) (f : txn -> txn) (l : list (oid * txn))
    : list (oid * txn) :=
  match l with
  | [] => []
  | (k, t) :: l' => if P t then (k, f t) :: l' else (k, t) :: update_first P f l'
  end.

Definition txn_update_first (P : txn -> bool) (f : txn -> txn) : M unit :=
  modify (set_txns (update_first P f)).

Definition with_tx_state (t : txn) (st : tx_status) : txn :=
  mkTxn (tx_wallet_id t) (tx_user_id t) (tx_kind t) (tx_amount t) (tx_gross_amount t)
    (tx_fee_amount t) (tx_fee_percentage t) (tx_net_amount t) st (tx_reference_id t)
    (tx_payment_intent_id t) (tx_transfer_id t).

Definition with_tx_transfer (t : txn) (st : tx_status) (tr : oid) : txn :=
  mkTxn (tx_wallet_id t) (tx_user_id t) (tx_kind t) (tx_amount t) (tx_gross_amount t)
    (tx_fee_amount t) (tx_fee_percentage t) (tx_net_amount t) st (tx_reference_id t)
    (tx_payment_intent_id t) (Some tr).

Definition tx_type_eqb (x y : tx_type) : bool :=
  match x, y with
  | RideEarning, RideEarning | RidePayment, RidePayment | PlatformFee, PlatformFee
  | Withdrawal, Withdrawal | WithdrawalFailed, WithdrawalFailed | Refund, Refund
  | Bonus, Bonus | Adjustment, Adjustment => true
  | _, _ => false
  end.

Definition opt_eqb (x : option oid) (y : oid) : bool :=
  match x with Some z => z =? y | None => false end.

(** [Payout.findOne(filter)]: the first match in key order. *)
Definition payout_find (P : payout -> bool) : M (option (oid * payout)) :=
  fun s => (s, Ret (head (filter (fun kp => P kp.2) (map_to_list (payouts s))))).

(** payoutSchema: [amount] has [min: 1]. *)
Definition payout_save (k : oid) (p : payout) : M unit :=
  if 1 <=? po_amount p then modify (set_payouts (insert k p)) else throw ValidationError.

Definition payout_create (p : payout) : M oid :=
  if 1 <=? po_amount p then
    let* k := fresh_id in
    let* _ := modify (set_payouts (insert k p)) in
    ret k
  else throw ValidationError.

Definition with_po (p : payout) (st : payout_status) (spid stid tid : option oid) : payout :=
  mkPayout (po_user_id p) (po_wallet_id p) (po_amount p) st spid stid tid.

(** [payout.markProcessing(stripe_payout_id, stripe_transfer_id)] *)
Definition markProcessing (k : oid) (p : payout) (spid stid : option oid) : M payout :=
  let p' := with_po p PoProcessing spid stid (po_transaction_id p) in
  let* _ := payout_save k p' in ret p'.
(** [payout.markCompleted()] *)
Definition markCompleted (k : oid) (p : payout) : M payout :=
  let p' := with_po p PoCompleted (po_stripe_payout_id p) (po_stripe_transfer_id p)
              (po_transaction_id p) in
  let* _ := payout_save k p' in ret p'.
(** [payout.markFailed(reason, code)] *)
Definition markFailed (k : oid) (p : payout) : M payout :=
  let p' := with_po p PoFailed (po_stripe_payout_id p) (po_stripe_transfer_id p)
              (po_transaction_id p) in
  let* _ := payout_save k p' in ret p'.

Definition find_wallet (k : oid) : M (option wallet) :=
  fun s => (s, Ret (wallets s !! k)).

(* ------------------------------------------------------------------ *)
(** ** Stripe webhooks (src/src/controllers/walletController.js 553-853) *)

(** [handlePaymentIntentSucceeded] (613-688). *)
Definition handlePaymentIntentSucceeded (pi_id amount : Z)
    (rideId passengerId driverId bookingId : option oid) : M unit :=
  match rideId, driverId with
  | Some rid, Some did =>
  let* ro := find_ride rid in
  let* driver := find_user did in
  match ro, driver with
  | Some _, Some _ =>
  let* wallet := getOrCreateWallet did in
  let grossAmount := amount in
  let feeAmount := platform_fee grossAmount PLATFORM_FEE_PERCENT in
  let netAmount := grossAmount - feeAmount in
  let* existing := txn_find (fun t => opt_eqb (tx_payment_intent_id t) pi_id) in
  match existing with
  | Some _ => ret tt
  | None =>
  (* [booking || { _id: bookingId }]: the reference is [bookingId] when it
     is given, else the accepted booking of the passenger on the ride *)
  let* s := get in
  let booking_ref :=
    match bookingId with
    | Some b => Some b
    | None =>
        match passengerId with
        | Some p =>
            fst <$> head (filter (fun kb => (bk_ride_id kb.2 =? rid)
                                          && (bk_passenger_id kb.2 =? p)
                                          && booking_status_eqb (bk_status kb.2) BAccepted)
                            (map_to_list (bookings s)))
        | None => None
        end
    end in
  let* _ := addEarnings did wallet netAmount in
  let* _ := createRideEarning did did grossAmount PLATFORM_FEE_PERCENT booking_ref (Some pi_id) in
  ret tt
  end
  | _, _ => ret tt
  end
  | _, _ => ret tt
  end.

(** [handlePaymentIntentFailed] *)
Definition handlePaymentIntentFailed (bookingId : option oid) : M unit :=
  match bookingId with
  | Some b => booking_update b (fun bk => with_payment_status bk PayFailed)
  | None => ret tt
  end.

(** [handleTransferCreated] *)
Definition handleTransferCreated (transfer_id : oid) (payout_id : option oid) : M unit :=
  match payout_id with
  | None => ret tt
  | Some k =>
      fun s => match payouts s !! k with
               | Some p => payout_save k (with_po p (po_status p) (po_stripe_payout_id p)
                                            (Some transfer_id) (po_transaction_id p)) s
               | None => (s, Ret tt)
               end
  end.

Definition is_withdrawal_of (k : oid) (t : txn) : bool :=
  opt_eqb (tx_reference_id t) k && tx_type_eqb (tx_kind t) Withdrawal.

(** [handlePayoutPaid] *)
Definition handlePayoutPaid (stripe_payout_id : oid) : M unit :=
  let* found := payout_find (fun p => opt_eqb (po_stripe_payout_id p) stripe_payout_id) in
  match found with
  | None => ret tt
  | Some (k, p) =>
      let* _ := markCompleted k p in
      txn_update_first (is_withdrawal_of k) (fun t => with_tx_state t TxCompleted)
  end.

(** [handlePayoutFailed] *)
Definition handlePayoutFailed (stripe_payout_id : oid) : M unit :=
  let* found := payout_find (fun p => opt_eqb (po_stripe_payout_id p) stripe_payout_id) in
  match found with
  | None => ret tt
  | Some (k, p) =>
      let* _ := markFailed k p in
      let* wo := find_wallet (po_wallet_id p) in
      let* _ := match wo with
                | Some w => let* _ := refundWithdrawal (po_wallet_id p) w (po_amount p) in ret tt
                | None => ret tt
                end in
      txn_update_first (is_withdrawal_of k) (fun t => with_tx_state t TxFailed)
  end.

(** [handleAccountUpdated]: looks the user up and only logs. *)
Definition handleAccountUpdated (account_id : oid) : M unit := ret tt.

(** [handleChargeRefunded] (805-852). *)
Definition handleChargeRefunded (payment_intent : option oid) (amount_refunded : Z) : M unit :=
  match payment_intent with
  | None => ret tt
  | Some pi =>
  let* orig := txn_find (fun t => opt_eqb (tx_payment_intent_id t) pi
                                  && tx_type_eqb (tx_kind t) RideEarning) in
  match orig with
  | None => ret tt
  | Some (_, originalTransaction) =>
  let refundAmount := amount_refunded in
  let feePercentage := if tx_fee_percentage originalTransaction =? 0 then 10
                       else tx_fee_percentage originalTransaction in
  let driverRefund := driver_share (Js.num refundAmount) feePercentage in
  let wid := tx_wallet_id originalTransaction in
  let* wo := find_wallet wid in
  match wo with
  | Some wallet =>
      if driverRefund <=? w_balance wallet then
        let* _ := reverse_earnings wid wallet driverRefund in
        let* _ := txn_create (mkTxn wid (tx_user_id originalTransaction) Refund
                                (- driverRefund) refundAmount (refundAmount - driverRefund)
                                10 driverRefund TxCompleted
                                (tx_reference_id originalTransaction) (Some pi) None) in
        ret tt
      else ret tt
  | None => ret tt
  end
  end
  end.

(** The verified events the endpoint dispatches on. *)
Inductive event :=
| PaymentIntentSucceeded (id amount : Z) (rideId passengerId driverId bookingId : option oid)
| PaymentIntentPaymentFailed (bookingId : option oid)
| TransferCreated (id : oid) (payout_id : option oid)
| PayoutPaid (id : oid)
| PayoutFailed (id : oid)
| AccountUpdated (id : oid)
| ChargeRefunded (payment_intent : option oid) (amount_refunded : Z)
| OtherEvent.

Definition dispatch (ev : event) : M unit :=
  match ev with
  | PaymentIntentSucceeded id amount r p d b => handlePaymentIntentSucceeded id amount r p d b
  | PaymentIntentPaymentFailed b => handlePaymentIntentFailed b
  | TransferCreated id p => handleTransferCreated id p
  | PayoutPaid id => handlePayoutPaid id
  | PayoutFailed id => handlePayoutFailed id
  | AccountUpdated id => handleAccountUpdated id
  | ChargeRefunded pi a => handleChargeRefunded pi a
  | OtherEvent => ret tt
  end.

(** [handleWebhook] after signature verification. *)
Definition handleWebhook (ev : event) : M response :=
  try_catch (let* _ := dispatch ev in ret (Resp 200 "received"%string))
    (fun _ => ret (Resp 500 "Webhook handler failed"%string)).

(* ------------------------------------------------------------------ *)
(** ** [requestWithdrawal] (src/src/controllers/walletController.js 146-295) *)

Definition MINIMUM_WITHDRAWAL : Z := 500.

Definition is_inflight (p : payout) : bool :=
  match po_status p with PoPending | PoProcessing => true | _ => false end.

(** [amount] is the body's cents amount (0 when missing), [amount_eur] the
    [parseFloat] of the euro field; [transfer_answer] is the id of the
    transfer [stripe.transfers.create] returns, [None] when it rejects. *)
Definition requestWithdrawal (transfer_answer : option oid) (userId : oid)
    (amount : Z) (amount_eur : option float) : M response :=
  let amount :=
    if amount =? 0 then
      match amount_eur with Some e => Js.round (Js.mul e (Js.num 100)) | None => 0 end
    else amount in
  if amount <=? 0 then ret (Resp 400 "Valid withdrawal amount is required"%string) else
  if amount <? MINIMUM_WITHDRAWAL then ret (Resp 400 "Minimum withdrawal is 5.00 EUR"%string) else
  let* uo := find_user userId in
  let* wallet := getOrCreateWallet userId in
  if w_balance wallet <? amount then ret (Resp 400 "Insufficient balance"%string) else
  match uo with
  | None => throw TypeError
  | Some usr =>
  match u_stripeAccountId usr with
  | None => ret (Resp 400 "Please connect your bank account first"%string)
  | Some _ =>
  let* pendingPayout := payout_find (fun p => (po_user_id p =? userId) && is_inflight p) in
  match pendingPayout with
  | Some _ => ret (Resp 400 "You already have a pending withdrawal. Please wait for it to complete."%string)
  | None =>
  let payout0 := mkPayout userId userId amount PoPending None None None in
  let* pid := payout_create payout0 in
  let* wallet := withdraw userId wallet amount in
  let* tid := createWithdrawal userId userId amount pid in
  let payout := with_po payout0 PoPending None None (Some tid) in
  let* _ := payout_save pid payout in
  try_catch
    (match transfer_answer with
     | None => throw StripeError
     | Some tr =>
         let* _ := markProcessing pid payout None (Some tr) in
         let* _ := modify (set_txns (map (fun kt => if kt.1 =? tid
                                                    then (kt.1, with_tx_transfer kt.2 TxCompleted tr)
                                                    else kt))) in
         ret (Resp 200 "Withdrawal initiated successfully"%string)
     end)
    (* the [catch] is reached only from a rejected transfer: the saves in
       the [try] cannot fail, so [payout] is still the document saved above *)
    (fun _ =>
       let* _ := refundWithdrawal userId wallet amount in
       let* _ := markFailed pid payout in
       let* _ := modify (set_txns (map (fun kt => if kt.1 =? tid
                                                  then (kt.1, with_tx_state kt.2 TxFailed)
                                                  else kt))) in
       ret (Resp 500 "Failed to process withdrawal. Please try again later."%string))
  end
  end
  end.

(* ------------------------------------------------------------------ *)
(** ** Ratings (src/src/controllers/ratingController.js) *)

Definition RIDE_COMPLETION_BUFFER_MS : Z := 30 * 60 * 1000.

(** Reading a property of a populated ride document: only the paths of
    rideSchema (src/unnamed/part_007) carry a value; any other property,
    such as [departure_datetime], is [undefined]. *)
Definition ride_get (rd : ride) (path : string) : option Z :=
  if String.eqb path "datetime_start" then Some (ride_datetime_start rd) else None.

(** [Rating.create]: stars in 1..5, then the unique
    [(booking_id, from_user, to_user)] index. *)
Definition rating_create (r : rating) : M unit :=
  if negb ((1 <=? rt_stars r) && (rt_stars r <=? 5)) then throw ValidationError else
  fun s =>
    if List.existsb (fun r' => (rt_booking_id r' =? rt_booking_id r)
                               && (rt_from_user r' =? rt_from_user r)
                               && (rt_to_user r' =? rt_to_user r)) (ratings s)
    then (s, Throw DuplicateKey)
    else (set_ratings (fun l => l ++ [r]) s, Ret tt).

(** The guard of lines 51-62 and 277-291. *)
Definition before_completion (rd : ride) (now : Z) : bool :=
  match ride_get rd "departure_datetime" with
  | Some departureTime => now <? departureTime + RIDE_COMPLETION_BUFFER_MS
  | None => false
  end.

(** [RatingController.createRating] (15-130).  [stars] is 0 when missing;
    [RatingController.updateUserRating] only recomputes profile averages,
    which are not modelled. *)
Definition createRating (now : Z) (fromUserId booking_id stars : Z) : M response :=
  handler (
  if (stars =? 0) || (stars <? 1) || (5 <? stars) then
    ret (Resp 400 "Stars must be between 1 and 5"%string) else
  let* bo := find_booking booking_id in
  match bo with
  | None => ret (Resp 404 "Booking not found"%string)
  | Some booking =>
  if negb (booking_status_eqb (bk_status booking) BAccepted) then
    ret (Resp 400 "Can only rate completed rides"%string) else
  let* ro := find_ride (bk_ride_id booking) in
  let* po := find_user (bk_passenger_id booking) in
  match ro, po with
  | None, _ | _, None => throw TypeError
  | Some rd, Some _ =>
  if before_completion rd now then
    ret (Resp 400 "Cannot rate until the ride is completed"%string) else
  let driverId := ride_driver_id rd in
  let passengerId := bk_passenger_id booking in
  let target :=
    if fromUserId =? driverId then Some (passengerId, DriverToPassenger)
    else if fromUserId =? passengerId then Some (driverId, PassengerToDriver)
    else None in
  match target with
  | None => ret (Resp 403 "You are not part of this booking"%string)
  | Some (toUserId, ratingType) =>
  let* s := get in
  if List.existsb (fun r => (rt_booking_id r =? booking_id) && (rt_from_user r =? fromUserId)
                            && (rt_to_user r =? toUserId)) (ratings s) then
    ret (Resp 400 "You have already rated this ride"%string) else
  try_catch
    (let* _ := rating_create (mkRating fromUserId toUserId booking_id (bk_ride_id booking)
                                ratingType stars) in
     ret (Resp 201 "Rating submitted successfully"%string))
    (fun e => match e with
              | DuplicateKey => ret (Resp 400 "You have already rated this ride"%string)
              | _ => throw e
              end)
  end
  end
  end).

(** [RatingController.canRateBooking] (248-350). *)
Definition canRateBooking (now : Z) (userId bookingId : Z) : M response :=
  handler (
  let* bo := find_booking bookingId in
  match bo with
  | None => ret (Resp 404 "Booking not found"%string)
  | Some booking =>
  if negb (booking_status_eqb (bk_status booking) BAccepted) then
    ret (CanRate false "Ride not completed"%string) else
  let* ro := find_ride (bk_ride_id booking) in
  let* po := find_user (bk_passenger_id booking) in
  match ro, po with
  | None, _ | _, None => throw TypeError
  | Some rd, Some _ =>
  if before_completion rd now then ret (CanRate false "Ride not yet completed"%string) else
  let driverId := ride_driver_id rd in
  let passengerId := bk_passenger_id booking in
  if negb (userId =? driverId) && negb (userId =? passengerId) then
    ret (CanRate false "Not part of this booking"%string) else
  let toUserId := if userId =? driverId then passengerId else driverId in
  let* s := get in
  if List.existsb (fun r => (rt_booking_id r =? bookingId) && (rt_from_user r =? userId))
       (ratings s) then
    ret (CanRate false "Already rated"%string) else
  let* target := find_user toUserId in
  match target with
  | None => throw TypeError
  | Some _ => ret (CanRate true ""%string)
  end
  end
  end).

(* ------------------------------------------------------------------ *)
(** ** Ride requests and offers (src/src/controllers/rideRequestController.js) *)

Definition offer_status_eqb (x y : offer_status) : bool :=
  match x, y with
  | OfferPending, OfferPending | OfferAccepted, OfferAccepted
  | OfferRejected, OfferRejected => true
  | _, _ => false
  end.

Definition request_status_eqb (x y : request_status) : bool :=
  match x, y with
  | ReqPending, ReqPending | ReqMatched, ReqMatched | ReqAccepted, ReqAccepted
  | ReqCancelled, ReqCancelled | ReqExpired, ReqExpired => true
  | _, _ => false
  end.

Definition with_offer_status (o : offer) (st : offer_status) : offer :=
  mkOffer (of_id o) (of_driver o) (of_ride o) (of_price_per_seat o) st.

(** [request.offers.id(offer_id)]: the first subdocument with that id. *)
Definition offers_id (l : list offer) (k : oid) : option offer :=
  List.find (fun o => of_id o =? k) l.

(** [offer.status = "accepted"] on the subdocument [offers.id] returned. *)
Fixpoint accept_first (l : list offer) (k : oid) : list offer :=
  match l with
  | [] => []
  | o :: l' => if of_id o =? k then with_offer_status o OfferAccepted :: l'
               else o :: accept_first l' k
  end.

(** [request.offers.forEach(o => { if (o._id.toString() !== offer_id)
    o.status = "rejected" })] *)
Definition reject_others (l : list offer) (k : oid) : list offer :=
  map (fun o => if of_id o =? k then o else with_offer_status o OfferRejected) l.

(** The accept block: offer statuses, request status and match.  The
    [request.payment_status = "paid"] of [acceptOfferWithPayment] is an
    assignment to a path rideRequestSchema does not declare, so the save
    drops it and the stored [rr_payment_status] is kept. *)
Definition accept_request (r : ride_request) (o : offer) (k : oid) : ride_request :=
  mkRequest (rr_passenger r) (rr_seats_needed r) ReqAccepted (Some (of_driver o))
    (of_ride o) (reject_others (accept_first (rr_offers r) k) k) (rr_payment_status r).

(** [RideRequest.findOne({ _id: requestId, passenger: userId })] *)
Definition find_own_request (requestId userId : oid) : M (option ride_request) :=
  fun s => (s, Ret (match requests s !! requestId with
                    | Some r => if rr_passenger r =? userId then Some r else None
                    | None => None
                    end)).

Definition request_save (k : oid) (r : ride_request) : M unit :=
  modify (set_requests (insert k r)).

(** [acceptOffer] (569-700). *)
Definition acceptOffer (userId requestId offer_id : oid) : M response :=
  let* ro := find_own_request requestId userId in
  match ro with
  | None => ret (Resp 404 "Request not found"%string)
  | Some request =>
  if negb (request_status_eqb (rr_status request) ReqPending) then
    ret (Resp 400 "Request is no longer pending"%string) else
  match offers_id (rr_offers request) offer_id with
  | None => ret (Resp 404 "Offer not found"%string)
  | Some offer =>
      let* _ := request_save requestId (accept_request request offer offer_id) in
      ret (Resp 200 "Offer accepted"%string)
  end
  end.

(** [acceptOfferWithPayment] (742-1000).  [payment_method] is [None] for
    any value other than "wallet" and "card"; [pi_answer] is the result of
    [stripe.paymentIntents.retrieve] ([Some (status === "succeeded")], or
    [None] when it rejects). *)
Definition acceptOfferWithPayment (pi_answer : option bool) (userId requestId offer_id : oid)
    (payment_method : option payment_method) (payment_intent_id : option oid) : M response :=
  let* ro := find_own_request requestId userId in
  match ro with
  | None => ret (Resp 404 "Request not found"%string)
  | Some request =>
  if negb (request_status_eqb (rr_status request) ReqPending) then
    ret (Resp 400 "Request is no longer pending"%string) else
  match offers_id (rr_offers request) offer_id with
  | None => ret (Resp 404 "Offer not found"%string)
  | Some offer =>
  if negb (offer_status_eqb (of_status offer) OfferPending) then
    ret (Resp 400 "Offer is no longer pending"%string) else
  let totalAmount := total_cents (of_price_per_seat offer) (rr_seats_needed request) in
  let platformFee := platform_fee totalAmount PLATFORM_FEE_PERCENT in
  let driverEarnings := totalAmount - platformFee in
  let driverId := of_driver offer in
  let* paid :=
    match payment_method with
    | Some WalletMethod =>
        let* passengerWallet := getOrCreateWallet userId in
        if w_balance passengerWallet <? totalAmount then
          ret (Some (Resp 400 "Insufficient wallet balance"%string)) else
        let* _ := wallet_save userId
                    (set_balance passengerWallet (w_balance passengerWallet - totalAmount)) in
        let* _ := txn_create (mkTxn userId userId RidePayment (- totalAmount) totalAmount 0 0
                                totalAmount TxCompleted (Some requestId) None None) in
        let* driverWallet := getOrCreateWallet driverId in
        let* _ := addEarnings driverId driverWallet driverEarnings in
        let* _ := txn_create (mkTxn driverId driverId RideEarning driverEarnings totalAmount
                                platformFee PLATFORM_FEE_PERCENT driverEarnings TxCompleted
                                (Some requestId) None None) in
        ret None
    | Some Card =>
        match payment_intent_id with
        | None => ret (Some (Resp 400 "Payment intent ID required for card payment"%string))
        | Some pid =>
        match pi_answer with
        | None => throw StripeError
        | Some false => ret (Some (Resp 400 "Payment not completed. Status: ${paymentIntent.status}"%string))
        | Some true =>
            let* driver := find_user driverId in
            let* _ :=
              if has_stripe driver then ret tt else
              let* driverWallet := getOrCreateWallet driverId in
              let* _ := addEarnings driverId driverWallet driverEarnings in
              let* _ := txn_create (mkTxn driverId driverId RideEarning driverEarnings
                                      totalAmount platformFee PLATFORM_FEE_PERCENT
                                      driverEarnings TxCompleted (Some requestId)
                                      (Some pid) None) in
              ret tt in
            ret None
        end
        end
    | None => ret (Some (Resp 400 "Invalid payment method"%string))
    end in
  match paid with
  | Some r => ret r
  | None =>
      let* _ := request_save requestId (accept_request request offer offer_id) in
      ret (Resp 200 "Offer accepted and payment processed"%string)
  end
  end
  end.

(** [rejectOffer] (1095-1154). *)
Definition rejectOffer (userId requestId offer_id : oid) : M response :=
  let* ro := find_own_request requestId userId in
  match ro with
  | None => ret (Resp 404 "Request not found"%string)
  | Some request =>
  match offers_id (rr_offers request) offer_id with
  | None => ret (Resp 404 "Offer not found"%string)
  | Some _ =>
      let offers := (fix go (l : list offer) : list offer :=
                       match l with
                       | [] => []
                       | o :: l' => if of_id o =? offer_id
                                    then with_offer_status o OfferRejected :: l'
                                    else o :: go l'
                       end) (rr_offers request) in
      let* _ := request_save requestId
                  (mkRequest (rr_passenger request) (rr_seats_needed request)
                     (rr_status request) (rr_matched_driver request)
                     (rr_matched_ride request) offers (rr_payment_status request)) in
      ret (Resp 200 "Offer rejected"%string)
  end
  end.

(** [RideRequest.findById(requestId)] *)
Definition find_request (requestId : oid) : M (option ride_request) :=
  fun s => (s, Ret (requests s !! requestId)).

(** [Ride.findOne({ _id: ride_id, driver: req.user.id })].  The Ride schema
    has no [driver] path: the owner is [driver_id].  With [strictQuery] on
    (the default of mongoose 6) the unknown path is dropped from the filter
    and the ride with that id matches whoever owns it; with it off (the
    default from mongoose 7) the filter reaches MongoDB, where no ride
    document has a [driver] field, and nothing matches.  The repository
    does not pin the mongoose version, so the setting is an input. *)
Definition find_ride_of_driver (strictQuery : bool) (ride_id driverId : oid) : M (option ride) :=
  fun s => (s, Ret (if strictQuery then rides s !! ride_id else None)).

(** [makeOffer] (472-566).  [ride_id] is the body field ([None] when it is
    absent or falsy), [offer_key] the [_id] mongoose gives the new offer
    subdocument.  The population of [offers.driver], the notification
    (inside its own try/catch) and the cache invalidation after the save
    touch no collection modelled here. *)
Definition makeOffer (strictQuery : bool) (driverId requestId offer_key : oid)
    (ride_id : option oid) (price_per_seat : float) : M response :=
  let* ro := find_request requestId in
  match ro with
  | None => ret (Resp 404 "Request not found"%string)
  | Some request =>
  if negb (request_status_eqb (rr_status request) ReqPending) then
    ret (Resp 400 "Request is no longer available"%string) else
  if List.existsb (fun o => of_driver o =? driverId) (rr_offers request) then
    ret (Resp 400 "You already made an offer on this request"%string) else
  let* ride :=
    match ride_id with
    | Some rid => find_ride_of_driver strictQuery rid driverId
    | None => ret None
    end in
  match ride_id, ride with
  | Some _, None => ret (Resp 404 "Ride not found or not yours"%string)
  | _, _ =>
      let request' := mkRequest (rr_passenger request) (rr_seats_needed request)
                        (rr_status request) (rr_matched_driver request) (rr_matched_ride request)
                        (rr_offers request ++ [mkOffer offer_key driverId ride_id price_per_seat OfferPending])
                        (rr_payment_status request) in
      let* _ := request_save requestId request' in
      ret (Resp 200 "Offer sent successfully"%string)
  end
  end.

(** [request.offers.findIndex(o => o.driver == user && o.status === "pending")] *)
Fixpoint remove_pending_offer (l : list offer) (driverId : oid) : option (list offer) :=
  match l with
  | [] => None
  | o :: l' =>
      if (of_driver o =? driverId) && offer_status_eqb (of_status o) OfferPending
      then Some l'
      else (fun l'' => o :: l'') <$> remove_pending_offer l' driverId
  end.

(** [withdrawOffer] (1178-1210). *)
Definition withdrawOffer (driverId requestId : oid) : M response :=
  fun s =>
  match requests s !! requestId with
  | None => (s, Ret (Resp 404 "Request not found"%string))
  | Some request =>
  match remove_pending_offer (rr_offers request) driverId with
  | None => (s, Ret (Resp 404 "No pending offer found"%string))
  | Some offers =>
      let request' := mkRequest (rr_passenger request) (rr_seats_needed request)
                        (rr_status request) (rr_matched_driver request)
                        (rr_matched_ride request) offers (rr_payment_status request) in
      (set_requests (insert requestId request') s,
       Ret (Resp 200 "Offer withdrawn successfully"%string))
  end
  end.

(** [cancelRequest] (1156-1175), route [PUT /:id/cancel]:
    [RideRequest.findOneAndDelete({ _id: req.params.id, passenger: req.user.id })]
    finds the request with that id whose [passenger] is the caller (the
    filter of [find_own_request]; no condition on its status) and deletes
    it in the same call; [null] gives 404 "Request not found", a request
    gives [res.json] (status 200) "Request cancelled and removed
    successfully".  [passenger] is a path of rideRequestSchema, so the
    filter is applied whatever mongoose's [strictQuery] setting. *)
Definition cancelRequest (userId requestId : oid) : M response :=
  let* ro := find_own_request requestId userId in
  match ro with
  | None => ret (Resp 404 "Request not found"%string)
  | Some _ =>
      let* _ := modify (set_requests (delete requestId)) in
      ret (Resp 200 "Request cancelled and removed successfully"%string)
  end.

(* ------------------------------------------------------------------ *)
(** ** Frames, invariants and example databases *)

(** [m] relates every state to the state it leaves, whatever its outcome. *)
Definition keeps {A} (R : state -> state -> Prop) (m : M A) : Prop :=
  forall s, R s (fst (m s)).

(** Operations that touch only wallets, ledger entries and ids: rides,
    bookings, PSP refunds, requests and payouts stay as they are. *)
Definition rb_frame (s s' : state) : Prop :=
  rides s' = rides s /\ bookings s' = bookings s /\ psp_refunds s' = psp_refunds s
  /\ requests s' = requests s /\ payouts s' = payouts s /\ next_id s <= next_id s'.

(** An HTTP status of 400 or more, or an exception passed to [next]. *)
Definition is_error_response (r : response) : bool :=
  match r with Resp c _ => 400 <=? c | CanRate _ _ => false | NextError _ => true end.

(** Each user has at most one pending-or-processing payout. *)
Definition at_most_one_inflight (s : state) : Prop :=
  forall k1 k2 p1 p2, payouts s !! k1 = Some p1 -> payouts s !! k2 = Some p2 ->
    po_user_id p1 = po_user_id p2 -> is_inflight p1 = true -> is_inflight p2 = true -> k1 = k2.

(** Changes to payouts confined to the key [pid], which may only receive
    a payout of user [u]. *)
Definition po_frame (u pid : oid) (s s' : state) : Prop :=
  (forall k, k <> pid -> payouts s' !! k = payouts s !! k)
  /\ (forall p, payouts s' !! pid = Some p -> po_user_id p = u \/ payouts s !! pid = Some p).

(** The outcome of a controller body that ends as an error response. *)
Definition err_result (r : result response) : Prop :=
  match r with Ret x => is_error_response x = true | Throw _ => True end.

(** The sum of the values of a map. *)
Definition zsum (m : gmap oid Z) : Z := map_fold (fun _ z acc => z + acc) 0 m.

(** [status === "accepted"] *)
Definition is_accepted (b : booking) : bool := booking_status_eqb (bk_status b) BAccepted.

(** The seats a booking holds on ride [r]: its seats when it is an
    accepted booking of [r], 0 otherwise. *)
Definition seat_contrib (r : oid) (b : booking) : Z :=
  if (bk_ride_id b =? r) && is_accepted b then bk_seats b else 0.

(** The luggage spots a booking holds on ride [r]. *)
Definition luggage_contrib (r : oid) (b : booking) : Z :=
  if (bk_ride_id b =? r) && is_accepted b then bk_luggage_count b else 0.

(** Seats of the accepted bookings of ride [r]. *)
Definition accepted_seats (r : oid) (bs : gmap oid booking) : Z := zsum (seat_contrib r <$> bs).

(** Luggage of the accepted bookings of ride [r]. *)
Definition accepted_luggage (r : oid) (bs : gmap oid booking) : Z := zsum (luggage_contrib r <$> bs).

(** The capacity invariant: every active ride has [seats_left] equal to
    [seats_total] minus the seats of its accepted bookings, and the same
    for luggage; together with the well-formedness the operations rely on:
    bookings point to existing rides, ids are below [next_id], and pending
    or accepted bookings pass the booking schema's validators. *)
Definition capacity_inv (s : state) : Prop :=
  map_Forall (fun r rd => ride_status_eqb (r_status rd) RideActive = true ->
                ride_seats_left rd = ride_seats_total rd - accepted_seats r (bookings s)
                /\ ride_luggage_left rd = ride_luggage_capacity rd - accepted_luggage r (bookings s))
    (rides s)
  /\ map_Forall (fun _ b => is_Some (rides s !! bk_ride_id b)) (bookings s)
  /\ map_Forall (fun k _ => k < next_id s) (rides s)
  /\ map_Forall (fun k _ => k < next_id s) (bookings s)
  /\ map_Forall (fun _ b => is_pending_or_accepted b = true -> booking_valid b = true) (bookings s).

(** Operations that leave rides and bookings alone. *)
Definition cap_frame (s s' : state) : Prop :=
  rides s' = rides s /\ bookings s' = bookings s /\ next_id s <= next_id s'.

(** Steps that preserve the capacity invariant. *)
Definition inv_rel (s s' : state) : Prop := capacity_inv s -> capacity_inv s'.


(** Two versions of a booking with the same ride, status, seats and
    luggage. *)
Definition bk_shape (b b' : booking) : Prop :=
  bk_ride_id b' = bk_ride_id b /\ bk_status b' = bk_status b
  /\ bk_seats b' = bk_seats b /\ bk_luggage_count b' = bk_luggage_count b.

(** Changes confined to bookings of [K] that keep their shape. *)
Definition upd_frame (K : list oid) (s s' : state) : Prop :=
  rides s' = rides s /\ next_id s <= next_id s' /\
  forall k, bookings s' !! k = bookings s !! k
            \/ (In k K /\ exists b b', bookings s !! k = Some b /\ bookings s' !! k = Some b'
                                       /\ bk_shape b b').






(** One active ride with a pending one-seat booking. *)
Definition capacity_example : state :=
  mkState ∅ {[10 := mkRide 1 100000000 3 3 (Js.num 20) 2 2 RideActive]}
    {[20 := mkBooking 10 2 1 1 BPending PayPending None None None None None]}
    ∅ [] ∅ [] ∅ [] [] 100.

(** [capacity_example] where driver 1 and passenger 2 have user documents. *)
Definition booking_example : state :=
  mkState {[1 := mkUser None; 2 := mkUser None]}
    {[10 := mkRide 1 100000000 3 3 (Js.num 20) 2 2 RideActive]}
    {[20 := mkBooking 10 2 1 1 BPending PayPending None None None None None]}
    ∅ [] ∅ [] ∅ [] [] 100.

(** One active ride with an accepted two-seat booking. *)
Definition cancel_example : state :=
  mkState ∅ {[10 := mkRide 1 100000000 3 1 (Js.num 20) 2 2 RideActive]}
    {[20 := mkBooking 10 2 2 0 BAccepted PayPending None None None None None]}
    ∅ [] ∅ [] ∅ [] [] 100.

(** A 20.00 EUR three-seat ride of driver 1, departing at 100000000. *)
Definition example_ride : ride := mkRide 1 100000000 3 3 (Js.num 20) 2 2 RideActive.

(** Passenger 2 already booked ride 10 and has 100.00 EUR in the wallet. *)
Definition wallet_example : state :=
  mkState ∅ {[10 := example_ride]}
    {[20 := mkBooking 10 2 1 0 BPending PayPending None None None None None]}
    {[2 := mkWallet 10000 0 0 0]} [] ∅ [] ∅ [] [] 100.

(** [wallet_example] where driver 1 and passenger 2 have user documents. *)
Definition wallet_users_example : state :=
  mkState {[1 := mkUser None; 2 := mkUser None]} {[10 := example_ride]}
    {[20 := mkBooking 10 2 1 0 BPending PayPending None None None None None]}
    {[2 := mkWallet 10000 0 0 0]} [] ∅ [] ∅ [] [] 100.

(** An accepted one-seat booking of passenger 2 paid by card. *)
Definition card_booking : booking :=
  mkBooking 10 2 1 0 BAccepted PayPaid (Some Card) (Some 55) None None None.

(** The card booking on its ride, with user documents for driver 1 and
    passenger 2 and an empty wallet for passenger 2. *)
Definition card_example : state :=
  mkState {[1 := mkUser None; 2 := mkUser None]} {[10 := mkRide 1 100000000 3 2 (Js.num 20) 2 2 RideActive]}
    {[20 := card_booking]} {[2 := mkWallet 0 0 0 0]} [] ∅ [] ∅ [] [] 100.

(** The ride-earning entry of PaymentIntent 77 for wallet 1. *)
Definition earning_txn : txn :=
  mkTxn 1 1 RideEarning 3600 4000 400 10 3600 TxCompleted None (Some 77) None.

(** Wallet 1 holds the 36.00 EUR of the earning entry. *)
Definition refund_example : state :=
  mkState ∅ ∅ ∅ {[1 := mkWallet 3600 0 3600 0]} [(5, earning_txn)] ∅ [] ∅ [] [] 100.

(** Driver 1 has the connected account 99 and an empty wallet. *)
Definition connected_example : state :=
  mkState {[1 := mkUser (Some 99)]} {[10 := example_ride]} ∅ {[1 := mkWallet 0 0 0 0]}
    [] ∅ [] ∅ [] [] 100.

(** A pending offer of driver 1. *)
Definition example_offer : offer := mkOffer 40 1 (Some 10) (Js.num 20) OfferPending.

(** A pending request of passenger 2 with one offer. *)
Definition example_request : ride_request :=
  mkRequest 2 1 ReqPending None None [example_offer] None.

(** The request stored under id 30. *)
Definition request_example : state :=
  mkState ∅ {[10 := example_ride]} ∅ ∅ [] ∅ [] {[30 := example_request]} [] [] 100.

(** An accepted booking of passenger 2 on the example ride. *)
Definition rating_booking : booking :=
  mkBooking 10 2 1 0 BAccepted PayPaid (Some WalletMethod) None None None None.

(** Both participants of the booking exist; no rating yet. *)
Definition rating_example : state :=
  mkState {[1 := mkUser None; 2 := mkUser None]} {[10 := example_ride]}
    {[20 := rating_booking]} ∅ [] ∅ [] ∅ [] [] 100.

(** A ride priced 2000 (euros) per seat. *)
Definition pricey_example : state :=
  mkState ∅ {[10 := mkRide 1 100000000 3 3 (Js.num 2000) 2 2 RideActive]} ∅ ∅ [] ∅ [] ∅ [] [] 100.

(** ** Payout updates, offer operations and more example databases *)

(** [payout.markFailed(...)]: the payout with status failed, its other fields unchanged. *)
Definition po_failed (p : payout) : payout :=
  with_po p PoFailed (po_stripe_payout_id p) (po_stripe_transfer_id p) (po_transaction_id p).

(** [payout.markCompleted()]: the payout with status completed, its other fields unchanged. *)
Definition po_completed (p : payout) : payout :=
  with_po p PoCompleted (po_stripe_payout_id p) (po_stripe_transfer_id p) (po_transaction_id p).

(** No ride request holds two offers of the same driver. *)
Definition offer_drivers_distinct (s : state) : Prop :=
  map_Forall (fun _ r => NoDup (map of_driver (rr_offers r))) (requests s).

(** The request controllers that change the offers of a request, with their inputs. *)
Inductive offer_op :=
| OpMakeOffer (strictQuery : bool) (driverId requestId offer_key : oid) (ride_id : option oid)
    (price_per_seat : float)
| OpWithdrawOffer (driverId requestId : oid)
| OpRejectOffer (userId requestId offer_id : oid)
| OpAcceptOffer (userId requestId offer_id : oid)
| OpAcceptOfferWithPayment (pi_answer : option bool) (userId requestId offer_id : oid)
    (pm : option payment_method) (payment_intent_id : option oid)
| OpCancelRequest (userId requestId : oid).

(** The controller that serves an offer operation. *)
Definition offer_op_run (o : offer_op) : M response :=
  match o with
  | OpMakeOffer sq d rq k rid pr => makeOffer sq d rq k rid pr
  | OpWithdrawOffer d rq => withdrawOffer d rq
  | OpRejectOffer u rq k => rejectOffer u rq k
  | OpAcceptOffer u rq k => acceptOffer u rq k
  | OpAcceptOfferWithPayment pia u rq k pm pid => acceptOfferWithPayment pia u rq k pm pid
  | OpCancelRequest u rq => cancelRequest u rq
  end.

(** User 1 has the connected account 99, 100.00 EUR in the wallet and no payout. *)
Definition withdraw_example : state :=
  mkState {[1 := mkUser (Some 99)]} ∅ ∅ {[1 := mkWallet 10000 0 0 0]} [] ∅ [] ∅ [] [] 100.

(** A processing 10.00 EUR payout of user 1 with Stripe payout id 55, and its
    pending withdrawal entry. *)
Definition payout_example : state :=
  mkState {[1 := mkUser (Some 99)]} ∅ ∅ {[1 := mkWallet 0 0 0 2000]}
    [(101, mkTxn 1 1 Withdrawal (-1000) 1000 0 10 1000 TxPending (Some 100) None None)]
    {[100 := mkPayout 1 1 1000 PoProcessing (Some 55) None (Some 101)]} [] ∅ [] [] 102.

(** Driver 1 and passenger 2 exist, driver 1 has an empty wallet and
    passenger 2 has 100.00 EUR; ride 10 has no booking. *)
Definition wallet_pay_example : state :=
  mkState {[1 := mkUser None; 2 := mkUser None]} {[10 := example_ride]} ∅ {[1 := mkWallet 0 0 0 0; 2 := mkWallet 10000 0 0 0]}
    [] ∅ [] ∅ [] [] 100.

(* ================================================================== *)
(** * Properties *)

Lemma all_from_sound (n : nat) (g0 : Z) (P : Z -> bool) :
  all_from n g0 P = true -> forall g, g0 <= g < g0 + Z.of_nat n -> P g = true.
Proof.
  revert g0. induction n as [|n IH]; intros g0 H g Hg; simpl in *.
  - lia.
  - apply andb_prop in H as [H1 H2].
    destruct (Z.eq_dec g g0) as [->|Hne]; [exact H1|].
    apply (IH (g0 + 1)); [exact H2 | lia].
Qed.

Lemma platform_fee_default_half_up_check :
  all_from (Z.to_nat 50000) 0
    (fun g => Z.eqb (platform_fee g PLATFORM_FEE_PERCENT) (half_up_percent g PLATFORM_FEE_PERCENT))
  = true.
Proof. vm_compute. reflexivity. Qed.

(** For the default 10% fee the binary64 [Math.round(g * (10 / 100))]
    agrees with integer round-half-up on every amount below 500.00 EUR. *)
Lemma platform_fee_default_half_up (g : Z) :
  0 <= g < 50000 ->
  platform_fee g PLATFORM_FEE_PERCENT = half_up_percent g PLATFORM_FEE_PERCENT.
Proof.
  intros Hg. apply Z.eqb_eq.
  apply (all_from_sound _ 0 _ platform_fee_default_half_up_check). lia.
Qed.

Section Keeps.
Context (R : state -> state -> Prop) `{!PreOrder R}.
Lemma keeps_ret {A} (a : A) : keeps R (ret a).
Proof. intros s. simpl. reflexivity. Qed.
Lemma keeps_throw {A} (e : exn) : keeps R (@throw A e).
Proof. intros s. simpl. reflexivity. Qed.
Lemma keeps_get : keeps R get.
Proof. intros s. simpl. reflexivity. Qed.
Lemma keeps_bind {A B} (m : M A) (k : A -> M B) :
  keeps R m -> (forall a, keeps R (k a)) -> keeps R (bind m k).
Proof.
  intros Hm Hk s. unfold bind. specialize (Hm s).
  destruct (m s) as [s' [a|e]]; simpl in *; [etrans; [exact Hm|apply Hk]|exact Hm].
Qed.
Lemma keeps_try {A} (m : M A) (h : exn -> M A) :
  keeps R m -> (forall e, keeps R (h e)) -> keeps R (try_catch m h).
Proof.
  intros Hm Hh s. unfold try_catch. specialize (Hm s).
  destruct (m s) as [s' [a|e]]; simpl in *; [exact Hm|etrans; [exact Hm|apply Hh]].
Qed.
Lemma keeps_modify (f : state -> state) : (forall s, R s (f s)) -> keeps R (modify f).
Proof. intros Hf s. apply Hf. Qed.
End Keeps.

#[global] Instance rb_frame_preorder : PreOrder rb_frame.
Proof.
  split.
  - intros s. repeat split; lia.
  - intros x y z (H1&H2&H3&H4&H4'&H4'') (H5&H6&H7&H8&H8'&H8''). repeat split; congruence || lia.
Qed.

Create HintDb frame.

Ltac keeps_tac :=
  repeat match goal with
  | |- keeps _ (bind _ _) => apply keeps_bind; [typeclasses eauto| |intros ?]
  | |- keeps _ (try_catch _ _) => apply keeps_try; [typeclasses eauto| |intros ?]
  | |- keeps _ (ret _) => apply keeps_ret; typeclasses eauto
  | |- keeps _ (throw _) => apply keeps_throw; typeclasses eauto
  | |- keeps _ get => apply keeps_get; typeclasses eauto
  | |- keeps _ _ => solve [eauto with frame]
  | |- keeps _ (if _ then _ else _) => case_match
  | |- keeps _ (match _ with _ => _ end) => case_match
  | |- keeps _ (fun s => (if _ then _ else _) s) => case_match
  | |- keeps _ (fun s => (match _ with _ => _ end) s) => case_match
  | |- keeps _ (fun s => ret _ s) => apply keeps_ret; typeclasses eauto
  | |- keeps _ (fun _ => _) => eapply keeps_bind; [typeclasses eauto| |intros ?]
  | |- keeps _ (fun _ => _) => eapply keeps_try; [typeclasses eauto| |intros ?]
  end.

Lemma rb_getOrCreateWallet u : keeps rb_frame (getOrCreateWallet u).
Proof. intros s. unfold getOrCreateWallet. case_match; repeat split; simpl; lia. Qed.

Lemma rb_wallet_save u w : keeps rb_frame (wallet_save u w).
Proof. intros s. unfold wallet_save. case_match; repeat split; simpl; lia. Qed.

Lemma rb_fresh_id : keeps rb_frame fresh_id.
Proof. intros s. repeat split; simpl; lia. Qed.

Lemma rb_txns f : keeps rb_frame (modify (set_txns f)).
Proof. intros s. repeat split; simpl; lia. Qed.

Lemma rb_find_user u : keeps rb_frame (find_user u).
Proof. intros s. repeat split; simpl; lia. Qed.

Lemma rb_find_wallet u : keeps rb_frame (find_wallet u).
Proof. intros s. repeat split; simpl; lia. Qed.

#[global] Hint Resolve rb_getOrCreateWallet rb_wallet_save rb_fresh_id rb_txns rb_find_user rb_find_wallet : frame.

Lemma rb_txn_create t : keeps rb_frame (txn_create t).
Proof. unfold txn_create. keeps_tac. Qed.

#[global] Hint Resolve rb_txn_create : frame.

Lemma rb_addEarnings u w a : keeps rb_frame (addEarnings u w a).
Proof. unfold addEarnings. keeps_tac. Qed.

Lemma rb_reverse_earnings u w a : keeps rb_frame (reverse_earnings u w a).
Proof. unfold reverse_earnings. keeps_tac. Qed.

Lemma rb_createRideEarning w u g p b i : keeps rb_frame (createRideEarning w u g p b i).
Proof. unfold createRideEarning. keeps_tac. Qed.

Lemma rb_withdraw u w a : keeps rb_frame (withdraw u w a).
Proof. unfold withdraw. keeps_tac. Qed.

Lemma rb_refundWithdrawal u w a : keeps rb_frame (refundWithdrawal u w a).
Proof. unfold refundWithdrawal. keeps_tac. Qed.

Lemma rb_credit_balance u a : keeps rb_frame (credit_balance u a).
Proof. unfold credit_balance. keeps_tac. Qed.

Lemma rb_createWithdrawal w u a p : keeps rb_frame (createWithdrawal w u a p).
Proof. unfold createWithdrawal. keeps_tac. Qed.

#[global] Hint Resolve rb_addEarnings rb_reverse_earnings rb_createRideEarning rb_withdraw
  rb_refundWithdrawal rb_credit_balance rb_createWithdrawal : frame.

Lemma set_balance_valid w b : wallet_valid w = true -> 0 <= b -> wallet_valid (set_balance w b) = true.
Proof.
  unfold wallet_valid, set_balance. intros H Hb. apply bool_decide_eq_true in H.
  apply bool_decide_eq_true. simpl. lia.
Qed.

Lemma try_unit_frame (m : M unit) (s : state) :
  keeps rb_frame m ->
  exists s', try_catch m (fun _ => ret tt) s = (s', Ret tt) /\ rb_frame s s'.
Proof.
  intros Hm. specialize (Hm s). unfold try_catch, ret.
  destruct (m s) as [s' [[]|e]]; simpl in *; eauto.
Qed.

Lemma card_refund_branch (now : Z) (rfid amt id : oid) (b : booking) (rd : ride)
    (pi : oid) (w : wallet) (s : state) :
  bk_payment_method b = Some Card -> bk_payment_intent_id b = Some pi ->
  wallets s !! bk_passenger_id b = Some w -> wallet_valid w = true -> 0 <= amt ->
  exists s1, cancel_refund_branch now (Some (rfid, amt)) id b rd s = (s1, Ret b)
    /\ rides s1 = rides s /\ bookings s1 = bookings s
    /\ psp_refunds s1 = psp_refunds s ++ [pi].
Proof.
  intros Hm Hpi Hw Hv Ha.
  unfold cancel_refund_branch. rewrite Hm, Hpi.
  unfold credit_balance, getOrCreateWallet, bind, modify. simpl. rewrite Hw.
  unfold wallet_save. rewrite set_balance_valid by (assumption || apply bool_decide_eq_true in Hv; lia).
  simpl.
  destruct (has_stripe _).
  - simpl. eexists. repeat split.
  - match goal with |- context [try_catch ?m (fun _ => ret tt) ?s0] =>
      assert (HK : keeps rb_frame m) by keeps_tac;
      destruct (try_unit_frame m s0 HK) as (s3 & E3 & F3) end.
    rewrite E3. simpl. destruct F3 as (F1&F2&F4&_&_&_). simpl in *.
    eexists. repeat split; assumption.
Qed.

(** The cancellation of an accepted card-paid booking by its passenger:
    the PSP refund is issued, the ride's seats and luggage are given back,
    the booking fails validation at the save and the handler rejects with
    a ReferenceError. *)
Lemma card_cancel_effect (now : Z) (rfid amt id u pi : oid) (s : state)
    (b : booking) (rd : ride) (du : user) (w : wallet) :
  bookings s !! id = Some b -> bk_status b = BAccepted -> bk_payment_status b = PayPaid ->
  bk_payment_method b = Some Card -> bk_payment_intent_id b = Some pi ->
  bk_refund_id b = None -> bk_passenger_id b = u ->
  rides s !! bk_ride_id b = Some rd -> users s !! ride_driver_id rd = Some du ->
  ride_driver_id rd <> u ->
  hours_until_lt (ride_datetime_start rd) now 24 = false ->
  wallets s !! u = Some w -> wallet_valid w = true -> 0 <= amt ->
  exists s1, rides s1 = rides s /\ bookings s1 = bookings s
    /\ psp_refunds s1 = psp_refunds s ++ [pi]
    /\ updateBooking now (Some (rfid, amt)) id u (Some BCancelled) None s
       = (set_rides (insert (bk_ride_id b)
            (mkRide (ride_driver_id rd) (ride_datetime_start rd) (ride_seats_total rd)
               (ride_seats_left rd + bk_seats b) (ride_price_per_seat rd)
               (ride_luggage_capacity rd)
               (ride_luggage_left rd + (if 0 <? bk_luggage_count b then bk_luggage_count b else 0))
               (r_status rd))) s1, Throw ReferenceError).
Proof.
  intros Hb Hst Hps Hm Hpi Hrid Hu Hr Hdu Hd Hh Hw Hv Ha. subst u.
  destruct (card_refund_branch now rfid amt id b rd pi w s Hm Hpi Hw Hv Ha)
    as (s1 & E1 & R1 & B1 & P1).
  exists s1. split; [exact R1|]. split; [exact B1|]. split; [exact P1|].
  unfold updateBooking, try_catch, find_booking, find_ride, find_user, bind, ret.
  rewrite Hb, Hr. simpl. rewrite Hdu. simpl.
  rewrite (proj2 (Z.eqb_neq _ _) Hd), Z.eqb_refl. simpl.
  rewrite Hst, Hh. simpl. unfold is_paid. rewrite Hps.
  unfold cancel_refund. rewrite E1. simpl.
  unfold apply_status. simpl.
  assert (Hinv : booking_valid (with_status (with_payment_status b PayRefunded) BCancelled) = false).
  { unfold booking_valid. simpl. rewrite Hm, Hrid. simpl. rewrite !andb_false_r. reflexivity. }
  unfold bind, ride_inc, modify, ret, booking_save. rewrite Hinv. simpl.
  unfold throw, set_rides. cbv beta. rewrite R1, Hr. reflexivity.
Qed.

Lemma wallet_valid_iff (w : wallet) :
  wallet_valid w = true <-> 0 <= w_balance w /\ 0 <= w_pending_balance w
                            /\ 0 <= w_total_earned w /\ 0 <= w_total_withdrawn w.
Proof. unfold wallet_valid. apply bool_decide_eq_true. Qed.

Lemma find_app_some {A} (P : A -> bool) (l l' : list A) (x : A) :
  List.find P l = Some x -> List.find P (l ++ l') = Some x.
Proof. induction l as [|a l IH]; simpl; [discriminate|]. destruct (P a); auto. Qed.

Lemma charge_refunded_step (s : state) (pi amt k : oid) (t : txn) (w : wallet) :
  List.find (fun kt => opt_eqb (tx_payment_intent_id kt.2) pi
                       && tx_type_eqb (tx_kind kt.2) RideEarning) (txns s) = Some (k, t) ->
  wallets s !! tx_wallet_id t = Some w -> wallet_valid w = true ->
  let d := driver_share (Js.num amt)
             (if tx_fee_percentage t =? 0 then 10 else tx_fee_percentage t) in
  0 <= d -> d <= w_balance w -> d <= w_total_earned w ->
  exists t',
    handleChargeRefunded (Some pi) amt s
    = (set_txns (fun l => l ++ [(next_id s, t')])
         (bump_id (set_wallets (insert (tx_wallet_id t)
            (mkWallet (w_balance w - d) (w_pending_balance w)
                      (w_total_earned w - d) (w_total_withdrawn w))) s)), Ret tt)
    /\ tx_kind t' = Refund.
Proof.
  intros Hf Hw Hv d Hd0 Hd1 Hd2.
  unfold handleChargeRefunded, txn_find, find_wallet, bind, ret. simpl.
  rewrite Hf. simpl. rewrite Hw. fold d.
  destruct (Z.leb_spec d (w_balance w)) as [_|]; [|lia].
  unfold reverse_earnings, wallet_save.
  rewrite (proj2 (wallet_valid_iff _)).
  2:{ apply wallet_valid_iff in Hv. simpl. lia. }
  simpl. eexists. split; reflexivity.
Qed.

Lemma existsb_impl {A} (f g : A -> bool) (l : list A) :
  (forall x, g x = true -> f x = true) -> existsb f l = false -> existsb g l = false.
Proof.
  intros H Hf. destruct (existsb g l) eqn:E; [|reflexivity].
  apply existsb_exists in E as (x & Hx & Hg).
  assert (existsb f l = true) by (apply existsb_exists; eauto). congruence.
Qed.

Lemma existsb_triple_false (bid u t : Z) (l : list rating) :
  existsb (fun r => (rt_booking_id r =? bid) && (rt_from_user r =? u)) l = false ->
  existsb (fun r => (rt_booking_id r =? bid) && (rt_from_user r =? u)
                    && (rt_to_user r =? t)) l = false.
Proof.
  apply existsb_impl. intros x. rewrite !andb_true_iff. tauto.
Qed.

Lemma accept_reject_ids (l : list offer) (k : oid) :
  map of_id (reject_others (accept_first l k) k) = map of_id l.
Proof.
  unfold reject_others. induction l as [|o l IH]; simpl; [reflexivity|].
  destruct (of_id o =? k) eqn:E; simpl.
  - rewrite E. f_equal. rewrite map_map. apply map_ext_in. intros x _.
    destruct (of_id x =? k); reflexivity.
  - rewrite E. simpl. f_equal. exact IH.
Qed.

Lemma accept_reject_status (l : list offer) (k : oid) :
  NoDup (map of_id l) ->
  Forall (fun o => of_status o = if of_id o =? k then OfferAccepted else OfferRejected)
    (reject_others (accept_first l k) k).
Proof.
  unfold reject_others. induction l as [|o l IH]; simpl; intros Hnd; [constructor|].
  inversion Hnd as [|? ? Hnin Hnd']; subst.
  destruct (of_id o =? k) eqn:E; simpl.
  - rewrite E. constructor; [simpl; rewrite E; reflexivity|].
    apply List.Forall_forall. intros x Hx. apply in_map_iff in Hx as (y & <- & Hy).
    apply Z.eqb_eq in E. destruct (of_id y =? k) eqn:Ey.
    + exfalso. apply Z.eqb_eq in Ey. apply Hnin. rewrite E, <- Ey.
      apply list_elem_of_In. apply in_map. exact Hy.
    + simpl. rewrite Ey. reflexivity.
  - rewrite E. constructor; [simpl; rewrite E; reflexivity|]. apply IH. exact Hnd'.
Qed.

Lemma acceptOffer_requests (u rq k : oid) (s : state) :
  requests (fst (run (acceptOffer u rq k) s)) = requests s
  \/ exists r o, requests s !! rq = Some r /\ rr_status r = ReqPending
       /\ offers_id (rr_offers r) k = Some o
       /\ requests (fst (run (acceptOffer u rq k) s)) = <[rq := accept_request r o k]> (requests s).
Proof.
  unfold run, handler, acceptOffer, try_catch, find_own_request, request_save, modify, bind, ret.
  simpl.
  destruct (requests s !! rq) as [r|] eqn:Er; simpl; [|left; reflexivity].
  destruct (rr_passenger r =? u); simpl; [|left; reflexivity].
  destruct (rr_status r) eqn:Es; simpl; try (left; reflexivity).
  destruct (offers_id _ _) as [o|] eqn:Eo; simpl; [|left; reflexivity].
  right. eauto 6.
Qed.

Lemma bind_step {A B} (m : M A) (k : A -> M B) (s s' : state) (a : A) :
  m s = (s', Ret a) -> bind m k s = k a s'.
Proof. intros E. unfold bind. rewrite E. reflexivity. Qed.

Lemma bind_keeps_split {A B} (R : state -> state -> Prop) (m : M A) (k : A -> M B) (s : state) :
  keeps R m ->
  (exists e, bind m k s = (fst (m s), Throw e) /\ R s (fst (m s)))
  \/ exists a s', m s = (s', Ret a) /\ R s s' /\ bind m k s = k a s'.
Proof.
  intros Hm. specialize (Hm s). unfold bind.
  destruct (m s) as [s' [a|e]]; simpl in *; [right|left]; eauto 6.
Qed.

Lemma acceptOfferWithPayment_requests pia u rq k pm pid (s : state) :
  requests (fst (run (acceptOfferWithPayment pia u rq k pm pid) s)) = requests s
  \/ exists r o, requests s !! rq = Some r /\ rr_status r = ReqPending
       /\ offers_id (rr_offers r) k = Some o
       /\ requests (fst (run (acceptOfferWithPayment pia u rq k pm pid) s))
          = <[rq := accept_request r o k]> (requests s).
Proof.
  unfold run, handler, try_catch, acceptOfferWithPayment.
  erewrite bind_step; [|reflexivity]. cbv beta.
  destruct (requests s !! rq) as [r|] eqn:Er; simpl; [|left; reflexivity].
  destruct (rr_passenger r =? u); simpl; [|left; reflexivity].
  destruct (rr_status r) eqn:Es; simpl; try (left; reflexivity).
  destruct (offers_id _ _) as [o|] eqn:Eo; simpl; [|left; reflexivity].
  destruct (offer_status_eqb _ _); simpl; [|left; reflexivity].
  match goal with |- context [bind ?m ?k s] =>
    assert (HK : keeps rb_frame m) by keeps_tac;
    destruct (bind_keeps_split rb_frame m k s HK)
      as [(e & -> & (_&_&_&Hq&_&_)) | (a & s' & _ & (_&_&_&Hq&_&_) & ->)] end.
  - left. exact Hq.
  - destruct a as [resp|]; simpl; [left; exact Hq|].
    right. exists r, o. rewrite Hq. auto.
Qed.

#[global] Instance po_frame_preorder u pid : PreOrder (po_frame u pid).
Proof.
  split.
  - intros s. split; auto.
  - intros x y z (H1 & H2) (H3 & H4). split.
    + intros k Hk. rewrite H3, H1 by exact Hk. reflexivity.
    + intros p Hp. destruct (H4 p Hp) as [|Hy]; [auto|]. apply H2. exact Hy.
Qed.

Lemma rb_po u pid {A} (m : M A) : keeps rb_frame m -> keeps (po_frame u pid) m.
Proof.
  intros Hm s. destruct (Hm s) as (_&_&_&_&Hp&_). split.
  - intros k _. rewrite Hp. reflexivity.
  - intros p. rewrite Hp. auto.
Qed.

Lemma po_payout_save u pid p : po_user_id p = u -> keeps (po_frame u pid) (payout_save pid p).
Proof.
  intros Hu s. unfold payout_save, modify. destruct (1 <=? po_amount p); [|reflexivity].
  split.
  - intros k Hk. unfold set_payouts. simpl. apply lookup_insert_ne. congruence.
  - intros p' Hp. unfold set_payouts in Hp. simpl in Hp.
    rewrite lookup_insert_eq in Hp. injection Hp as <-. auto.
Qed.

Lemma po_markProcessing u pid p a b :
  po_user_id p = u -> keeps (po_frame u pid) (markProcessing pid p a b).
Proof.
  intros Hu. unfold markProcessing. keeps_tac. apply po_payout_save. exact Hu.
Qed.

Lemma po_markFailed u pid p : po_user_id p = u -> keeps (po_frame u pid) (markFailed pid p).
Proof.
  intros Hu. unfold markFailed. keeps_tac. apply po_payout_save. exact Hu.
Qed.

#[global] Hint Resolve rb_po po_payout_save po_markProcessing po_markFailed : frame.

Lemma payout_find_none (P : payout -> bool) (s s' : state) (r : option (oid * payout)) :
  payout_find P s = (s', Ret r) -> s' = s /\
  (r = None -> forall k p, payouts s !! k = Some p -> P p = false).
Proof.
  unfold payout_find. intros [= <- <-]. split; [reflexivity|].
  intros Hn k p Hk. destruct (P p) eqn:E; [|reflexivity]. exfalso.
  assert (Hin : (k, p) ∈ filter (fun kp => P kp.2) (map_to_list (payouts s))).
  { apply list_elem_of_filter. split; [simpl; rewrite E; exact I|]. apply elem_of_map_to_list. exact Hk. }
  destruct (filter _ _); [apply not_elem_of_nil in Hin; exact Hin | discriminate].
Qed.

Lemma inflight_preserved u pid s s' :
  at_most_one_inflight s ->
  (forall k p, payouts s !! k = Some p -> po_user_id p = u -> is_inflight p = false) ->
  po_frame u pid s s' -> at_most_one_inflight s'.
Proof.
  intros Hinv Hnone (Hne & Hpid) k1 k2 p1 p2 H1 H2 Hu Hi1 Hi2.
  assert (Hcase : forall k p, payouts s' !! k = Some p -> is_inflight p = true ->
            (k = pid /\ po_user_id p = u) \/ payouts s !! k = Some p).
  { intros k p Hk Hi. destruct (Z.eq_dec k pid) as [->|Hkp].
    - destruct (Hpid p Hk); auto.
    - right. rewrite <- Hne by exact Hkp. exact Hk. }
  destruct (Hcase k1 p1 H1 Hi1) as [[-> Hu1] | Hs1], (Hcase k2 p2 H2 Hi2) as [[-> Hu2] | Hs2].
  - reflexivity.
  - rewrite (Hnone k2 p2 Hs2) in Hi2 by congruence. discriminate.
  - rewrite (Hnone k1 p1 Hs1) in Hi1 by congruence. discriminate.
  - exact (Hinv k1 k2 p1 p2 Hs1 Hs2 Hu Hi1 Hi2).
Qed.

Lemma run_fst_snd (m : M response) (s : state) :
  fst (run m s) = fst (m s) /\ (err_result (snd (m s)) -> is_error_response (snd (run m s)) = true).
Proof. unfold run, handler, try_catch, ret. destruct (m s) as [s' [x|e]]; simpl; auto. Qed.

Lemma requestWithdrawal_shape (tr : option oid) (u amt : oid) (eur : option float) (s : state) :
  let m := requestWithdrawal tr u amt eur in
  (payouts (fst (m s)) = payouts s /\ txns (fst (m s)) = txns s
   /\ (fst (m s) = s \/ (wallets s !! u = None /\ fst (m s) = set_wallets (insert u new_wallet) s))
   /\ err_result (snd (m s)))
  \/ ((forall k p, payouts s !! k = Some p -> po_user_id p = u -> is_inflight p = false)
      /\ po_frame u (next_id s) s (fst (m s))).
Proof.
  intros m. subst m. unfold requestWithdrawal. cbv zeta.
  generalize (if amt =? 0 then match eur with Some e => Js.round (Js.mul e (Js.num 100)) | None => 0 end else amt).
  intros a.
  destruct (Z.leb_spec a 0).
  { left. simpl. auto. }
  destruct (Z.ltb_spec a MINIMUM_WITHDRAWAL).
  { left. simpl. auto. }
  erewrite bind_step; [|unfold find_user; reflexivity]. cbv beta.
  assert (Hg : exists s1 w, getOrCreateWallet u s = (s1, Ret w) /\ payouts s1 = payouts s
            /\ txns s1 = txns s /\ next_id s1 = next_id s
            /\ (s1 = s \/ (wallets s !! u = None /\ s1 = set_wallets (insert u new_wallet) s))).
  { unfold getOrCreateWallet. destruct (wallets s !! u) as [w|] eqn:Hw.
    - exists s, w. repeat split; auto.
    - exists (set_wallets (insert u new_wallet) s), new_wallet. repeat split; auto. }
  destruct Hg as (s1 & w & Eg & Hp1 & Ht1 & Hn1 & Hs1).
  erewrite bind_step; [|exact Eg]. cbv beta.
  destruct (w_balance w <? a).
  { left. simpl. auto. }
  destruct (users s !! u) as [usr|].
  2:{ left. simpl. auto. }
  destruct (u_stripeAccountId usr).
  2:{ left. simpl. auto. }
  erewrite bind_step; [|unfold payout_find; reflexivity]. cbv beta.
  destruct (payout_find_none (fun p => (po_user_id p =? u) && is_inflight p) s1 s1
              (head (filter (fun kp => (po_user_id kp.2 =? u) && is_inflight kp.2) (map_to_list (payouts s1)))) eq_refl)
    as [_ Hnone].
  destruct (head _) as [[k p]|] eqn:Hh.
  { left. simpl. auto. }
  right. split.
  { intros k p Hk Hu. rewrite <- Hp1 in Hk. specialize (Hnone eq_refl k p Hk). simpl in Hnone.
    rewrite Hu, Z.eqb_refl in Hnone. exact Hnone. }
  unfold payout_create. simpl.
  destruct (Z.leb_spec 1 a) as [_|]; [|lia].
  erewrite bind_step; [|unfold fresh_id, bind, modify, ret; simpl; reflexivity]. cbv beta.
  rewrite <- Hn1.
  match goal with |- po_frame _ _ _ (fst (?k ?s2)) =>
    assert (HK : keeps (po_frame u (next_id s1)) k) by keeps_tac; etrans; [|exact (HK s2)] end.
  split.
  - intros k' Hk'. unfold set_payouts. simpl. rewrite lookup_insert_ne by congruence. exact (f_equal (lookup k') Hp1).
  - intros p' Hp'. unfold set_payouts in Hp'. simpl in Hp'. rewrite lookup_insert_eq in Hp'.
    injection Hp' as <-. left. reflexivity.
Qed.

#[global] Instance capacity_inv_dec (s : state) : Decision (capacity_inv s).
Proof. unfold capacity_inv. apply _. Defined.











Lemma keeps_mono {A} (R R' : state -> state -> Prop) (m : M A) :
  (forall s s', R s s' -> R' s s') -> keeps R m -> keeps R' m.
Proof. intros H Hm s. apply H, Hm. Qed.

#[global] Instance cap_frame_preorder : PreOrder cap_frame.
Proof.
  split; unfold cap_frame; [intros s; repeat split; lia|].
  intros x y z (A1&A2&A3) (B1&B2&B3). repeat split; congruence || lia.
Qed.

Lemma cap_of_rb {A} (m : M A) : keeps rb_frame m -> keeps cap_frame m.
Proof. apply keeps_mono. intros s s' (A1&A2&_&_&_&A3). repeat split; assumption. Qed.

Lemma cap_psp (f : list oid -> list oid) : keeps cap_frame (modify (set_psp_refunds f)).
Proof. intros s. unfold cap_frame, modify, set_psp_refunds. simpl. repeat split; lia. Qed.

Lemma cap_psp_refund (ok : bool) (pi : oid) : keeps cap_frame (psp_refund ok pi).
Proof. unfold psp_refund. destruct ok; [apply cap_psp|apply keeps_throw, _]. Qed.

#[global] Hint Resolve cap_of_rb cap_psp cap_psp_refund : frame.

Lemma inv_cap (s s' : state) : capacity_inv s -> cap_frame s s' -> capacity_inv s'.
Proof.
  intros (I1 & I2 & I3 & I4 & I5) (Hr & Hb & Hn).
  unfold capacity_inv. rewrite Hr, Hb. split; [exact I1|]. split; [exact I2|].
  split; [intros k x Hk; specialize (I3 k x Hk); simpl in I3; lia|].
  split; [intros k x Hk; specialize (I4 k x Hk); simpl in I4; lia|]. exact I5.
Qed.

#[global] Instance inv_rel_preorder : PreOrder inv_rel.
Proof. split; unfold inv_rel; [intros s H; exact H | intros x y z H1 H2 H; auto]. Qed.

Lemma inv_of_cap {A} (m : M A) : keeps cap_frame m -> keeps inv_rel m.
Proof. intros Hm s Hs. exact (inv_cap _ _ Hs (Hm s)). Qed.

#[global] Hint Resolve inv_of_cap : frame.
















#[global] Instance upd_frame_preorder K : PreOrder (upd_frame K).
Proof.
  split.
  - intros s. split; [reflexivity|]. split; [lia|]. intros k. left. reflexivity.
  - intros x y z (R1 & N1 & B1) (R2 & N2 & B2). split; [congruence|]. split; [lia|].
    intros k. destruct (B1 k) as [E1 | (Hk & b & b' & X1 & Y1 & S1)],
                 (B2 k) as [E2 | (Hk' & c & c' & X2 & Y2 & S2)].
    + left. congruence.
    + right. split; [exact Hk'|]. exists c, c'. rewrite <- E1. auto.
    + right. split; [exact Hk|]. exists b, b'. rewrite E2. auto.
    + right. split; [exact Hk|]. rewrite Y1 in X2. injection X2 as <-.
      exists b, c'. split; [exact X1|]. split; [exact Y2|].
      destruct S1 as (A1&A2&A3&A4), S2 as (C1&C2&C3&C4). repeat split; congruence.
Qed.

Lemma rb_upd K {A} (m : M A) : keeps rb_frame m -> keeps (upd_frame K) m.
Proof.
  apply keeps_mono. intros s s' (Hr & Hb & _ & _ & _ & Hn).
  split; [exact Hr|]. split; [exact Hn|]. intros k. left. rewrite Hb. reflexivity.
Qed.

#[global] Hint Resolve rb_upd : frame.

Lemma upd_booking_update K (k : oid) (f : booking -> booking) :
  In k K -> (forall b, bk_shape b (f b)) -> keeps (upd_frame K) (booking_update k f).
Proof.
  intros Hk Hf s. unfold upd_frame, booking_update, modify, set_bookings. simpl.
  split; [reflexivity|]. split; [lia|]. intros k'.
  destruct (bookings s !! k) as [b|] eqn:Hb; [|left; reflexivity].
  destruct (Z.eq_dec k' k) as [->|Hne].
  - right. split; [exact Hk|]. exists b, (f b). rewrite lookup_insert_eq. auto.
  - left. apply lookup_insert_ne. congruence.
Qed.

Lemma upd_psp K (f : list oid -> list oid) : keeps (upd_frame K) (modify (set_psp_refunds f)).
Proof.
  intros s. unfold upd_frame, modify, set_psp_refunds. simpl.
  split; [reflexivity|]. split; [lia|]. intros k. left. reflexivity.
Qed.

#[global] Hint Resolve upd_psp : frame.

Lemma upd_ride_cancel_refunds (now : Z) (ra : oid -> option (oid * Z)) (d : oid) (rd : ride)
    (l : list (oid * booking)) :
  keeps (upd_frame (map fst l)) (ride_cancel_refunds now ra d rd l).
Proof.
  induction l as [|[k b] l IH]; simpl.
  - apply keeps_ret. apply _.
  - apply keeps_bind; [apply _| |].
    + apply keeps_try; [apply _| |intros; apply keeps_ret, _].
      apply keeps_bind; [apply _| |intros; apply keeps_ret, _].
      unfold ride_cancel_refund. keeps_tac;
        (apply upd_booking_update; [left; reflexivity | intros; repeat split]).
    + intros ok. apply keeps_bind; [apply _| |intros; apply keeps_ret, _].
      revert IH. apply keeps_mono. intros s s' (R & N & B). split; [exact R|]. split; [exact N|].
      intros k'. destruct (B k') as [E | (Hk & X)]; [left; exact E|]. right. split; [right; exact Hk|exact X].
Qed.



Lemma booking_create_cases (b : booking) (s : state) :
  (exists e, booking_create b s = (s, Throw e))
  \/ (booking_valid b = true
      /\ booking_create b s = (set_bookings (insert (next_id s) b) (bump_id s), Ret (next_id s))).
Proof.
  unfold booking_create. destruct (booking_valid b) eqn:Hv; simpl.
  - destruct (bool_decide _); [left; eexists; reflexivity | right; auto].
  - left. eexists. reflexivity.
Qed.












Lemma valid_bounds (b : booking) :
  booking_valid b = true -> 1 <= bk_seats b /\ 0 <= bk_luggage_count b.
Proof.
  unfold booking_valid. intros H. repeat (apply andb_true_iff in H as [H ?]).
  apply bool_decide_eq_true in H. split; [exact H|].
  match goal with H' : bool_decide (0 <= _) = true |- _ => apply bool_decide_eq_true in H'; exact H' end.
Qed.










Ltac wit_tac :=
  first [ reflexivity | simpl; lia | vm_compute; reflexivity | vm_compute; discriminate
        | vm_compute; intros; discriminate | left; reflexivity | right; reflexivity
        | vm_compute; split; intros; discriminate ].

Module C1.

(** C1: the capacity invariant is broken by a passenger cancelling an
    accepted card-paid booking of an active ride (whose driver exists).
    From a database satisfying the invariant, the cancellation gives the
    booking's seats back to the ride, but the booking fails validation at
    the save and stays accepted: afterwards the ride's [seats_left]
    exceeds [seats_total] minus its accepted seats by the booking's seats,
    at least one. *)
Theorem card_cancel_breaks_capacity (now : Z) (rfid amt id u pi : oid) (s : state)
    (b : booking) (rd : ride) (du : user) (w : wallet) :
  capacity_inv s ->
  bookings s !! id = Some b -> bk_status b = BAccepted -> bk_payment_status b = PayPaid ->
  bk_payment_method b = Some Card -> bk_payment_intent_id b = Some pi ->
  bk_refund_id b = None -> bk_passenger_id b = u ->
  rides s !! bk_ride_id b = Some rd -> r_status rd = RideActive ->
  users s !! ride_driver_id rd = Some du -> ride_driver_id rd <> u ->
  hours_until_lt (ride_datetime_start rd) now 24 = false ->
  wallets s !! u = Some w -> wallet_valid w = true -> 0 <= amt ->
  let s' := fst (updateBooking now (Some (rfid, amt)) id u (Some BCancelled) None s) in
  exists rd', rides s' !! bk_ride_id b = Some rd' /\ r_status rd' = RideActive
    /\ ride_seats_left rd'
       = ride_seats_total rd' - accepted_seats (bk_ride_id b) (bookings s') + bk_seats b
    /\ 1 <= bk_seats b.
Proof.
  intros Hs Hb Hst Hps Hm Hpi Hrid Hu Hr Hact Hdu Hd Hh Hw Hv Ha s'.
  destruct (card_cancel_effect now rfid amt id u pi s b rd du w Hb Hst Hps Hm Hpi Hrid Hu Hr Hdu
              Hd Hh Hw Hv Ha) as (s1 & R1 & B1 & P1 & E).
  destruct Hs as (I1 & _ & _ & _ & I5).
  assert (Hseats : 1 <= bk_seats b).
  { apply (valid_bounds b). apply (I5 id b Hb). unfold is_pending_or_accepted. rewrite Hst. reflexivity. }
  assert (Heq : ride_seats_left rd = ride_seats_total rd - accepted_seats (bk_ride_id b) (bookings s)).
  { apply (I1 _ _ Hr). rewrite Hact. reflexivity. }
  subst s'. rewrite E. simpl. rewrite lookup_insert_eq.
  eexists. split; [reflexivity|]. simpl. split; [exact Hact|]. split; [|exact Hseats].
  rewrite B1. lia.
Qed.

(** C1: the card booking of the example on its active ride. *)
Lemma card_cancel_breaks_capacity_witness :
  let s' := fst (updateBooking 0 (Some (66, 4000)) 20 2 (Some BCancelled) None card_example) in
  exists rd', rides s' !! 10 = Some rd' /\ r_status rd' = RideActive
    /\ ride_seats_left rd' = ride_seats_total rd' - accepted_seats 10 (bookings s') + 1
    /\ 1 <= 1.
Proof.
  exact (card_cancel_breaks_capacity 0 66 4000 20 2 55 card_example card_booking
           (mkRide 1 100000000 3 2 (Js.num 20) 2 2 RideActive) (mkUser None) (mkWallet 0 0 0 0)
           ltac:(apply (bool_decide_unpack _); vm_compute; exact I)
           ltac:(wit_tac) ltac:(wit_tac) ltac:(wit_tac) ltac:(wit_tac) ltac:(wit_tac)
           ltac:(wit_tac) ltac:(wit_tac) ltac:(wit_tac) ltac:(wit_tac) ltac:(wit_tac)
           ltac:(wit_tac) ltac:(wit_tac) ltac:(wit_tac) ltac:(wit_tac) ltac:(wit_tac)).
Defined.

End C1.

Module C2.

(** C2: when the ride's driver exists and the passenger already has a
    booking on the ride, payWithWallet debits the wallet, then
    Booking.create violates the unique (ride_id, passenger_id) index; the
    error reaches [next] and the debit stays in the database. *)
Theorem payWithWallet_duplicate_keeps_debit (s : state) (u rid : oid) (seats : Z)
    (lug : option Z) (rd : ride) (du : user) (w : wallet) (k : oid) (b : booking) :
  rides s !! rid = Some rd -> users s !! ride_driver_id rd = Some du -> ride_driver_id rd <> u ->
  1 <= seats <= ride_seats_left rd ->
  wallets s !! u = Some w -> wallet_valid w = true ->
  total_cents (ride_price_per_seat rd) seats <= w_balance w ->
  0 <= Js.int_or_zero lug ->
  bookings s !! k = Some b -> bk_ride_id b = rid -> bk_passenger_id b = u ->
  run (payWithWallet u (Some rid) seats lug) s
  = (set_wallets (insert u (set_balance w (w_balance w - total_cents (ride_price_per_seat rd) seats))) s,
     NextError DuplicateKey).
Proof.
  intros Hr Hdu Hd Hs Hw Hv Ht Hl Hb Hbr Hbp.
  unfold run, handler, try_catch, payWithWallet, bind, ret, find_ride, find_user.
  destruct (Z.eqb_spec seats 0) as [|_]; [lia|].
  rewrite Hr. simpl. rewrite Hdu. destruct (Z.eqb_spec (ride_driver_id rd) u) as [|_]; [congruence|].
  destruct (Z.ltb_spec (ride_seats_left rd) seats) as [|_]; [lia|].
  unfold getOrCreateWallet. rewrite Hw.
  destruct (Z.ltb_spec (w_balance w) (total_cents (ride_price_per_seat rd) seats)) as [|_]; [lia|].
  unfold wallet_save. rewrite set_balance_valid by (assumption || lia).
  unfold modify, booking_create, booking_valid. simpl.
  rewrite (bool_decide_eq_true_2 (1 <= seats)) by lia.
  rewrite (bool_decide_eq_true_2 (0 <= Js.int_or_zero lug)) by lia.
  idtac.
  simpl.
  rewrite bool_decide_eq_true_2; [reflexivity|].
  exists k, b. split; [exact Hb|]. simpl. auto.
Qed.

(** C2: a 40.00 EUR debit kept after the duplicate-key error. *)
Lemma payWithWallet_duplicate_keeps_debit_witness :
  run (payWithWallet 2 (Some 10) 2 None) wallet_users_example
  = (set_wallets (insert 2 (set_balance (mkWallet 10000 0 0 0)
       (w_balance (mkWallet 10000 0 0 0) - total_cents (ride_price_per_seat example_ride) 2)))
       wallet_users_example, NextError DuplicateKey).
Proof.
  apply (payWithWallet_duplicate_keeps_debit wallet_users_example 2 10 2 None example_ride
           (mkUser None) (mkWallet 10000 0 0 0) 20
           (mkBooking 10 2 1 0 BPending PayPending None None None None None)); wit_tac.
Defined.

End C2.

Module C3.

(** C3: a passenger cancelling an accepted card-paid booking of a ride
    whose driver exists gets the PSP refund issued and the ride's seats
    restored, but line 592 throws, the document then fails validation
    (refunded card payment without refund id) and the handler's own catch
    throws a ReferenceError, so no response is sent; the booking stays
    accepted. *)
Theorem updateBooking_card_cancel_fails (now : Z) (rfid amt id u pi : oid) (s : state)
    (b : booking) (rd : ride) (du : user) (w : wallet) :
  bookings s !! id = Some b -> bk_status b = BAccepted -> bk_payment_status b = PayPaid ->
  bk_payment_method b = Some Card -> bk_payment_intent_id b = Some pi ->
  bk_refund_id b = None -> bk_passenger_id b = u ->
  rides s !! bk_ride_id b = Some rd -> users s !! ride_driver_id rd = Some du ->
  ride_driver_id rd <> u ->
  hours_until_lt (ride_datetime_start rd) now 24 = false ->
  wallets s !! u = Some w -> wallet_valid w = true -> 0 <= amt ->
  let r := updateBooking now (Some (rfid, amt)) id u (Some BCancelled) None s in
  snd r = Throw ReferenceError
  /\ bookings (fst r) !! id = Some b
  /\ (exists rd', rides (fst r) !! bk_ride_id b = Some rd'
        /\ ride_seats_left rd' = ride_seats_left rd + bk_seats b)
  /\ psp_refunds (fst r) = psp_refunds s ++ [pi].
Proof.
  intros Hb Hst Hps Hm Hpi Hrid Hu Hr Hdu Hd Hh Hw Hv Ha r.
  destruct (card_cancel_effect now rfid amt id u pi s b rd du w Hb Hst Hps Hm Hpi Hrid Hu Hr Hdu
              Hd Hh Hw Hv Ha) as (s1 & R1 & B1 & P1 & E). subst r. rewrite E. simpl.
  split; [reflexivity|]. split; [rewrite B1; exact Hb|]. split; [|exact P1].
  eexists. rewrite lookup_insert_eq. split; reflexivity.
Qed.

(** C3: the one-seat card booking of the example. *)
Lemma updateBooking_card_cancel_fails_witness :
  let r := updateBooking 0 (Some (66, 4000)) 20 2 (Some BCancelled) None card_example in
  snd r = Throw ReferenceError
  /\ bookings (fst r) !! 20 = Some card_booking
  /\ (exists rd', rides (fst r) !! 10 = Some rd' /\ ride_seats_left rd' = 2 + 1)
  /\ psp_refunds (fst r) = [] ++ [55].
Proof.
  exact (updateBooking_card_cancel_fails 0 66 4000 20 2 55 card_example card_booking
           (mkRide 1 100000000 3 2 (Js.num 20) 2 2 RideActive) (mkUser None) (mkWallet 0 0 0 0)
           ltac:(wit_tac) ltac:(wit_tac) ltac:(wit_tac) ltac:(wit_tac) ltac:(wit_tac)
           ltac:(wit_tac) ltac:(wit_tac) ltac:(wit_tac) ltac:(wit_tac) ltac:(wit_tac)
           ltac:(wit_tac) ltac:(wit_tac) ltac:(wit_tac) ltac:(wit_tac)).
Defined.

End C3.

Module C4.

(** C4: processing the same charge.refunded event twice deducts the
    driver's share twice and appends two ledger entries. *)
Theorem chargeRefunded_replay_deducts_twice (s : state) (pi amt k : oid) (t : txn) (w : wallet) :
  List.find (fun kt => opt_eqb (tx_payment_intent_id kt.2) pi
                       && tx_type_eqb (tx_kind kt.2) RideEarning) (txns s) = Some (k, t) ->
  wallets s !! tx_wallet_id t = Some w -> wallet_valid w = true ->
  let d := driver_share (Js.num amt)
             (if tx_fee_percentage t =? 0 then 10 else tx_fee_percentage t) in
  0 <= d -> 2 * d <= w_balance w -> 2 * d <= w_total_earned w ->
  let ev := ChargeRefunded (Some pi) amt in
  let r1 := run (handleWebhook ev) s in
  let r2 := run (handleWebhook ev) (fst r1) in
  snd r1 = Resp 200 "received" /\ snd r2 = Resp 200 "received"
  /\ (exists w1 w2, wallets (fst r1) !! tx_wallet_id t = Some w1
        /\ wallets (fst r2) !! tx_wallet_id t = Some w2
        /\ w_balance w1 = w_balance w - d /\ w_balance w2 = w_balance w - 2 * d)
  /\ length (txns (fst r2)) = (length (txns s) + 2)%nat.
Proof.
  intros Hf Hw Hv d Hd0 Hd1 Hd2 ev r1 r2. subst ev r1 r2.
  destruct (charge_refunded_step s pi amt k t w Hf Hw Hv) as (t1 & E1 & _); [lia..|].
  fold d in E1.
  set (s1 := set_txns _ _) in E1.
  set (w1 := mkWallet (w_balance w - d) (w_pending_balance w) (w_total_earned w - d)
                      (w_total_withdrawn w)) in s1.
  assert (Hw1 : wallets s1 !! tx_wallet_id t = Some w1) by (simpl; apply lookup_insert_eq).
  assert (Hf1 : List.find (fun kt => opt_eqb (tx_payment_intent_id kt.2) pi
                       && tx_type_eqb (tx_kind kt.2) RideEarning) (txns s1) = Some (k, t))
    by (simpl; apply find_app_some; exact Hf).
  assert (Hv1 : wallet_valid w1 = true)
    by (apply wallet_valid_iff in Hv; apply wallet_valid_iff; simpl; lia).
  destruct (charge_refunded_step s1 pi amt k t w1 Hf1 Hw1 Hv1) as (t2 & E2 & _);
    [fold d; simpl; lia..|].
  fold d in E2.
  unfold run, handler, handleWebhook, try_catch, dispatch, bind, ret.
  rewrite E1. cbv beta iota. change ((s1, Resp 200 "received").1) with s1. rewrite E2. cbv beta iota. simpl.
  split; [reflexivity|]. split; [reflexivity|]. split.
  - eexists w1, _. split; [apply lookup_insert_eq|]. split; [apply lookup_insert_eq|].
    simpl. lia.
  - rewrite !length_app. simpl. lia.
Qed.

(** C4: a 10.00 EUR refund replayed against a 36.00 EUR earning. *)
Lemma chargeRefunded_replay_deducts_twice_witness :
  let d := driver_share (Js.num 1000) 10 in
  let ev := ChargeRefunded (Some 77) 1000 in
  let r1 := run (handleWebhook ev) refund_example in
  let r2 := run (handleWebhook ev) (fst r1) in
  snd r1 = Resp 200 "received" /\ snd r2 = Resp 200 "received"
  /\ (exists w1 w2, wallets (fst r1) !! 1 = Some w1
        /\ wallets (fst r2) !! 1 = Some w2
        /\ w_balance w1 = 3600 - d /\ w_balance w2 = 3600 - 2 * d)
  /\ length (txns (fst r2)) = (1 + 2)%nat.
Proof.
  exact (chargeRefunded_replay_deducts_twice refund_example 77 1000 5 earning_txn
           (mkWallet 3600 0 3600 0) ltac:(wit_tac) ltac:(wit_tac) ltac:(wit_tac)
           ltac:(wit_tac) ltac:(wit_tac) ltac:(wit_tac)).
Defined.

End C4.

Module C5.

(** C5: a payment_intent.succeeded event for a driver with a connected
    account still credits the driver's wallet with the net earnings and
    appends a ride-earning entry. *)
Theorem paymentIntentSucceeded_credits_connected_driver (s : state) (pi amt rid did acct : oid)
    (pas bid : option oid) (rd : ride) (w : wallet) :
  rides s !! rid = Some rd -> users s !! did = Some (mkUser (Some acct)) ->
  wallets s !! did = Some w -> wallet_valid w = true ->
  List.find (fun kt => opt_eqb (tx_payment_intent_id kt.2) pi) (txns s) = None ->
  0 <= amt - platform_fee amt PLATFORM_FEE_PERCENT ->
  let net := amt - platform_fee amt PLATFORM_FEE_PERCENT in
  let r := run (handleWebhook (PaymentIntentSucceeded pi amt (Some rid) pas (Some did) bid)) s in
  snd r = Resp 200 "received"
  /\ wallets (fst r) !! did = Some (mkWallet (w_balance w + net) (w_pending_balance w)
                                      (w_total_earned w + net) (w_total_withdrawn w))
  /\ exists k t, txns (fst r) = txns s ++ [(k, t)] /\ tx_kind t = RideEarning
       /\ tx_wallet_id t = did /\ tx_net_amount t = net /\ tx_payment_intent_id t = Some pi.
Proof.
  intros Hr Hu Hw Hv Hf Hn net r. subst net r.
  unfold run, handler, handleWebhook, try_catch, dispatch, handlePaymentIntentSucceeded,
    find_ride, find_user, getOrCreateWallet, txn_find, bind, ret.
  rewrite Hr, Hu, Hw. simpl. rewrite Hf. simpl.
  unfold addEarnings, wallet_save, bind, ret.
  rewrite (proj2 (wallet_valid_iff _)).
  2:{ apply wallet_valid_iff in Hv. simpl. lia. }
  simpl. split; [reflexivity|]. split; [apply lookup_insert_eq|].
  eexists _, _. split; [reflexivity|]. simpl. repeat split.
Qed.

(** C5: a 40.00 EUR intent for the connected driver 1. *)
Lemma paymentIntentSucceeded_credits_connected_driver_witness :
  let net := 4000 - platform_fee 4000 PLATFORM_FEE_PERCENT in
  let r := run (handleWebhook (PaymentIntentSucceeded 77 4000 (Some 10) None (Some 1) None))
             connected_example in
  snd r = Resp 200 "received"
  /\ wallets (fst r) !! 1 = Some (mkWallet (0 + net) 0 (0 + net) 0)
  /\ exists k t, txns (fst r) = [] ++ [(k, t)] /\ tx_kind t = RideEarning
       /\ tx_wallet_id t = 1 /\ tx_net_amount t = net /\ tx_payment_intent_id t = Some 77.
Proof.
  exact (paymentIntentSucceeded_credits_connected_driver connected_example 77 4000 10 1 99
           None None example_ride (mkWallet 0 0 0 0) ltac:(wit_tac) ltac:(wit_tac)
           ltac:(wit_tac) ltac:(wit_tac) ltac:(wit_tac) ltac:(wit_tac)).
Defined.

End C5.

Module C6.

(** C6: a request reaches status accepted without being paid.  acceptOffer
    (route PUT /:id/accept-offer) accepts a pending request's offer with no
    payment at all and stores the request accepted with its payment status
    unchanged; acceptOfferWithPayment assigns [payment_status = "paid"]
    (line 969) to a path rideRequestSchema does not declare, so whatever it
    stores accepted keeps the payment status it had: a request that was not
    paid is accepted and still not paid. *)
Theorem accepted_request_not_paid (pia : option bool) (u rq k : oid)
    (pm : option payment_method) (pid : option oid) (s : state) (r : ride_request) (o : offer) :
  requests s !! rq = Some r -> rr_passenger r = u -> rr_status r = ReqPending ->
  offers_id (rr_offers r) k = Some o -> rr_payment_status r <> Some PayPaid ->
  run (acceptOffer u rq k) s
  = (set_requests (insert rq (accept_request r o k)) s, Resp 200 "Offer accepted")
  /\ rr_status (accept_request r o k) = ReqAccepted
  /\ rr_payment_status (accept_request r o k) <> Some PayPaid
  /\ (forall r', requests (fst (run (acceptOfferWithPayment pia u rq k pm pid) s)) !! rq = Some r' ->
        rr_status r' = ReqAccepted -> rr_payment_status r' <> Some PayPaid).
Proof.
  intros Hr Hu Hst Ho Hnp. split; [|split; [reflexivity|split; [exact Hnp|]]].
  - unfold run, handler, try_catch, acceptOffer, find_own_request, bind, ret, request_save, modify.
    rewrite Hr. simpl. rewrite Hu, Z.eqb_refl, Hst. simpl. rewrite Ho. reflexivity.
  - intros r' Hr' Hacc.
    destruct (acceptOfferWithPayment_requests pia u rq k pm pid s)
      as [E | (r0 & o0 & Er0 & _ & _ & E)]; rewrite E in Hr'.
    + rewrite Hr in Hr'. injection Hr' as <-. congruence.
    + rewrite lookup_insert_eq in Hr'. injection Hr' as <-. rewrite Hr in Er0.
      injection Er0 as <-. exact Hnp.
Qed.

(** C6: passenger 2 accepts offer 40 of the example request. *)
Lemma accepted_request_not_paid_witness :
  run (acceptOffer 2 30 40) request_example
  = (set_requests (insert 30 (accept_request example_request example_offer 40)) request_example,
     Resp 200 "Offer accepted")
  /\ rr_status (accept_request example_request example_offer 40) = ReqAccepted
  /\ rr_payment_status (accept_request example_request example_offer 40) <> Some PayPaid
  /\ (forall r', requests (fst (run (acceptOfferWithPayment (Some true) 2 30 40 (Some Card) (Some 55))
                                    request_example)) !! 30 = Some r' ->
        rr_status r' = ReqAccepted -> rr_payment_status r' <> Some PayPaid).
Proof.
  exact (accepted_request_not_paid (Some true) 2 30 40 (Some Card) (Some 55) request_example
           example_request example_offer
           ltac:(wit_tac) ltac:(wit_tac) ltac:(wit_tac) ltac:(wit_tac) ltac:(discriminate)).
Defined.

End C6.

Module C7.

(** C7: no 30-minute window is checked: right after departure a
    participant may rate, and can-rate answers true. *)
Theorem rating_window_not_enforced (now u bid stars : Z) (s : state) (b : booking) (rd : ride)
    (pu du : user) :
  bookings s !! bid = Some b -> bk_status b = BAccepted ->
  rides s !! bk_ride_id b = Some rd ->
  users s !! bk_passenger_id b = Some pu -> users s !! ride_driver_id rd = Some du ->
  (u = ride_driver_id rd \/ u = bk_passenger_id b) -> 1 <= stars <= 5 ->
  existsb (fun r => (rt_booking_id r =? bid) && (rt_from_user r =? u)) (ratings s) = false ->
  ride_datetime_start rd <= now < ride_datetime_start rd + RIDE_COMPLETION_BUFFER_MS ->
  snd (run (canRateBooking now u bid) s) = CanRate true ""
  /\ snd (run (createRating now u bid stars) s) = Resp 201 "Rating submitted successfully"
  /\ exists r, ratings (fst (run (createRating now u bid stars) s)) = ratings s ++ [r]
       /\ rt_from_user r = u /\ rt_booking_id r = bid /\ rt_stars r = stars.
Proof.
  intros Hb Hst Hr Hp Hd Hu Hs Hn _.
  assert (E : exists r, run (createRating now u bid stars) s
                        = (set_ratings (fun l => l ++ [r]) s,
                           Resp 201 "Rating submitted successfully")
                        /\ rt_from_user r = u /\ rt_booking_id r = bid /\ rt_stars r = stars).
  { unfold run, createRating.
    unfold handler, try_catch, find_booking, find_ride, find_user, get, bind, ret.
    simpl.
    destruct (Z.eqb_spec stars 0), (Z.ltb_spec stars 1), (Z.ltb_spec 5 stars); try lia.
    simpl. rewrite Hb. simpl. rewrite Hst. simpl. rewrite Hr, Hp. simpl.
    assert (Ht : exists t ty, (if u =? ride_driver_id rd then Some (bk_passenger_id b, DriverToPassenger)
              else if u =? bk_passenger_id b then Some (ride_driver_id rd, PassengerToDriver)
              else None) = Some (t, ty)).
    { destruct Hu as [->| ->]; [rewrite Z.eqb_refl; eauto|].
      destruct (_ =? _); [eauto|]. rewrite Z.eqb_refl. eauto. }
    destruct Ht as (t & ty & ->).
    rewrite (existsb_triple_false _ _ t _ Hn).
    unfold rating_create. simpl.
    destruct (Z.leb_spec 1 stars), (Z.leb_spec stars 5); try lia. simpl.
    rewrite (existsb_triple_false _ _ t _ Hn).
    eexists. split; [reflexivity|]. simpl. auto. }
  destruct E as (rt & E & Hrt).
  rewrite E. split; [|split; [reflexivity|exists rt; split; [reflexivity|exact Hrt]]].
  unfold run, canRateBooking.
    unfold handler, try_catch, find_booking, find_ride, find_user, get, bind, ret.
    simpl. rewrite Hb. simpl. rewrite Hst. simpl. rewrite Hr, Hp. simpl.
    destruct Hu as [->| ->].
    + rewrite Z.eqb_refl. simpl. rewrite Hn. simpl. rewrite Hp. reflexivity.
    + rewrite Z.eqb_refl, andb_false_r. simpl. rewrite Hn.
      destruct (bk_passenger_id b =? ride_driver_id rd) eqn:Epd; simpl.
      * rewrite Hp. reflexivity.
      * rewrite Hd. reflexivity.
Qed.

(** C7: the passenger rates at the departure instant. *)
Lemma rating_window_not_enforced_witness :
  snd (run (canRateBooking 100000000 2 20) rating_example) = CanRate true ""
  /\ snd (run (createRating 100000000 2 20 5) rating_example) = Resp 201 "Rating submitted successfully"
  /\ exists r, ratings (fst (run (createRating 100000000 2 20 5) rating_example)) = [] ++ [r]
       /\ rt_from_user r = 2 /\ rt_booking_id r = 20 /\ rt_stars r = 5.
Proof.
  exact (rating_window_not_enforced 100000000 2 20 5 rating_example rating_booking example_ride
           (mkUser None) (mkUser None) ltac:(wit_tac) ltac:(wit_tac) ltac:(wit_tac)
           ltac:(wit_tac) ltac:(wit_tac) ltac:(wit_tac) ltac:(wit_tac) ltac:(wit_tac)
           ltac:(vm_compute; split; [discriminate|reflexivity])).
Defined.

End C7.

Module C8.

(** C8 (amended): createPaymentIntent creates one intent whose amount is
    [Math.round(price_per_seat * seats * 100)], with the platform fee and
    transfer destination set exactly when the driver has a connected
    account; a PSP failure leaves the state unchanged. *)
Theorem createPaymentIntent_intent (create_ok : bool) (s : state) (u rid seats : oid)
    (lug : option Z) (rd : ride) :
  rides s !! rid = Some rd -> seats <> 0 -> seats <= ride_seats_left rd ->
  let r := run (createPaymentIntent create_ok u (Some rid) seats lug) s in
  let total := total_cents (ride_price_per_seat rd) seats in
  let dest := driver_account (users s !! ride_driver_id rd) in
  (create_ok = true ->
     snd r = Resp 201 "PaymentIntent created"
     /\ exists i, fst r = set_intents (fun l => l ++ [i]) s
          /\ pi_amount i = total /\ pi_transfer_destination i = dest
          /\ pi_application_fee_amount i
             = (if dest then Some (platform_fee total PLATFORM_FEE_PERCENT) else None)
          /\ pi_ride_id i = rid /\ pi_passenger_id i = u /\ pi_seats i = seats)
  /\ (create_ok = false -> fst r = s /\ snd r = NextError StripeError).
Proof.
  intros Hr Hs Hl r total dest. subst r total dest.
  unfold run, handler, createPaymentIntent, try_catch, find_ride, find_user, bind, ret.
  rewrite (proj2 (Z.eqb_neq _ _) Hs), Hr.
  destruct (Z.ltb_spec (ride_seats_left rd) seats) as [|_]; [lia|].
  split; intros ->; simpl.
  - split; [reflexivity|]. eexists. split; [reflexivity|].
    simpl. repeat split; destruct (driver_account _); reflexivity.
  - split; reflexivity.
Qed.

(** C8: two seats at 20 per seat give 4000 cents. *)
Lemma createPaymentIntent_intent_witness :
  let r := run (createPaymentIntent true 2 (Some 10) 2 None) connected_example in
  (true = true ->
     snd r = Resp 201 "PaymentIntent created"
     /\ exists i, fst r = set_intents (fun l => l ++ [i]) connected_example
          /\ pi_amount i = total_cents (Js.num 20) 2 /\ pi_transfer_destination i = Some 99
          /\ pi_application_fee_amount i
             = Some (platform_fee (total_cents (Js.num 20) 2) PLATFORM_FEE_PERCENT)
          /\ pi_ride_id i = 10 /\ pi_passenger_id i = 2 /\ pi_seats i = 2)
  /\ (true = false -> fst r = connected_example /\ snd r = NextError StripeError).
Proof.
  exact (createPaymentIntent_intent true connected_example 2 10 2 None example_ride
           ltac:(wit_tac) ltac:(wit_tac) ltac:(wit_tac)).
Defined.

(** C8 (counterexample): the price per seat is in major units; a price of
    2000 with 2 seats gives an intent of 400000, not 4000. *)
Lemma createPaymentIntent_major_units :
  exists i, intents (fst (run (createPaymentIntent true 2 (Some 10) 2 None) pricey_example)) = [i]
    /\ pi_amount i = 400000 /\ pi_amount i <> 4000.
Proof. eexists. split; [vm_compute; reflexivity|]. split; [vm_compute; reflexivity|discriminate]. Qed.

End C8.

Module C9.

(** C9 (counterexample): with fee percentage 29, [createRideEarning] on a
    gross amount of 50 records the fee 14, while 50 * 29 / 100 = 14.5
    rounded half up is 15: 0.29 is stored as a binary64 value slightly
    below 0.29, so the product falls below 14.5. *)
Lemma fee_not_half_up :
  exists k t,
    txns (fst (createRideEarning 1 1 50 29 None None empty_state)) = [(k, t)]
    /\ tx_gross_amount t = 50 /\ tx_fee_percentage t = 29
    /\ tx_fee_amount t = 14 /\ half_up_percent 50 29 = 15.
Proof. vm_compute. eexists _, _. repeat split. Qed.

(** C9: [createRideEarning(walletId, userId, g, bookingId, p, intentId)]
    appends exactly one completed ride-earning transaction whose fee is
    [Math.round(g * (p / 100))] on binary64 numbers, whose net amount is
    [g - fee], so that net + fee = g exactly; for the default percentage
    10 and 0 <= g < 50000 the fee is g * p / 100 rounded half up. *)
Theorem createRideEarning_fee (s : state) (w u g p : Z) (b i : option oid) :
  exists t,
    createRideEarning w u g p b i s
      = (set_txns (fun l => l ++ [(next_id s, t)]) (bump_id s), Ret (next_id s))
    /\ tx_kind t = RideEarning /\ tx_state t = TxCompleted
    /\ tx_gross_amount t = g /\ tx_fee_percentage t = p
    /\ tx_fee_amount t = platform_fee g p
    /\ tx_net_amount t = g - tx_fee_amount t
    /\ tx_amount t = tx_net_amount t
    /\ tx_net_amount t + tx_fee_amount t = g
    /\ (p = PLATFORM_FEE_PERCENT -> 0 <= g < 50000 ->
        tx_fee_amount t = half_up_percent g p).
Proof.
  eexists. split; [reflexivity|]. cbn.
  repeat split; try lia.
  intros -> Hg. apply platform_fee_default_half_up. exact Hg.
Qed.

(** C9: the ledger entry for a 40.00 EUR ride at the default rate. *)
Lemma createRideEarning_fee_witness :
  exists t, tx_fee_amount t = 400 /\ tx_net_amount t = 3600
    /\ txns (fst (createRideEarning 7 7 4000 PLATFORM_FEE_PERCENT None None empty_state))
       = [(1, t)].
Proof.
  destruct (createRideEarning_fee empty_state 7 7 4000 PLATFORM_FEE_PERCENT None None)
    as (t & Heq & _ & _ & _ & _ & Hfee & Hnet & _ & _ & Hhalf).
  exists t. rewrite Heq. rewrite Hhalf in Hnet by (reflexivity || lia).
  rewrite Hhalf by (reflexivity || lia). vm_compute in Hnet.
  split; [reflexivity|]. split; [exact Hnet|reflexivity].
Defined.

End C9.

Module C10.

(** C10: requestWithdrawal answers with an error and leaves payouts,
    ledger and balances alone when the user has a pending or processing
    payout (it may only create the user's missing empty wallet); it keeps
    at most one in-flight payout per user. *)
Theorem requestWithdrawal_one_inflight (tr : option oid) (u amt : oid) (eur : option float) (s : state) :
  let r := run (requestWithdrawal tr u amt eur) s in
  ((exists k p, payouts s !! k = Some p /\ po_user_id p = u /\ is_inflight p = true) ->
     is_error_response (snd r) = true /\ payouts (fst r) = payouts s /\ txns (fst r) = txns s
     /\ (fst r = s \/ (wallets s !! u = None /\ fst r = set_wallets (insert u new_wallet) s)))
  /\ (at_most_one_inflight s -> at_most_one_inflight (fst r)).
Proof.
  intros r. subst r.
  destruct (run_fst_snd (requestWithdrawal tr u amt eur) s) as [Hf Hs]. rewrite Hf.
  destruct (requestWithdrawal_shape tr u amt eur s) as [(Hp & Ht & Hw & He) | (Hnone & Hfr)].
  - split.
    + intros _. auto.
    + intros Hinv. intros k1 k2 p1 p2. rewrite Hp. apply Hinv.
  - split.
    + intros (k & p & Hk & Hu & Hi). rewrite (Hnone k p Hk Hu) in Hi. discriminate.
    + intros Hinv. exact (inflight_preserved u (next_id s) s _ Hinv Hnone Hfr).
Qed.

End C10.

(* ================================================================== *)
(** * Further properties of the controllers and models *)

Lemma payout_find_none_of (P : payout -> bool) (s : state) :
  (forall k p, payouts s !! k = Some p -> P p = false) ->
  payout_find P s = (s, Ret None).
Proof.
  intros H. unfold payout_find. do 2 f_equal.
  destruct (filter _ _) as [|[k p] l] eqn:E; [reflexivity|]. exfalso.
  assert (Hin : (k, p) ∈ filter (fun kp => P kp.2) (map_to_list (payouts s))) by (rewrite E; left).
  apply list_elem_of_filter in Hin as [HP Hin]. apply elem_of_map_to_list in Hin.
  simpl in HP. rewrite (H k p Hin) in HP. exact HP.
Qed.

Lemma map_keep_fresh (tid : oid) (F : oid * txn -> oid * txn) (l : list (oid * txn)) :
  (forall kt, kt.1 < tid -> F kt = kt) ->
  Forall (fun kt => kt.1 < tid) l -> map F l = l.
Proof.
  intros HF. induction 1 as [|kt l Hk _ IH]; simpl; [reflexivity|].
  rewrite HF by exact Hk. f_equal. exact IH.
Qed.

Ltac fresh_map N Hfresh :=
  rewrite map_app, (map_keep_fresh (N + 1));
  [ cbn; rewrite Z.eqb_refl; reflexivity
  | intros [k0 t0] Hk0; simpl in Hk0 |- *; rewrite (proj2 (Z.eqb_neq _ _)) by lia; reflexivity
  | simpl in Hfresh; eapply Forall_impl; [exact Hfresh|]; intros kt Hk; simpl in Hk; lia ].

Section WithdrawalRequest.
Context (u amt acct : oid) (usr : user) (w : wallet) (s : state).
Hypotheses (Hmin : MINIMUM_WITHDRAWAL <= amt) (Hbal : amt <= w_balance w)
  (Hv : wallet_valid w = true) (Hw : wallets s !! u = Some w) (Hu : users s !! u = Some usr)
  (Hacct : u_stripeAccountId usr = Some acct)
  (Hnone : forall k p, payouts s !! k = Some p -> po_user_id p = u -> is_inflight p = false).

Let pid := next_id s.
Let tid := next_id s + 1.
Let wtx := mkTxn u u Withdrawal (- amt) amt 0 10 amt TxPending (Some pid) None None.
Let payout1 := mkPayout u u amt PoPending None None (Some tid).
Let w1 := mkWallet (w_balance w - amt) (w_pending_balance w) (w_total_earned w) (w_total_withdrawn w + amt).
Let s5 := set_payouts (insert pid payout1)
            (set_txns (fun l => l ++ [(tid, wtx)])
               (bump_id (set_wallets (insert u w1)
                  (set_payouts (insert pid (mkPayout u u amt PoPending None None None)) (bump_id s))))).

Lemma requestWithdrawal_prefix (tr : option oid) :
  requestWithdrawal tr u amt None s =
  try_catch
    (match tr with
     | None => throw StripeError
     | Some t =>
         let* _ := markProcessing pid payout1 None (Some t) in
         let* _ := modify (set_txns (map (fun kt => if kt.1 =? tid
                                                    then (kt.1, with_tx_transfer kt.2 TxCompleted t)
                                                    else kt))) in
         ret (Resp 200 "Withdrawal initiated successfully"%string)
     end)
    (fun _ =>
       let* _ := refundWithdrawal u w1 amt in
       let* _ := markFailed pid payout1 in
       let* _ := modify (set_txns (map (fun kt => if kt.1 =? tid
                                                  then (kt.1, with_tx_state kt.2 TxFailed)
                                                  else kt))) in
       ret (Resp 500 "Failed to process withdrawal. Please try again later."%string)) s5.
Proof.
  unfold MINIMUM_WITHDRAWAL in Hmin.
  unfold requestWithdrawal. rewrite (proj2 (Z.eqb_neq amt 0)) by lia.
  rewrite (proj2 (Z.leb_gt amt 0)) by lia.
  rewrite (proj2 (Z.ltb_ge amt MINIMUM_WITHDRAWAL)) by (unfold MINIMUM_WITHDRAWAL; lia).
  erewrite bind_step; [|unfold find_user; reflexivity]. cbv beta.
  erewrite bind_step; [|unfold getOrCreateWallet; rewrite Hw; reflexivity]. cbv beta.
  rewrite (proj2 (Z.ltb_ge _ _) Hbal), Hu, Hacct.
  erewrite bind_step; [|apply payout_find_none_of; intros k p Hk;
    destruct (Z.eqb_spec (po_user_id p) u) as [Hpu|]; simpl; [rewrite (Hnone k p Hk Hpu); first [reflexivity | apply andb_false_r]|reflexivity]].
  cbv beta iota.
  unfold payout_create. cbn [po_amount]. rewrite (proj2 (Z.leb_le 1 amt)) by lia.
  erewrite bind_step; [|unfold bind, fresh_id, modify, ret; simpl; reflexivity]. cbv beta.
  unfold withdraw. simpl. rewrite (proj2 (Z.ltb_ge _ _) Hbal).
  erewrite bind_step.
  2:{ unfold bind, wallet_save. rewrite (proj2 (wallet_valid_iff _)).
      - reflexivity.
      - apply wallet_valid_iff in Hv. simpl. lia. }
  cbv beta.
  erewrite bind_step; [|unfold createWithdrawal, txn_create, bind, fresh_id, modify, ret; reflexivity]. cbv beta.
  erewrite bind_step; [|unfold payout_save; simpl; rewrite (proj2 (Z.leb_le 1 amt)) by lia; reflexivity].
  reflexivity.
Qed.

End WithdrawalRequest.

Lemma state_ext (s s' : state) :
  users s = users s' -> rides s = rides s' -> bookings s = bookings s' -> wallets s = wallets s' ->
  txns s = txns s' -> payouts s = payouts s' -> ratings s = ratings s' -> requests s = requests s' ->
  intents s = intents s' -> psp_refunds s = psp_refunds s' -> next_id s = next_id s' -> s = s'.
Proof. destruct s, s'; simpl; intros; subst; reflexivity. Qed.

Lemma try_catch_throw {A} (e : exn) (h : exn -> M A) (s : state) :
  try_catch (throw e) h s = h e s.
Proof. reflexivity. Qed.

Lemma try_catch_ret {A} (m : M A) (h : exn -> M A) (s s' : state) (a : A) :
  m s = (s', Ret a) -> try_catch m h s = (s', Ret a).
Proof. intros E. unfold try_catch. rewrite E. reflexivity. Qed.

Lemma refundWithdrawal_restores (u amt : oid) (w : wallet) (s : state) :
  wallet_valid w = true ->
  refundWithdrawal u (mkWallet (w_balance w - amt) (w_pending_balance w) (w_total_earned w)
                        (w_total_withdrawn w + amt)) amt s
  = (set_wallets (insert u w) s, Ret w).
Proof.
  intros Hv. unfold refundWithdrawal. cbn [w_balance w_pending_balance w_total_earned w_total_withdrawn].
  replace (mkWallet (w_balance w - amt + amt) (w_pending_balance w) (w_total_earned w)
             (w_total_withdrawn w + amt - amt)) with w by (destruct w; simpl; f_equal; lia).
  unfold bind, wallet_save. rewrite Hv. reflexivity.
Qed.

Lemma payout_save_ok (k : oid) (p : payout) (s : state) :
  1 <= po_amount p -> payout_save k p s = (set_payouts (insert k p) s, Ret tt).
Proof. intros H. unfold payout_save. rewrite (proj2 (Z.leb_le _ _) H). reflexivity. Qed.

Lemma handleWebhook_state (ev : event) (s : state) :
  fst (run (handleWebhook ev) s) = fst (dispatch ev s).
Proof.
  rewrite (proj1 (run_fst_snd _ _)). unfold handleWebhook, try_catch, bind.
  destruct (dispatch ev s) as [s' [[]|e]]; reflexivity.
Qed.

Lemma find_app_last {A} (P : A -> bool) (l : list A) (x : A) :
  List.find P l = None -> P x = true -> List.find P (l ++ [x]) = Some x.
Proof.
  intros Hl Hx. induction l as [|a l IH]; simpl in *; [rewrite Hx; reflexivity|].
  destruct (P a); [discriminate|]. apply IH, Hl.
Qed.

Section PaymentIntentReplay.
Context (pi amt rid did : oid) (p b : option oid).

Let net := amt - platform_fee amt PLATFORM_FEE_PERCENT.
Let pis_done (t : state) : Prop :=
  forall rd du, rides t !! rid = Some rd -> users t !! did = Some du ->
  exists w, wallets t !! did = Some w /\
    (List.find (fun kt => opt_eqb (tx_payment_intent_id kt.2) pi) (txns t) <> None
     \/ wallet_valid (mkWallet (w_balance w + net) (w_pending_balance w)
                       (w_total_earned w + net) (w_total_withdrawn w)) = false).

Lemma pis_done_fixed (t : state) :
  pis_done t -> fst (handlePaymentIntentSucceeded pi amt (Some rid) p (Some did) b t) = t.
Proof.
  intros Hd. unfold handlePaymentIntentSucceeded.
  erewrite bind_step; [|reflexivity]. cbv beta.
  erewrite bind_step; [|reflexivity]. cbv beta.
  destruct (rides t !! rid) as [rd|] eqn:Er; [|reflexivity].
  destruct (users t !! did) as [du|] eqn:Eu; [|reflexivity].
  destruct (Hd rd du Er Eu) as (w & Hw & Hcase).
  erewrite bind_step; [|unfold getOrCreateWallet; rewrite Hw; reflexivity]. cbv beta.
  erewrite bind_step; [|reflexivity]. cbv beta.
  destruct (List.find _ (txns t)) as [x|] eqn:Ef; [reflexivity|].
  destruct Hcase as [Hc|Hc]; [congruence|].
  erewrite bind_step; [|reflexivity]. cbv beta.
  unfold bind at 1, addEarnings, bind at 1, wallet_save. fold net. rewrite Hc. reflexivity.
Qed.

Lemma pis_reaches_done (s : state) :
  pis_done (fst (handlePaymentIntentSucceeded pi amt (Some rid) p (Some did) b s)).
Proof.
  unfold handlePaymentIntentSucceeded.
  erewrite bind_step; [|reflexivity]. cbv beta.
  erewrite bind_step; [|reflexivity]. cbv beta.
  destruct (rides s !! rid) as [rd|] eqn:Er; [|intros ? ? H; simpl in H; congruence].
  destruct (users s !! did) as [du|] eqn:Eu; [|intros ? ? _ H; simpl in H; congruence].
  assert (Hg : exists s0 w0, getOrCreateWallet did s = (s0, Ret w0) /\ wallets s0 !! did = Some w0
             /\ rides s0 = rides s /\ users s0 = users s /\ txns s0 = txns s /\ bookings s0 = bookings s).
  { unfold getOrCreateWallet. destruct (wallets s !! did) as [w|] eqn:Hw.
    - exists s, w. repeat split; auto.
    - eexists _, _. split; [reflexivity|]. simpl. rewrite lookup_insert_eq. repeat split. }
  destruct Hg as (s0 & w0 & Eg & Hw0 & Hr0 & Hu0 & Ht0 & Hb0).
  erewrite bind_step; [|exact Eg]. cbv beta.
  erewrite bind_step; [|reflexivity]. cbv beta.
  destruct (List.find _ (txns s0)) as [x|] eqn:Ef.
  { simpl. intros rd' du' _ _. exists w0. split; [exact Hw0|]. left. congruence. }
  erewrite bind_step; [|reflexivity]. cbv beta.
  unfold addEarnings at 1. fold net.
  set (w1 := mkWallet (w_balance w0 + net) (w_pending_balance w0) (w_total_earned w0 + net)
                      (w_total_withdrawn w0)).
  destruct (wallet_valid w1) eqn:Ev.
  2:{ unfold bind at 1, bind at 1, wallet_save. rewrite Ev. simpl.
      intros rd' du' _ _. exists w0. split; [exact Hw0|]. right. exact Ev. }
  unfold bind at 1. erewrite bind_step; [|unfold wallet_save; rewrite Ev; reflexivity].
  cbv beta iota. unfold ret at 1. cbv beta iota.
  unfold createRideEarning, txn_create, bind, fresh_id, modify, ret. simpl.
  intros rd' du' _ _. exists w1. split; [apply lookup_insert_eq|].
  left. unfold set_txns, bump_id, set_wallets. cbn [txns]. rewrite (find_app_last _ _ _ Ef); [discriminate|].
  simpl. apply Z.eqb_refl.
Qed.

End PaymentIntentReplay.

Lemma payout_find_unique (P : payout -> bool) (s : state) (k : oid) (p : payout) :
  payouts s !! k = Some p -> P p = true ->
  (forall k' p', payouts s !! k' = Some p' -> P p' = true -> k' = k) ->
  payout_find P s = (s, Ret (Some (k, p))).
Proof.
  intros Hk HP Hu. unfold payout_find. do 2 f_equal.
  assert (Hin : (k, p) ∈ filter (fun kp => P kp.2) (map_to_list (payouts s))).
  { apply list_elem_of_filter. split; [simpl; rewrite HP; exact I|]. apply elem_of_map_to_list, Hk. }
  destruct (filter _ _) as [|[k' p'] l] eqn:E; [inversion Hin|].
  assert (Hin' : (k', p') ∈ filter (fun kp => P kp.2) (map_to_list (payouts s))) by (rewrite E; left).
  apply list_elem_of_filter in Hin' as [HP' Hin']. apply elem_of_map_to_list in Hin'.
  simpl in HP'. assert (HP'' : P p' = true) by (destruct (P p'); [reflexivity|contradiction]).
  simpl. rewrite (Hu k' p' Hin' HP'') in Hin' |- *. rewrite Hk in Hin'. injection Hin' as ->. reflexivity.
Qed.

Lemma handlePayoutFailed_step (spid k : oid) (p : payout) (w : wallet) (s : state) :
  payouts s !! k = Some p -> opt_eqb (po_stripe_payout_id p) spid = true ->
  (forall k' p', payouts s !! k' = Some p' -> opt_eqb (po_stripe_payout_id p') spid = true -> k' = k) ->
  1 <= po_amount p -> wallets s !! po_wallet_id p = Some w ->
  po_amount p <= w_total_withdrawn w -> wallet_valid w = true ->
  handlePayoutFailed spid s =
  (set_txns (update_first (is_withdrawal_of k) (fun t => with_tx_state t TxFailed))
     (set_wallets (insert (po_wallet_id p)
        (mkWallet (w_balance w + po_amount p) (w_pending_balance w) (w_total_earned w)
                  (w_total_withdrawn w - po_amount p)))
        (set_payouts (insert k (po_failed p)) s)), Ret tt).
Proof.
  intros Hk HP Hu Ha Hw Hle Hv. unfold handlePayoutFailed.
  erewrite bind_step; [|apply payout_find_unique; eauto]. cbv beta iota.
  unfold markFailed. erewrite bind_step;
    [|unfold bind, payout_save; cbn [po_amount with_po]; rewrite (proj2 (Z.leb_le _ _) Ha); reflexivity].
  cbv beta. erewrite bind_step; [|unfold find_wallet; reflexivity]. cbv beta.
  assert (Ew : forall f, wallets (set_payouts f s) = wallets s) by reflexivity. rewrite Ew, Hw. fold (po_failed p).
  erewrite bind_step; [|unfold bind, refundWithdrawal, wallet_save;
    rewrite (proj2 (wallet_valid_iff _)); [reflexivity|];
    apply wallet_valid_iff in Hv; simpl; lia]. reflexivity.
Qed.

Lemma update_first_idem (P : txn -> bool) (f : txn -> txn) (l : list (oid * txn)) :
  (forall t, P t = true -> P (f t) = true) -> (forall t, f (f t) = f t) ->
  update_first P f (update_first P f l) = update_first P f l.
Proof.
  intros HP Hf. induction l as [|[k t] l IH]; simpl; [reflexivity|].
  destruct (P t) eqn:E; simpl.
  - rewrite (HP t E), Hf. reflexivity.
  - rewrite E, IH. reflexivity.
Qed.

Lemma handlePayoutPaid_step (spid k : oid) (p : payout) (s : state) :
  payouts s !! k = Some p -> opt_eqb (po_stripe_payout_id p) spid = true ->
  (forall k' p', payouts s !! k' = Some p' -> opt_eqb (po_stripe_payout_id p') spid = true -> k' = k) ->
  1 <= po_amount p ->
  handlePayoutPaid spid s =
  (set_txns (update_first (is_withdrawal_of k) (fun t => with_tx_state t TxCompleted))
     (set_payouts (insert k (po_completed p)) s), Ret tt).
Proof.
  intros Hk HP Hu Ha. unfold handlePayoutPaid.
  erewrite bind_step; [|apply payout_find_unique; eauto]. cbv beta iota.
  unfold markCompleted. erewrite bind_step;
    [|unfold bind, payout_save; cbn [po_amount with_po]; rewrite (proj2 (Z.leb_le _ _) Ha); reflexivity].
  reflexivity.
Qed.

Lemma accept_first_drivers (l : list offer) (k : oid) :
  map of_driver (accept_first l k) = map of_driver l.
Proof.
  induction l as [|o l IH]; simpl; [reflexivity|].
  destruct (of_id o =? k); simpl; [reflexivity|]. f_equal. exact IH.
Qed.

Lemma reject_others_drivers (l : list offer) (k : oid) :
  map of_driver (reject_others l k) = map of_driver l.
Proof.
  unfold reject_others. rewrite map_map. apply map_ext_in. intros o _.
  destruct (of_id o =? k); reflexivity.
Qed.

Lemma reject_one_drivers (l : list offer) (k : oid) :
  map of_driver ((fix go (l : list offer) : list offer :=
                   match l with
                   | [] => []
                   | o :: l' => if of_id o =? k
                                then with_offer_status o OfferRejected :: l'
                                else o :: go l'
                   end) l) = map of_driver l.
Proof.
  induction l as [|o l IH]; simpl; [reflexivity|].
  destruct (of_id o =? k); simpl; [reflexivity|]. f_equal. exact IH.
Qed.

Lemma remove_pending_offer_spec (l l' : list offer) (d : oid) :
  remove_pending_offer l d = Some l' ->
  In d (map of_driver l) /\ incl l' l /\ (NoDup (map of_driver l) -> NoDup (map of_driver l')).
Proof.
  revert l'. induction l as [|o l IH]; intros l' E; simpl in E; [discriminate|].
  destruct ((of_driver o =? d) && offer_status_eqb (of_status o) OfferPending) eqn:C.
  - injection E as <-. apply andb_true_iff in C as [C _]. apply Z.eqb_eq in C.
    split; [left; exact C|]. split; [intros x Hx; right; exact Hx|].
    intros Hnd. inversion Hnd; assumption.
  - destruct (remove_pending_offer l d) as [l0|] eqn:E0; simpl in E; [|discriminate].
    injection E as <-. destruct (IH l0 eq_refl) as (Hin & Hincl & Hnd).
    split; [right; exact Hin|]. split.
    + intros x [<-|Hx]; [left; reflexivity|right; apply Hincl, Hx].
    + intros H. inversion H as [|? ? Hnin Hnd']; subst. simpl. constructor.
      * intros Hx. apply Hnin. apply list_elem_of_In in Hx. apply in_map_iff in Hx as (y & Hy & Hyl).
        apply list_elem_of_In. rewrite <- Hy. apply in_map, Hincl, Hyl.
      * apply Hnd, Hnd'.
Qed.

Lemma remove_pending_offer_gone (l l' : list offer) (d : oid) :
  remove_pending_offer l d = Some l' -> NoDup (map of_driver l) -> ~ In d (map of_driver l').
Proof.
  revert l'. induction l as [|o l IH]; intros l' E Hnd; simpl in E; [discriminate|].
  inversion Hnd as [|? ? Hnin Hnd']; subst.
  destruct ((of_driver o =? d) && offer_status_eqb (of_status o) OfferPending) eqn:C.
  - injection E as <-. apply andb_true_iff in C as [C _]. apply Z.eqb_eq in C.
    rewrite <- C. intros Hx. apply Hnin, list_elem_of_In, Hx.
  - destruct (remove_pending_offer l d) as [l0|] eqn:E0; simpl in E; [|discriminate].
    injection E as <-. simpl. intros [Ho|Hx].
    + apply Hnin. rewrite Ho. apply list_elem_of_In. exact (proj1 (remove_pending_offer_spec l l0 d E0)).
    + exact (IH l0 eq_refl Hnd' Hx).
Qed.

Lemma makeOffer_cases (sq : bool) (d rq k : oid) (rid : option oid) (pr : float) (s : state) :
  (exists resp, makeOffer sq d rq k rid pr s = (s, Ret resp)
                /\ resp <> Resp 200 "Offer sent successfully")
  \/ exists r, requests s !! rq = Some r /\ rr_status r = ReqPending
       /\ existsb (fun o => of_driver o =? d) (rr_offers r) = false
       /\ (forall x, rid = Some x -> sq = true /\ is_Some (rides s !! x))
       /\ makeOffer sq d rq k rid pr s
          = (set_requests (insert rq (mkRequest (rr_passenger r) (rr_seats_needed r) (rr_status r)
               (rr_matched_driver r) (rr_matched_ride r)
               (rr_offers r ++ [mkOffer k d rid pr OfferPending]) (rr_payment_status r))) s,
             Ret (Resp 200 "Offer sent successfully")).
Proof.
  unfold makeOffer, find_request, find_ride_of_driver, request_save, modify, bind, ret.
  destruct (requests s !! rq) as [r|] eqn:Er; [|left; eexists; split; [reflexivity|discriminate]].
  destruct (rr_status r) eqn:Es; cbn [request_status_eqb negb]; try (left; eexists; split; [reflexivity|discriminate]).
  destruct (existsb _ _) eqn:Ex; [left; eexists; split; [reflexivity|discriminate]|].
  destruct rid as [x|].
  - destruct sq; [destruct (rides s !! x) eqn:Ex2|]; try (left; eexists; split; [reflexivity|discriminate]).
    right. exists r. split; [reflexivity|]. split; [exact Es|]. split; [exact Ex|].
    split; [|rewrite Es; reflexivity].
    intros ? [= <-]. split; [reflexivity|]. rewrite Ex2. eexists; reflexivity.
  - right. exists r. split; [reflexivity|]. split; [exact Es|]. split; [exact Ex|].
    split; [|rewrite Es; reflexivity]. intros ? [=].
Qed.

Lemma createRating_created (now u bid stars : Z) (s s1 : state) (msg : string) :
  run (createRating now u bid stars) s = (s1, Resp 201 msg) ->
  exists b rd pu t ty,
    bookings s !! bid = Some b /\ bk_status b = BAccepted /\ rides s !! bk_ride_id b = Some rd
    /\ users s !! bk_passenger_id b = Some pu
    /\ (if u =? ride_driver_id rd then Some (bk_passenger_id b, DriverToPassenger)
        else if u =? bk_passenger_id b then Some (ride_driver_id rd, PassengerToDriver)
        else None) = Some (t, ty)
    /\ s1 = set_ratings (fun l => l ++ [mkRating u t bid (bk_ride_id b) ty stars]) s.
Proof.
  unfold run, createRating, handler, try_catch, find_booking, find_ride, find_user, get, bind, ret.
  intros E. simpl in E.
  destruct ((stars =? 0) || (stars <? 1) || (5 <? stars)); simpl in E; [discriminate|].
  destruct (bookings s !! bid) as [b|] eqn:Eb; simpl in E; [|discriminate].
  destruct (bk_status b) eqn:Ebs; simpl in E; try discriminate.
  destruct (rides s !! bk_ride_id b) as [rd|] eqn:Er; simpl in E; [|discriminate].
  destruct (users s !! bk_passenger_id b) as [pu|] eqn:Ep; simpl in E; [|discriminate].
  try (destruct (before_completion rd now); simpl in E; [discriminate|]).
  destruct (if u =? ride_driver_id rd then _ else _) as [[t ty]|] eqn:Et; simpl in E; [|discriminate].
  destruct (existsb _ (ratings s)); simpl in E; [discriminate|].
  unfold rating_create in E. destruct (negb _); simpl in E; [discriminate|].
  destruct (existsb _ (ratings s)); simpl in E; [discriminate|].
  injection E as <- _. exists b, rd, pu, t, ty. auto 10.
Qed.

Lemma run_ret (m : M response) (s s' : state) (r : response) :
  m s = (s', Ret r) -> run m s = (s', r).
Proof. intros E. unfold run, handler, try_catch. rewrite E. reflexivity. Qed.

Lemma ride_cancel_refunds_ret (now : Z) (ra : oid -> option (oid * Z)) (d : oid) (rd : ride)
    (l : list (oid * booking)) (s : state) :
  exists s' c, ride_cancel_refunds now ra d rd l s = (s', Ret c).
Proof.
  revert s. induction l as [|[k b] l IH]; intros s; simpl; [eauto|].
  unfold bind at 1, try_catch. destruct (bind _ _ s) as [s1 [ok|e]]; simpl;
    [|unfold ret]; unfold bind; destruct (IH s1) as (s2 & c & ->) || destruct (IH s) as (s2 & c & ->);
    eauto.
Qed.

Lemma paid_bookings_key (id k : oid) (bs : gmap oid booking) :
  In k (map fst (paid_bookings id bs)) -> exists b, bs !! k = Some b /\ bk_ride_id b = id.
Proof.
  intros Hin. apply in_map_iff in Hin as ([k' b0] & <- & Hin).
  apply list_elem_of_In, list_elem_of_filter in Hin as [Hp Hin].
  apply Is_true_eq_true in Hp. simpl in Hp. apply andb_true_iff in Hp as [Hp _].
  apply andb_true_iff in Hp as [Hid _]. apply elem_of_map_to_list in Hin.
  exists b0. split; [exact Hin|]. apply Z.eqb_eq, Hid.
Qed.

Module Extras.

(** X1: Wallet.withdraw of an amount followed by refundWithdrawal of the same amount gives back the state before the withdrawal and returns the original wallet document. *)
Lemma withdraw_refund_roundtrip (u : oid) (w w1 : wallet) (a : Z) (s s1 : state) :
  wallets s !! u = Some w -> wallet_valid w = true ->
  withdraw u w a s = (s1, Ret w1) ->
  refundWithdrawal u w1 a s1 = (s, Ret w).
Proof.
  intros Hw Hv. unfold withdraw.
  destruct (w_balance w <? a); [discriminate|].
  unfold bind, wallet_save. match goal with |- context [wallet_valid ?x] => destruct (wallet_valid x) end; simpl; [|discriminate].
  intros [= <- <-]. unfold refundWithdrawal, bind, wallet_save. simpl.
  assert (E : {| w_balance := w_balance w - a + a; w_pending_balance := w_pending_balance w;
                 w_total_earned := w_total_earned w; w_total_withdrawn := w_total_withdrawn w + a - a |} = w)
    by (destruct w; simpl; f_equal; lia).
  rewrite E, Hv. simpl. f_equal. destruct s; unfold set_wallets; simpl in *.
  rewrite insert_insert_eq, insert_id by exact Hw. reflexivity.
Qed.

Lemma withdraw_refund_roundtrip_witness :
  refundWithdrawal 2 (mkWallet 7000 0 0 3000) 3000
    (fst (withdraw 2 (mkWallet 10000 0 0 0) 3000 wallet_example))
  = (wallet_example, Ret (mkWallet 10000 0 0 0)).
Proof.
  apply (withdraw_refund_roundtrip 2 (mkWallet 10000 0 0 0) (mkWallet 7000 0 0 3000) 3000 wallet_example);
    vm_compute; reflexivity.
Defined.



(** X3: addEarnings of an amount followed by the reversal of the same amount (the balance and total_earned decrements of the refund paths) gives back the state before addEarnings. *)
Lemma addEarnings_reverse_roundtrip (u : oid) (w w1 : wallet) (a : Z) (s s1 : state) :
  wallets s !! u = Some w -> wallet_valid w = true ->
  addEarnings u w a s = (s1, Ret w1) ->
  reverse_earnings u w1 a s1 = (s, Ret tt).
Proof.
  intros Hw Hv. unfold addEarnings, bind, wallet_save. match goal with |- context [wallet_valid ?x] => destruct (wallet_valid x) end; simpl; [|discriminate].
  intros [= <- <-]. unfold reverse_earnings, wallet_save. simpl.
  assert (E : {| w_balance := w_balance w + a - a; w_pending_balance := w_pending_balance w;
                 w_total_earned := w_total_earned w + a - a; w_total_withdrawn := w_total_withdrawn w |} = w)
    by (destruct w; simpl; f_equal; lia).
  rewrite E, Hv. unfold modify. f_equal. destruct s; unfold set_wallets; simpl in *.
  rewrite insert_insert_eq, insert_id by exact Hw. reflexivity.
Qed.

Lemma addEarnings_reverse_roundtrip_witness :
  reverse_earnings 1 (mkWallet 2000 0 2000 0) 2000
    (fst (addEarnings 1 (mkWallet 0 0 0 0) 2000 connected_example)) = (connected_example, Ret tt).
Proof.
  apply (addEarnings_reverse_roundtrip 1 (mkWallet 0 0 0 0) (mkWallet 2000 0 2000 0) 2000 connected_example);
    vm_compute; reflexivity.
Defined.

(** X4: requestWithdrawal of a nonzero amount below MINIMUM_WITHDRAWAL answers 400 and leaves the state unchanged. *)
Lemma requestWithdrawal_below_minimum (tr : option oid) (u amt : oid) (eur : option float) (s : state) :
  amt <> 0 -> amt < MINIMUM_WITHDRAWAL ->
  exists msg, run (requestWithdrawal tr u amt eur) s = (s, Resp 400 msg).
Proof.
  intros H0 Hm. unfold run, handler, try_catch, requestWithdrawal.
  rewrite (proj2 (Z.eqb_neq _ _) H0).
  destruct (Z.leb_spec amt 0); [eexists; reflexivity|].
  rewrite (proj2 (Z.ltb_lt _ _) Hm). eexists; reflexivity.
Qed.

Lemma requestWithdrawal_below_minimum_witness :
  exists msg, run (requestWithdrawal None 1 100 None) connected_example = (connected_example, Resp 400 msg).
Proof. apply (requestWithdrawal_below_minimum None 1 100 None connected_example); wit_tac. Defined.

(** X5: requestWithdrawal of a valid amount by a user with a connected account and no in-flight payout, when the Stripe transfer fails, restores the wallet, keeps a failed payout and a failed withdrawal entry, consumes two ids and answers 500. *)
Lemma requestWithdrawal_transfer_rejected (u amt acct : oid) (usr : user) (w : wallet) (s : state) :
  MINIMUM_WITHDRAWAL <= amt -> amt <= w_balance w -> wallet_valid w = true ->
  wallets s !! u = Some w -> users s !! u = Some usr -> u_stripeAccountId usr = Some acct ->
  (forall k p, payouts s !! k = Some p -> po_user_id p = u -> is_inflight p = false) ->
  Forall (fun kt => kt.1 < next_id s) (txns s) ->
  run (requestWithdrawal None u amt None) s =
  (mkState (users s) (rides s) (bookings s) (wallets s)
     (txns s ++ [(next_id s + 1, mkTxn u u Withdrawal (- amt) amt 0 10 amt TxFailed
                                   (Some (next_id s)) None None)])
     (<[next_id s := mkPayout u u amt PoFailed None None (Some (next_id s + 1))]> (payouts s))
     (ratings s) (requests s) (intents s) (psp_refunds s) (next_id s + 2),
   Resp 500 "Failed to process withdrawal. Please try again later."%string).
Proof.
  intros Hmin Hbal Hv Hw Hu Hacct Hnone Hfresh.
  unfold MINIMUM_WITHDRAWAL in Hmin.
  unfold run, handler. erewrite try_catch_ret; [reflexivity|].
  rewrite (requestWithdrawal_prefix u amt acct usr w s) by assumption.
  rewrite try_catch_throw.
  erewrite bind_step; [|apply refundWithdrawal_restores, Hv]. cbv beta.
  erewrite bind_step; [|unfold markFailed; erewrite bind_step; [reflexivity|apply payout_save_ok; simpl; lia]].
  cbv beta. unfold bind, modify, ret.
  f_equal. destruct s as [U R B W T P Ra Rq I F N].
  apply state_ext; simpl; try reflexivity.
  - rewrite insert_insert_eq, insert_id by exact Hw. reflexivity.
  - fresh_map N Hfresh.
  - rewrite !insert_insert_eq. reflexivity.
  - lia.
Qed.

Lemma requestWithdrawal_transfer_rejected_witness :
  run (requestWithdrawal None 1 1000 None) withdraw_example =
  (mkState {[1 := mkUser (Some 99)]} ∅ ∅ {[1 := mkWallet 10000 0 0 0]}
     [(101, mkTxn 1 1 Withdrawal (-1000) 1000 0 10 1000 TxFailed (Some 100) None None)]
     {[100 := mkPayout 1 1 1000 PoFailed None None (Some 101)]} [] ∅ [] [] 102,
   Resp 500 "Failed to process withdrawal. Please try again later.").
Proof.
  apply (requestWithdrawal_transfer_rejected 1 1000 99 (mkUser (Some 99)) (mkWallet 10000 0 0 0));
    first [constructor | wit_tac].
Defined.

(** X6: requestWithdrawal of a valid amount by a user with a connected account and no in-flight payout, when the Stripe transfer succeeds, debits the balance, adds the amount to total_withdrawn, stores a processing payout with the transfer id and a completed withdrawal entry, and answers 200. *)
Lemma requestWithdrawal_transfer_accepted (tr u amt acct : oid) (usr : user) (w : wallet) (s : state) :
  MINIMUM_WITHDRAWAL <= amt -> amt <= w_balance w -> wallet_valid w = true ->
  wallets s !! u = Some w -> users s !! u = Some usr -> u_stripeAccountId usr = Some acct ->
  (forall k p, payouts s !! k = Some p -> po_user_id p = u -> is_inflight p = false) ->
  Forall (fun kt => kt.1 < next_id s) (txns s) ->
  run (requestWithdrawal (Some tr) u amt None) s =
  (mkState (users s) (rides s) (bookings s)
     (<[u := mkWallet (w_balance w - amt) (w_pending_balance w) (w_total_earned w)
               (w_total_withdrawn w + amt)]> (wallets s))
     (txns s ++ [(next_id s + 1, mkTxn u u Withdrawal (- amt) amt 0 10 amt TxCompleted
                                   (Some (next_id s)) None (Some tr))])
     (<[next_id s := mkPayout u u amt PoProcessing None (Some tr) (Some (next_id s + 1))]> (payouts s))
     (ratings s) (requests s) (intents s) (psp_refunds s) (next_id s + 2),
   Resp 200 "Withdrawal initiated successfully"%string).
Proof.
  intros Hmin Hbal Hv Hw Hu Hacct Hnone Hfresh.
  unfold MINIMUM_WITHDRAWAL in Hmin.
  unfold run, handler. erewrite try_catch_ret; [reflexivity|].
  rewrite (requestWithdrawal_prefix u amt acct usr w s) by assumption.
  apply try_catch_ret.
  erewrite bind_step; [|unfold markProcessing; erewrite bind_step; [reflexivity|apply payout_save_ok; simpl; lia]].
  cbv beta. unfold bind, modify, ret.
  f_equal. destruct s as [U R B W T P Ra Rq I F N].
  apply state_ext; simpl; try reflexivity.
  - fresh_map N Hfresh.
  - rewrite !insert_insert_eq. reflexivity.
  - lia.
Qed.

Lemma requestWithdrawal_transfer_accepted_witness :
  run (requestWithdrawal (Some 7) 1 1000 None) withdraw_example =
  (mkState {[1 := mkUser (Some 99)]} ∅ ∅ {[1 := mkWallet 9000 0 0 1000]}
     [(101, mkTxn 1 1 Withdrawal (-1000) 1000 0 10 1000 TxCompleted (Some 100) None (Some 7))]
     {[100 := mkPayout 1 1 1000 PoProcessing None (Some 7) (Some 101)]} [] ∅ [] [] 102,
   Resp 200 "Withdrawal initiated successfully").
Proof.
  apply (requestWithdrawal_transfer_accepted 7 1 1000 99 (mkUser (Some 99)) (mkWallet 10000 0 0 0));
    first [constructor | wit_tac].
Defined.

(** X7: Delivering the same payment_intent.succeeded webhook twice leaves the state of the first delivery: the second delivery finds the ride-earning entry of the PaymentIntent and credits nothing. *)
Lemma paymentIntentSucceeded_idempotent (pi amt : Z) (r p d b : option oid) (s : state) :
  let ev := PaymentIntentSucceeded pi amt r p d b in
  fst (run (handleWebhook ev) (fst (run (handleWebhook ev) s))) = fst (run (handleWebhook ev) s).
Proof.
  cbv zeta. rewrite !handleWebhook_state. simpl dispatch.
  destruct r as [rid|], d as [did|]; try reflexivity.
  apply pis_done_fixed, pis_reaches_done.
Qed.

(** X8: handlePayoutFailed does not check the payout's status: delivering the same payout.failed webhook twice refunds the payout amount to the wallet twice. *)
Lemma payoutFailed_replay_refunds_twice (spid k : oid) (p : payout) (w : wallet) (s : state) :
  payouts s !! k = Some p -> opt_eqb (po_stripe_payout_id p) spid = true ->
  (forall k' p', payouts s !! k' = Some p' -> opt_eqb (po_stripe_payout_id p') spid = true -> k' = k) ->
  1 <= po_amount p -> wallets s !! po_wallet_id p = Some w ->
  2 * po_amount p <= w_total_withdrawn w -> wallet_valid w = true ->
  let ev := PayoutFailed spid in
  wallets (fst (run (handleWebhook ev) (fst (run (handleWebhook ev) s)))) !! po_wallet_id p =
  Some (mkWallet (w_balance w + 2 * po_amount p) (w_pending_balance w) (w_total_earned w)
                 (w_total_withdrawn w - 2 * po_amount p)).
Proof.
  intros Hk HP Hu Ha Hw Hle Hv ev. rewrite !handleWebhook_state. simpl dispatch.
  rewrite (handlePayoutFailed_step spid k p w s) by (auto; lia). simpl fst.
  rewrite (handlePayoutFailed_step spid k (po_failed p)
             (mkWallet (w_balance w + po_amount p) (w_pending_balance w) (w_total_earned w)
                       (w_total_withdrawn w - po_amount p))).
  - simpl. rewrite lookup_insert_eq. do 2 f_equal; lia.
  - simpl. apply lookup_insert_eq.
  - exact HP.
  - simpl. intros k' p' Hk' HP'. destruct (decide (k' = k)) as [->|Hne]; [reflexivity|].
    rewrite lookup_insert_ne in Hk' by congruence. exact (Hu k' p' Hk' HP').
  - exact Ha.
  - simpl. apply lookup_insert_eq.
  - simpl. lia.
  - apply wallet_valid_iff in Hv. apply wallet_valid_iff. simpl. lia.
Qed.

Lemma payoutFailed_replay_refunds_twice_witness :
  let ev := PayoutFailed 55 in
  wallets (fst (run (handleWebhook ev) (fst (run (handleWebhook ev) payout_example)))) !! 1 =
  Some (mkWallet 2000 0 0 0).
Proof.
  apply (payoutFailed_replay_refunds_twice 55 100 (mkPayout 1 1 1000 PoProcessing (Some 55) None (Some 101))
           (mkWallet 0 0 0 2000) payout_example); try wit_tac.
  intros k' p' Hk' _. destruct (decide (k' = 100)) as [->|Hne]; [reflexivity|].
  simpl in Hk'. rewrite lookup_singleton_ne in Hk' by congruence. discriminate.
Defined.

(** X9: Delivering payout.paid marks the payout completed, and delivering it again leaves the state unchanged. *)
Lemma payoutPaid_idempotent (spid k : oid) (p : payout) (s : state) :
  payouts s !! k = Some p -> opt_eqb (po_stripe_payout_id p) spid = true ->
  (forall k' p', payouts s !! k' = Some p' -> opt_eqb (po_stripe_payout_id p') spid = true -> k' = k) ->
  1 <= po_amount p ->
  let ev := PayoutPaid spid in
  let s1 := fst (run (handleWebhook ev) s) in
  payouts s1 !! k = Some (po_completed p) /\ fst (run (handleWebhook ev) s1) = s1.
Proof.
  intros Hk HP Hu Ha ev s1. subst s1 ev. rewrite !handleWebhook_state. simpl dispatch.
  rewrite (handlePayoutPaid_step spid k p s) by assumption. simpl fst. split.
  - simpl. apply lookup_insert_eq.
  - rewrite (handlePayoutPaid_step spid k (po_completed p)).
    + apply state_ext; simpl; try reflexivity.
      * apply update_first_idem; [intros [] H; exact H | intros []; reflexivity].
      * apply insert_insert_eq.
    + simpl. apply lookup_insert_eq.
    + exact HP.
    + simpl. intros k' p' Hk' HP'. destruct (decide (k' = k)) as [->|Hne]; [reflexivity|].
      rewrite lookup_insert_ne in Hk' by congruence. exact (Hu k' p' Hk' HP').
    + exact Ha.
Qed.

Lemma payoutPaid_idempotent_witness :
  let ev := PayoutPaid 55 in
  let s1 := fst (run (handleWebhook ev) payout_example) in
  payouts s1 !! 100 = Some (mkPayout 1 1 1000 PoCompleted (Some 55) None (Some 101))
  /\ fst (run (handleWebhook ev) s1) = s1.
Proof.
  apply (payoutPaid_idempotent 55 100 (mkPayout 1 1 1000 PoProcessing (Some 55) None (Some 101))
           payout_example); try wit_tac.
  intros k' p' Hk' _. destruct (decide (k' = 100)) as [->|Hne]; [reflexivity|].
  simpl in Hk'. rewrite lookup_singleton_ne in Hk' by congruence. discriminate.
Defined.

(** X10: No ride request holds two offers of the same driver, and makeOffer (with or without a ride_id, whatever mongoose's strictQuery setting), withdrawOffer, rejectOffer, acceptOffer, acceptOfferWithPayment and cancelRequest keep it so. *)
Lemma offer_drivers_distinct_preserved (o : offer_op) (s : state) :
  offer_drivers_distinct s -> offer_drivers_distinct (fst (run (offer_op_run o) s)).
Proof.
  unfold offer_drivers_distinct. intros H. destruct o as [sq d rq k rid pr|d rq|u rq k|u rq k|pia u rq k pm pid|u rq]; simpl offer_op_run.
  - rewrite (proj1 (run_fst_snd _ _)).
    destruct (makeOffer_cases sq d rq k rid pr s) as [[resp [E _]]|(r & Er & _ & Ex & _ & E)];
      rewrite E; [exact H|]. simpl.
    apply map_Forall_insert_2; [|exact H]. simpl. rewrite map_app. simpl.
    apply NoDup_app. split; [exact (H rq r Er)|]. split; [|apply NoDup_singleton].
    intros x Hx Hx'. apply list_elem_of_singleton in Hx'. subst x.
    apply list_elem_of_In, in_map_iff in Hx as (o & Ho & Hol).
    assert (Hex : existsb (fun o => of_driver o =? d) (rr_offers r) = true).
    { apply existsb_exists. exists o. split; [exact Hol|]. apply Z.eqb_eq, Ho. }
    congruence.
  - unfold run, handler, try_catch, withdrawOffer.
    destruct (requests s !! rq) as [r|] eqn:Er; [|exact H].
    destruct (remove_pending_offer _ _) as [l'|] eqn:E; [|exact H]. simpl.
    apply map_Forall_insert_2; [|exact H]. simpl.
    exact (proj2 (proj2 (remove_pending_offer_spec _ _ _ E)) (H rq r Er)).
  - unfold run, handler, try_catch, rejectOffer, find_own_request, bind, request_save, modify, ret. simpl.
    destruct (requests s !! rq) as [r|] eqn:Er; simpl; [|exact H].
    destruct (rr_passenger r =? u); simpl; [|exact H].
    destruct (offers_id _ _); simpl; [|exact H].
    apply map_Forall_insert_2; [|exact H]. simpl. rewrite reject_one_drivers. exact (H rq r Er).
  - destruct (acceptOffer_requests u rq k s) as [E|(r & o & Er & _ & _ & E)]; rewrite E; [exact H|].
    apply map_Forall_insert_2; [|exact H]. simpl.
    rewrite reject_others_drivers, accept_first_drivers. exact (H rq r Er).
  - destruct (acceptOfferWithPayment_requests pia u rq k pm pid s) as [E|(r & o & Er & _ & _ & E)];
      rewrite E; [exact H|].
    apply map_Forall_insert_2; [|exact H]. simpl.
    rewrite reject_others_drivers, accept_first_drivers. exact (H rq r Er).
  - unfold run, handler, try_catch, cancelRequest, find_own_request, bind, modify, ret. simpl.
    destruct (requests s !! rq) as [r|]; simpl; [|exact H].
    destruct (rr_passenger r =? u); simpl; [|exact H].
    apply map_Forall_delete, H.
Qed.

Lemma offer_drivers_distinct_preserved_witness :
  offer_drivers_distinct (fst (run (offer_op_run (OpMakeOffer true 3 30 41 (Some 10) (Js.num 25)))
                                 request_example)).
Proof.
  apply offer_drivers_distinct_preserved.
  unfold offer_drivers_distinct. simpl. apply map_Forall_singleton. simpl.
  constructor; [intros H; inversion H | constructor].
Defined.

(** X11: After a driver withdraws the pending offer on a pending request, the same driver can make a new offer on it without a ride_id. *)
Lemma withdraw_then_reoffer (sq : bool) (d rq key : oid) (pr : float) (r : ride_request) (s s1 : state) :
  requests s !! rq = Some r -> rr_status r = ReqPending -> NoDup (map of_driver (rr_offers r)) ->
  run (withdrawOffer d rq) s = (s1, Resp 200 "Offer withdrawn successfully") ->
  snd (run (makeOffer sq d rq key None pr) s1) = Resp 200 "Offer sent successfully".
Proof.
  intros Er Es Hnd. unfold run, handler, try_catch, withdrawOffer. rewrite Er.
  destruct (remove_pending_offer _ _) as [l'|] eqn:E; [|intros [=]].
  intros [= <-]. unfold makeOffer, find_request, bind. simpl. rewrite lookup_insert_eq. simpl.
  rewrite Es. simpl.
  destruct (existsb _ l') eqn:Ex; [|reflexivity]. exfalso.
  apply existsb_exists in Ex as (o & Ho & Hd). apply Z.eqb_eq in Hd.
  apply (remove_pending_offer_gone _ _ _ E Hnd). rewrite <- Hd. apply in_map, Ho.
Qed.

Lemma withdraw_then_reoffer_witness :
  snd (run (makeOffer false 1 30 41 None (Js.num 25)) (fst (run (withdrawOffer 1 30) request_example)))
  = Resp 200 "Offer sent successfully".
Proof.
  apply (withdraw_then_reoffer false 1 30 41 (Js.num 25) example_request request_example);
    first [wit_tac | simpl; constructor; [intros H; inversion H | constructor]].
Defined.

(** X12: acceptOffer, acceptOfferWithPayment, rejectOffer and cancelRequest by a user who does not own the request answer 404 and change nothing. *)
Lemma request_ops_non_owner (u rq : oid) (s : state) :
  (forall r, requests s !! rq = Some r -> rr_passenger r <> u) ->
  (forall k, run (acceptOffer u rq k) s = (s, Resp 404 "Request not found"))
  /\ (forall pia k pm pid, run (acceptOfferWithPayment pia u rq k pm pid) s = (s, Resp 404 "Request not found"))
  /\ (forall k, run (rejectOffer u rq k) s = (s, Resp 404 "Request not found"))
  /\ run (cancelRequest u rq) s = (s, Resp 404 "Request not found").
Proof.
  intros H.
  assert (E : find_own_request rq u s = (s, Ret None)).
  { unfold find_own_request. destruct (requests s !! rq) as [r|] eqn:Er; [|reflexivity].
    pose proof (H r eq_refl) as Hne. rewrite (proj2 (Z.eqb_neq _ _) Hne). reflexivity. }
  repeat split; intros; unfold run, handler, try_catch;
    [unfold acceptOffer | unfold acceptOfferWithPayment | unfold rejectOffer | unfold cancelRequest];
    rewrite (bind_step _ _ _ _ _ E); reflexivity.
Qed.

Lemma request_ops_non_owner_witness :
  (forall k, run (acceptOffer 5 30 k) request_example = (request_example, Resp 404 "Request not found"))
  /\ (forall pia k pm pid, run (acceptOfferWithPayment pia 5 30 k pm pid) request_example
                           = (request_example, Resp 404 "Request not found"))
  /\ (forall k, run (rejectOffer 5 30 k) request_example = (request_example, Resp 404 "Request not found"))
  /\ run (cancelRequest 5 30) request_example = (request_example, Resp 404 "Request not found").
Proof.
  apply request_ops_non_owner. intros r Hr. vm_compute in Hr. injection Hr as <-. discriminate.
Defined.

(** X13: After a user rated a booking, a second rating of the same booking by the same user, with valid stars, answers 400 and changes nothing. *)
Lemma createRating_second_rejected (now now' u bid stars stars' : Z) (s s1 : state) (msg : string) :
  run (createRating now u bid stars) s = (s1, Resp 201 msg) -> 1 <= stars' <= 5 ->
  run (createRating now' u bid stars') s1 = (s1, Resp 400 "You have already rated this ride").
Proof.
  intros E Hs. destruct (createRating_created _ _ _ _ _ _ _ E)
    as (b & rd & pu & t & ty & Eb & Ebs & Er & Ep & Et & ->).
  unfold run, createRating, handler, try_catch, find_booking, find_ride, find_user, get, bind, ret.
  simpl.
  destruct (Z.eqb_spec stars' 0), (Z.ltb_spec stars' 1), (Z.ltb_spec 5 stars'); try lia. simpl.
  rewrite Eb. simpl. rewrite Ebs. simpl. rewrite Er, Ep. simpl. rewrite Et.
  assert (Hx : existsb (fun r => (rt_booking_id r =? bid) && (rt_from_user r =? u) && (rt_to_user r =? t))
                 (ratings s ++ [mkRating u t bid (bk_ride_id b) ty stars]) = true).
  { apply existsb_exists. exists (mkRating u t bid (bk_ride_id b) ty stars).
    split; [apply in_or_app; right; left; reflexivity|]. simpl. rewrite !Z.eqb_refl. reflexivity. }
  replace (ratings (set_ratings (fun l => l ++ [mkRating u t bid (bk_ride_id b) ty stars]) s))
    with (ratings s ++ [mkRating u t bid (bk_ride_id b) ty stars]) by reflexivity.
  rewrite Hx. reflexivity.
Qed.

Lemma createRating_second_rejected_witness :
  run (createRating 100000000 2 20 4) (fst (run (createRating 100000000 2 20 5) rating_example))
  = (fst (run (createRating 100000000 2 20 5) rating_example), Resp 400 "You have already rated this ride").
Proof.
  apply (createRating_second_rejected 100000000 100000000 2 20 5 4 rating_example _
           "Rating submitted successfully"); [vm_compute; reflexivity | lia].
Defined.

(** X14: When canRateBooking says the user can rate the booking, createRating with 1 to 5 stars appends exactly one rating, from that user, for that booking, with those stars, and answers 201. *)
Lemma canRate_then_create (now u bid stars : Z) (s : state) :
  snd (run (canRateBooking now u bid) s) = CanRate true "" -> 1 <= stars <= 5 ->
  exists r, run (createRating now u bid stars) s
            = (set_ratings (fun l => l ++ [r]) s, Resp 201 "Rating submitted successfully")
       /\ rt_from_user r = u /\ rt_booking_id r = bid /\ rt_stars r = stars.
Proof.
  unfold run, canRateBooking, createRating, handler, try_catch, find_booking, find_ride, find_user,
    get, bind, ret.
  simpl. intros Hc Hs.
  destruct (Z.eqb_spec stars 0), (Z.ltb_spec stars 1), (Z.ltb_spec 5 stars); try lia. simpl.
  destruct (bookings s !! bid) as [b|]; simpl in *; [|discriminate].
  destruct (bk_status b); simpl in *; try discriminate.
  destruct (rides s !! bk_ride_id b) as [rd|]; simpl in *; [|discriminate].
  destruct (users s !! bk_passenger_id b) as [pu|]; simpl in *; [|discriminate].
  try (destruct (before_completion rd now); simpl in *; [discriminate|]).
  destruct (negb (u =? ride_driver_id rd) && negb (u =? bk_passenger_id b)) eqn:Hg; simpl in Hc;
    [discriminate|].
  destruct (existsb (fun r => (rt_booking_id r =? bid) && (rt_from_user r =? u)) (ratings s)) eqn:Hn;
    simpl in Hc; [discriminate|].
  assert (Ht : exists t ty, (if u =? ride_driver_id rd then Some (bk_passenger_id b, DriverToPassenger)
            else if u =? bk_passenger_id b then Some (ride_driver_id rd, PassengerToDriver)
            else None) = Some (t, ty)).
  { destruct (u =? ride_driver_id rd); [eauto|]. destruct (u =? bk_passenger_id b); [eauto|].
    discriminate. }
  destruct Ht as (t & ty & ->).
  rewrite (existsb_triple_false _ _ t _ Hn).
  unfold rating_create. simpl.
  destruct (Z.leb_spec 1 stars), (Z.leb_spec stars 5); try lia. simpl.
  rewrite (existsb_triple_false _ _ t _ Hn).
  eexists. split; [reflexivity|]. simpl. auto.
Qed.

Lemma canRate_then_create_witness :
  exists r, run (createRating 100000000 2 20 5) rating_example
            = (set_ratings (fun l => l ++ [r]) rating_example, Resp 201 "Rating submitted successfully")
       /\ rt_from_user r = 2 /\ rt_booking_id r = 20 /\ rt_stars r = 5.
Proof. apply canRate_then_create; [vm_compute; reflexivity | lia]. Defined.

(** X15: createBooking either leaves the state unchanged or stores a pending, unpaid booking under a fresh id and answers 201; it never changes rides, wallets or other bookings. *)
Lemma createBooking_outcome (now rid p seats : Z) (lug : option Z) (s : state) :
  fst (run (createBooking now rid p seats lug) s) = s
  \/ run (createBooking now rid p seats lug) s
     = (set_bookings (insert (next_id s) (mkBooking rid p seats (Js.int_or_zero lug) BPending
                                            PayPending None None None None None)) (bump_id s),
        Resp 201 "Booking request created successfully").
Proof.
  assert (H : fst (createBooking now rid p seats lug s) = s
              \/ createBooking now rid p seats lug s
                 = (set_bookings (insert (next_id s) (mkBooking rid p seats (Js.int_or_zero lug) BPending
                                               PayPending None None None None None)) (bump_id s),
                    Ret (Resp 201 "Booking request created successfully"))).
  { unfold createBooking. erewrite bind_step; [|reflexivity]. cbv beta.
    destruct (rides s !! rid) as [rd|]; [|left; reflexivity].
    destruct (negb _); [left; reflexivity|]. destruct (_ <=? now); [left; reflexivity|].
    destruct (_ =? p); [left; reflexivity|]. erewrite bind_step; [|reflexivity]. cbv beta zeta.
    destruct (booking_exists _ _ _); [left; reflexivity|]. destruct (_ <? seats); [left; reflexivity|].
    destruct (_ && _); [left; reflexivity|].
    match goal with |- context [booking_create ?b] =>
      destruct (booking_create_cases b s) as [(e & E) | (Hv & E)] end.
    - left. unfold bind at 1. rewrite E. reflexivity.
    - right. unfold bind at 1. rewrite E. reflexivity. }
  destruct H as [H|H]; [left; rewrite (proj1 (run_fst_snd _ _)); exact H | right; apply run_ret, H].
Qed.

(** X16: cancelRide by a user who does not drive the ride answers 403, and by its driver less than 12 hours before departure answers 400; in both cases nothing changes. *)
Lemma cancelRide_guards (now : Z) (ra : oid -> option (oid * Z)) (id d : oid) (rd : ride) (s : state) :
  rides s !! id = Some rd ->
  (ride_driver_id rd <> d ->
     run (cancelRide now ra id d) s = (s, Resp 403 "You can only cancel your own rides"))
  /\ (ride_driver_id rd = d -> ride_datetime_start rd - now < 12 * 3600000 ->
     run (cancelRide now ra id d) s
     = (s, Resp 400 "Cannot cancel ride less than 12 hours before departure. Please contact support if this is an emergency.")).
Proof.
  intros Hr. split.
  - intros Hd. apply run_ret. unfold cancelRide. erewrite bind_step; [|reflexivity]. cbv beta.
    rewrite Hr, (proj2 (Z.eqb_neq _ _) Hd). reflexivity.
  - intros Hd Ht. apply run_ret. unfold cancelRide. erewrite bind_step; [|reflexivity]. cbv beta.
    rewrite Hr, Hd, Z.eqb_refl. simpl. unfold hours_until_lt. rewrite (proj2 (Z.ltb_lt _ _) Ht).
    reflexivity.
Qed.

Lemma cancelRide_guards_witness :
  (ride_driver_id example_ride <> 2 ->
     run (cancelRide 0 (fun _ => None) 10 2) wallet_example
     = (wallet_example, Resp 403 "You can only cancel your own rides"))
  /\ (ride_driver_id example_ride = 2 -> ride_datetime_start example_ride - 0 < 12 * 3600000 ->
     run (cancelRide 0 (fun _ => None) 10 2) wallet_example
     = (wallet_example, Resp 400 "Cannot cancel ride less than 12 hours before departure. Please contact support if this is an emergency.")).
Proof. apply cancelRide_guards. vm_compute. reflexivity. Defined.

(** X17: updateBooking by a user who is neither the ride's driver nor the booking's passenger, on a ride whose driver exists, answers 403 and changes nothing. *)
Lemma updateBooking_outsider (now : Z) (ra : option (oid * Z)) (id u : oid)
    (st : option booking_status) (seats : option Z) (b : booking) (rd : ride) (du : user)
    (s : state) :
  bookings s !! id = Some b -> rides s !! bk_ride_id b = Some rd ->
  users s !! ride_driver_id rd = Some du ->
  ride_driver_id rd <> u -> bk_passenger_id b <> u ->
  updateBooking now ra id u st seats s
  = (s, Ret (Resp 403 "You don't have permission to modify this booking")).
Proof.
  intros Hb Hr Hdu Hd Hp. unfold updateBooking. apply try_catch_ret.
  erewrite bind_step; [|unfold find_booking; rewrite Hb; reflexivity]. cbv beta iota.
  erewrite bind_step; [|unfold find_ride; rewrite Hr; reflexivity]. cbv beta iota.
  erewrite bind_step; [|unfold find_user; rewrite Hdu; reflexivity]. cbv beta iota.
  rewrite (proj2 (Z.eqb_neq _ _) Hd), (proj2 (Z.eqb_neq _ _) Hp). reflexivity.
Qed.

Lemma updateBooking_outsider_witness :
  updateBooking 0 None 20 7 (Some BCancelled) None rating_example
  = (rating_example, Ret (Resp 403 "You don't have permission to modify this booking")).
Proof.
  apply (updateBooking_outsider 0 None 20 7 (Some BCancelled) None rating_booking example_ride
           (mkUser None));
    [vm_compute; reflexivity | vm_compute; reflexivity | vm_compute; reflexivity
    | discriminate | discriminate].
Defined.

(** X18: A passenger who is not the driver cannot accept or reject their own booking: on a ride whose driver exists, updateBooking answers 403 and changes nothing. *)
Lemma updateBooking_passenger_cannot_accept (now : Z) (ra : option (oid * Z)) (id u : oid)
    (st : booking_status) (b : booking) (rd : ride) (du : user) (s : state) :
  bookings s !! id = Some b -> rides s !! bk_ride_id b = Some rd ->
  users s !! ride_driver_id rd = Some du ->
  ride_driver_id rd <> u -> bk_passenger_id b = u ->
  (st = BAccepted \/ st = BRejected) -> bk_status b <> st ->
  updateBooking now ra id u (Some st) None s
  = (s, Ret (Resp 403 "Only the driver can accept or reject bookings")).
Proof.
  intros Hb Hr Hdu Hd Hp Hst Hne. unfold updateBooking. apply try_catch_ret.
  erewrite bind_step; [|unfold find_booking; rewrite Hb; reflexivity]. cbv beta iota.
  erewrite bind_step; [|unfold find_ride; rewrite Hr; reflexivity]. cbv beta iota.
  erewrite bind_step; [|unfold find_user; rewrite Hdu; reflexivity]. cbv beta iota.
  rewrite (proj2 (Z.eqb_neq _ _) Hd), Hp, Z.eqb_refl. simpl.
  destruct Hst as [->| ->]; destruct (bk_status b); try congruence; reflexivity.
Qed.

Lemma updateBooking_passenger_cannot_accept_witness :
  updateBooking 0 None 20 2 (Some BAccepted) None booking_example
  = (booking_example, Ret (Resp 403 "Only the driver can accept or reject bookings")).
Proof.
  apply (updateBooking_passenger_cannot_accept 0 None 20 2 BAccepted
           (mkBooking 10 2 1 1 BPending PayPending None None None None None)
           (mkRide 1 100000000 3 3 (Js.num 20) 2 2 RideActive) (mkUser None));
    [vm_compute; reflexivity | vm_compute; reflexivity | vm_compute; reflexivity
    | discriminate | reflexivity | left; reflexivity | discriminate].
Defined.

(** X19: cancelRide by the driver at least 12 hours before departure answers 200, marks the ride cancelled, cancels every pending or accepted booking of the ride keeping its seats, and leaves the bookings of other rides unchanged. *)
Lemma cancelRide_effect (now : Z) (ra : oid -> option (oid * Z)) (id d : oid) (rd : ride) (s : state) :
  rides s !! id = Some rd -> ride_driver_id rd = d -> hours_until_lt (ride_datetime_start rd) now 12 = false ->
  let r := run (cancelRide now ra id d) s in
  (exists msg, snd r = Resp 200 msg)
  /\ rides (fst r) !! id = Some (ride_with_status rd RideCancelled)
  /\ (forall k b, bookings s !! k = Some b -> bk_ride_id b = id -> is_pending_or_accepted b = true ->
        exists b', bookings (fst r) !! k = Some b' /\ bk_status b' = BCancelled
                   /\ bk_seats b' = bk_seats b)
  /\ (forall k b, bookings s !! k = Some b -> bk_ride_id b <> id -> bookings (fst r) !! k = Some b).
Proof.
  intros Hr Hd Ht r. subst r.
  set (s2 := set_bookings (cancel_ride_bookings id)
               (set_rides (insert id (ride_with_status rd RideCancelled)) s)).
  set (l := paid_bookings id (bookings s)).
  destruct (ride_cancel_refunds_ret now ra d rd l s2) as (s3 & c & Ec).
  assert (Hc : exists msg, cancelRide now ra id d s = (s3, Ret (Resp 200 msg))).
  { unfold cancelRide. erewrite bind_step; [|reflexivity]. cbv beta. rewrite Hr.
    subst d. rewrite Z.eqb_refl. simpl. rewrite Ht.
    erewrite bind_step; [|reflexivity]. cbv beta zeta.
    erewrite bind_step; [|reflexivity]. cbv beta.
    erewrite bind_step; [|reflexivity]. cbv beta.
    erewrite bind_step; [|exact Ec]. eexists. reflexivity. }
  destruct Hc as (msg & Hc). rewrite (run_ret _ _ _ _ Hc). simpl fst. simpl snd.
  pose proof (upd_ride_cancel_refunds now ra d rd l s2) as F. rewrite Ec in F. simpl in F.
  destruct F as (FR & _ & FB).
  split; [eauto|]. split; [rewrite FR; subst s2; simpl; apply lookup_insert_eq|]. split.
  - intros k b Hb Hid Hpa.
    assert (E2 : bookings s2 !! k = Some (with_status b BCancelled)).
    { subst s2. simpl. unfold cancel_ride_bookings. rewrite lookup_fmap, Hb. simpl.
      rewrite Hid, Z.eqb_refl, Hpa. reflexivity. }
    destruct (FB k) as [E3 | (_ & b1 & b' & X & Y & (A1 & A2 & A3 & A4))].
    + exists (with_status b BCancelled). rewrite E3, E2. auto.
    + rewrite E2 in X. injection X as <-. exists b'. split; [exact Y|]. simpl in *. rewrite A2, A3. auto.
  - intros k b Hb Hid.
    assert (E2 : bookings s2 !! k = Some b).
    { subst s2. simpl. unfold cancel_ride_bookings. rewrite lookup_fmap, Hb. simpl.
      rewrite (proj2 (Z.eqb_neq _ _) Hid). reflexivity. }
    destruct (FB k) as [E3 | (Hin & _)]; [rewrite E3; exact E2|]. exfalso.
    destruct (paid_bookings_key id k (bookings s) Hin) as (b0 & Hb0 & Hid0).
    rewrite Hb in Hb0. injection Hb0 as <-. exact (Hid Hid0).
Qed.

Lemma cancelRide_effect_witness :
  let r := run (cancelRide 0 (fun _ => None) 10 1) cancel_example in
  (exists msg, snd r = Resp 200 msg)
  /\ rides (fst r) !! 10 = Some (ride_with_status (mkRide 1 100000000 3 1 (Js.num 20) 2 2 RideActive) RideCancelled)
  /\ (forall k b, bookings cancel_example !! k = Some b -> bk_ride_id b = 10 -> is_pending_or_accepted b = true ->
        exists b', bookings (fst r) !! k = Some b' /\ bk_status b' = BCancelled /\ bk_seats b' = bk_seats b)
  /\ (forall k b, bookings cancel_example !! k = Some b -> bk_ride_id b <> 10 -> bookings (fst r) !! k = Some b).
Proof. apply cancelRide_effect; vm_compute; reflexivity. Defined.

(** X20: completePayment of a succeeded PaymentIntent for more seats than are left refunds the PaymentIntent and answers 400; when the refund call fails the error is passed to next and nothing changes. *)
Lemma completePayment_no_seats (amt : Z) (rok : bool) (u pid rid seats : oid) (lug : option Z)
    (rd : ride) (s : state) :
  seats <> 0 -> rides s !! rid = Some rd -> ride_seats_left rd < seats ->
  run (completePayment (Some (true, amt)) rok u (Some pid) (Some rid) seats lug) s
  = if rok then (set_psp_refunds (fun l => l ++ [pid]) s,
                 Resp 400 "Seats no longer available. Payment refunded.")
    else (s, NextError StripeError).
Proof.
  intros Hs Hr Hl. unfold completePayment. rewrite (proj2 (Z.eqb_neq _ _) Hs). simpl negb. cbv iota.
  unfold run, handler, try_catch. erewrite bind_step; [|unfold find_ride; rewrite Hr; reflexivity].
  cbv beta iota. rewrite (proj2 (Z.ltb_lt _ _) Hl). unfold bind, psp_refund.
  destruct rok; reflexivity.
Qed.

Lemma completePayment_no_seats_witness :
  run (completePayment (Some (true, 8000)) true 2 (Some 77) (Some 10) 4 None) capacity_example
  = (set_psp_refunds (fun l => l ++ [77]) capacity_example, Resp 400 "Seats no longer available. Payment refunded.").
Proof.
  apply (completePayment_no_seats 8000 true 2 77 10 4 None (mkRide 1 100000000 3 3 (Js.num 20) 2 2 RideActive));
    [discriminate | vm_compute; reflexivity | reflexivity].
Defined.

(** X21: completePayment of a succeeded PaymentIntent when the passenger already has a booking on the ride creates no booking, refunds the PaymentIntent when the refund call succeeds, and answers 500. *)
Lemma completePayment_duplicate_refunds (amt : Z) (rok : bool) (u pid rid seats : oid)
    (lug : option Z) (rd : ride) (s : state) :
  seats <> 0 -> rides s !! rid = Some rd -> seats <= ride_seats_left rd ->
  booking_exists (bookings s) rid u = true ->
  run (completePayment (Some (true, amt)) rok u (Some pid) (Some rid) seats lug) s
  = ((if rok then set_psp_refunds (fun l => l ++ [pid]) s else s),
     Resp 500 "Failed to create booking. Payment has been refunded.").
Proof.
  intros Hs Hr Hl Hx. apply run_ret. unfold completePayment. rewrite (proj2 (Z.eqb_neq _ _) Hs).
  cbn [negb]. cbv iota.
  erewrite bind_step; [|unfold find_ride; rewrite Hr; reflexivity].
  cbv beta iota. rewrite (proj2 (Z.ltb_ge _ _) Hl).
  erewrite bind_step.
  2:{ unfold try_catch, bind, booking_create.
      destruct (negb (booking_valid _)); [reflexivity|].
      unfold booking_exists in Hx. cbn [bk_ride_id bk_passenger_id]. rewrite Hx. reflexivity. }
  cbv beta iota. unfold try_catch, bind, psp_refund. destruct rok; reflexivity.
Qed.

Lemma completePayment_duplicate_refunds_witness :
  run (completePayment (Some (true, 2000)) true 2 (Some 77) (Some 10) 1 None) capacity_example
  = (set_psp_refunds (fun l => l ++ [77]) capacity_example,
     Resp 500 "Failed to create booking. Payment has been refunded.").
Proof.
  apply (completePayment_duplicate_refunds 2000 true 2 77 10 1 None (mkRide 1 100000000 3 3 (Js.num 20) 2 2 RideActive));
    [discriminate | vm_compute; reflexivity | discriminate | vm_compute; reflexivity].
Defined.

Section WalletPayment.
Context (u rid seats : oid) (lug : option Z) (rd : ride) (du : user) (wp wd : wallet) (s : state).
Let d := ride_driver_id rd.
Let T := total_cents (ride_price_per_seat rd) seats.
Let net := T - platform_fee T PLATFORM_FEE_PERCENT.
Let bk := mkBooking rid u seats (Js.int_or_zero lug) BAccepted PayPaid (Some WalletMethod)
            None None None None.
Hypotheses (Hs : seats <> 0) (Hr : rides s !! rid = Some rd) (Hdu : users s !! d = Some du) (Hd : d <> u)
  (Hl : seats <= ride_seats_left rd) (Hwp : wallets s !! u = Some wp) (Hvp : wallet_valid wp = true)
  (HT : T <= w_balance wp) (Hbv : booking_valid bk = true)
  (Hx : booking_exists (bookings s) rid u = false)
  (Hwd : wallets s !! d = Some wd) (Hvd : wallet_valid wd = true) (Hnet : 0 <= net).


(** X22: payWithWallet on a ride whose driver exists, with enough balance, debits the passenger's wallet by the total price, credits the driver's wallet with the price minus the platform fee, stores an accepted, paid booking under a fresh id, appends a payment entry and an earning entry, and answers 201. *)
Lemma payWithWallet_success_state :
  exists s', payWithWallet u (Some rid) seats lug s
             = (s', Ret (Resp 201 "Booking paid with wallet balance! No Stripe fees applied."))
    /\ wallets s' !! u = Some (set_balance wp (w_balance wp - T))
    /\ wallets s' !! d = Some (mkWallet (w_balance wd + net) (w_pending_balance wd)
                                       (w_total_earned wd + net) (w_total_withdrawn wd))
    /\ bookings s' !! next_id s = Some bk
    /\ txns s' = txns s ++ [(next_id s + 1, mkTxn u u RidePayment (- T) T 0 0 T TxCompleted
                                               (Some (next_id s)) None None);
                            (next_id s + 2, mkTxn d d RideEarning net T (platform_fee T PLATFORM_FEE_PERCENT)
                                               PLATFORM_FEE_PERCENT net TxCompleted
                                               (Some (next_id s)) None None)].
Proof.
  unfold payWithWallet. rewrite (proj2 (Z.eqb_neq _ _) Hs). cbv iota.
  erewrite bind_step; [|unfold find_ride; rewrite Hr; reflexivity]. cbv beta iota.
  erewrite bind_step; [|unfold find_user; fold d; rewrite Hdu; reflexivity]. cbv beta iota.
  fold d. rewrite (proj2 (Z.eqb_neq _ _) Hd), (proj2 (Z.ltb_ge _ _) Hl). cbv iota zeta. fold T.
  erewrite bind_step; [|unfold getOrCreateWallet; rewrite Hwp; reflexivity]. cbv beta.
  rewrite (proj2 (Z.ltb_ge _ _) HT). cbv iota.
  erewrite bind_step; [|unfold wallet_save; rewrite set_balance_valid;
                        [reflexivity|exact Hvp|lia]]. cbv beta.
  erewrite bind_step.
  2:{ unfold booking_create. fold bk. rewrite Hbv. cbn [negb]. cbv beta iota.
      rewrite bool_decide_eq_false_2; [reflexivity|].
      unfold booking_exists in Hx. apply bool_decide_eq_false in Hx. exact Hx. }
  cbv beta.
  erewrite bind_step; [|reflexivity]. cbv beta.
  erewrite bind_step; [|reflexivity]. cbv beta.
  erewrite bind_step.
  2:{ unfold getOrCreateWallet. cbv beta.
      match goal with |- context [wallets ?S !! d] =>
        replace (wallets S !! d) with (Some wd) end; [reflexivity|].
      symmetry. simpl. rewrite lookup_insert_ne by (apply not_eq_sym; exact Hd). exact Hwd. }
  cbv beta.
  erewrite bind_step.
  2:{ unfold addEarnings, bind, wallet_save. rewrite (proj2 (wallet_valid_iff _)).
      - reflexivity.
      - apply wallet_valid_iff in Hvd. simpl. unfold net in Hnet. lia. }
  cbv beta.
  erewrite bind_step; [|reflexivity]. cbv beta.
  eexists. split; [reflexivity|].
  cbn [wallets bookings txns next_id set_txns set_wallets set_rides set_bookings bump_id].
  split; [|split; [|split]].
  - rewrite lookup_insert_ne by exact Hd. apply lookup_insert_eq.
  - apply lookup_insert_eq.
  - apply lookup_insert_eq.
  - rewrite <- app_assoc. simpl. replace (next_id s + 1 + 1) with (next_id s + 2) by lia. reflexivity.
Qed.
End WalletPayment.

Lemma payWithWallet_success_state_witness :
  exists s', payWithWallet 2 (Some 10) 1 None wallet_pay_example
             = (s', Ret (Resp 201 "Booking paid with wallet balance! No Stripe fees applied."))
    /\ wallets s' !! 2 = Some (mkWallet 8000 0 0 0)
    /\ wallets s' !! 1 = Some (mkWallet 1800 0 1800 0)
    /\ bookings s' !! 100 = Some (mkBooking 10 2 1 0 BAccepted PayPaid (Some WalletMethod)
                                           None None None None)
    /\ txns s' = [(101, mkTxn 2 2 RidePayment (-2000) 2000 0 0 2000 TxCompleted (Some 100) None None);
                  (102, mkTxn 1 1 RideEarning 1800 2000 200 10 1800 TxCompleted (Some 100) None None)].
Proof.
  apply (payWithWallet_success_state 2 10 1 None example_ride (mkUser None) (mkWallet 10000 0 0 0) (mkWallet 0 0 0 0)
           wallet_pay_example); vm_compute; first [reflexivity | discriminate | intros; discriminate].
Defined.

(** X23: handlePaymentIntentFailed sets the payment status of the booking named in the metadata to failed, whatever it was before (also a paid or refunded booking); it changes nothing else, and a second delivery changes nothing. *)
Lemma paymentIntentFailed_effect (k : oid) (s : state) :
  let ev := PaymentIntentPaymentFailed (Some k) in
  let s1 := fst (run (handleWebhook ev) s) in
  bookings s1 !! k = (fun b => with_payment_status b PayFailed) <$> bookings s !! k
  /\ (forall k', k' <> k -> bookings s1 !! k' = bookings s !! k')
  /\ set_bookings (fun _ => bookings s) s1 = s
  /\ fst (run (handleWebhook ev) s1) = s1.
Proof.
  intros ev s1. subst s1 ev. rewrite !handleWebhook_state. simpl dispatch.
  unfold handlePaymentIntentFailed, booking_update, modify. simpl fst.
  destruct (bookings s !! k) as [b|] eqn:Eb.
  - cbn [bookings set_bookings]. rewrite Eb. split; [apply lookup_insert_eq|]. split; [|split].
    + intros k' Hk. apply lookup_insert_ne. congruence.
    + destruct s; reflexivity.
    + unfold set_bookings. cbn [users rides bookings wallets txns payouts ratings requests intents
        psp_refunds next_id]. rewrite Eb, lookup_insert_eq, insert_insert_eq. destruct b; reflexivity.
  - cbn [bookings set_bookings]. rewrite Eb. split; [exact Eb|]. split; [|split].
    + reflexivity.
    + destruct s; reflexivity.
    + unfold set_bookings. cbn [users rides bookings wallets txns payouts ratings requests intents
        psp_refunds next_id]. cbv beta. rewrite !Eb. reflexivity.
Qed.

(** X24: handleTransferCreated records the transfer id on the payout named in the metadata and changes nothing else; a second delivery changes nothing. *)
Lemma transferCreated_effect (t k : oid) (s : state) :
  (forall p, payouts s !! k = Some p -> 1 <= po_amount p) ->
  let ev := TransferCreated t (Some k) in
  let s1 := fst (run (handleWebhook ev) s) in
  payouts s1 !! k = (fun p => with_po p (po_status p) (po_stripe_payout_id p) (Some t)
                               (po_transaction_id p)) <$> payouts s !! k
  /\ (forall k', k' <> k -> payouts s1 !! k' = payouts s !! k')
  /\ set_payouts (fun _ => payouts s) s1 = s
  /\ fst (run (handleWebhook ev) s1) = s1.
Proof.
  intros Ha ev s1. subst s1 ev. rewrite !handleWebhook_state. simpl dispatch.
  unfold handleTransferCreated.
  destruct (payouts s !! k) as [p|] eqn:Ep.
  - rewrite payout_save_ok by (simpl; exact (Ha p eq_refl)). simpl fst.
    cbn [payouts set_payouts]. split; [apply lookup_insert_eq|]. split; [|split].
    + intros k' Hk. apply lookup_insert_ne. congruence.
    + unfold set_payouts. cbn [payouts]. destruct s; reflexivity.
    + cbn [payouts set_payouts]. rewrite lookup_insert_eq.
      rewrite payout_save_ok by (simpl; exact (Ha p eq_refl)). simpl fst.
      unfold set_payouts. cbn [payouts]. rewrite insert_insert_eq. reflexivity.
  - simpl fst. split; [exact Ep|]. split; [reflexivity|]. split; [destruct s; reflexivity|].
    rewrite Ep. reflexivity.
Qed.

Lemma transferCreated_effect_witness :
  let ev := TransferCreated 7 (Some 100) in
  let s1 := fst (run (handleWebhook ev) payout_example) in
  payouts s1 !! 100 = Some (mkPayout 1 1 1000 PoProcessing (Some 55) (Some 7) (Some 101))
  /\ (forall k', k' <> 100 -> payouts s1 !! k' = payouts payout_example !! k')
  /\ set_payouts (fun _ => payouts payout_example) s1 = payout_example
  /\ fst (run (handleWebhook ev) s1) = s1.
Proof.
  apply (transferCreated_effect 7 100 payout_example).
  intros p Hp. vm_compute in Hp. injection Hp as <-. simpl. lia.
Defined.

(** X25: createRide either leaves the state unchanged and answers an error, or (airport found, departure in the future) stores an active ride under a fresh id with all its seats and luggage spots left and answers 201. *)
Lemma createRide_outcome (now : Z) (af : bool) (d ds st : Z) (pr : float) (lug : option Z) (s : state) :
  (fst (run (createRide now af d ds st pr lug) s) = s
   /\ is_error_response (snd (run (createRide now af d ds st pr lug) s)) = true)
  \/ (af = true /\ now < ds
      /\ run (createRide now af d ds st pr lug) s
         = (set_rides (insert (next_id s) (mkRide d ds st st pr (Js.int_or_zero lug)
                                             (Js.int_or_zero lug) RideActive)) (bump_id s),
            Resp 201 "Ride created successfully")).
Proof.
  unfold createRide. destruct af; [|left; split; reflexivity]. cbn [negb].
  destruct (Z.leb_spec ds now); [left; split; reflexivity|].
  destruct (ride_valid _); cbn [negb]; [|left; split; reflexivity].
  right. split; [reflexivity|]. split; [exact H|]. reflexivity.
Qed.

(** X26: After a driver's offer on a request was sent, with or without a ride_id, a second offer of the same driver on that request, with or without a ride_id, answers 400 and changes nothing. *)
Lemma makeOffer_twice_rejected (sq sq' : bool) (d rq k k' : oid) (rid rid' : option oid)
    (pr pr' : float) (s s1 : state) :
  run (makeOffer sq d rq k rid pr) s = (s1, Resp 200 "Offer sent successfully") ->
  run (makeOffer sq' d rq k' rid' pr') s1 = (s1, Resp 400 "You already made an offer on this request").
Proof.
  intros E0.
  destruct (makeOffer_cases sq d rq k rid pr s) as [[resp [E Hne]]|(r & Er & Es & Ex & _ & E)].
  - exfalso. unfold run, handler, try_catch in E0. rewrite E in E0.
    injection E0 as _ E0. exact (Hne E0).
  - unfold run, handler, try_catch in E0. rewrite E in E0. injection E0 as <-.
    apply run_ret. unfold makeOffer, find_request, bind. cbn [requests set_requests].
    rewrite lookup_insert_eq. cbn [rr_status rr_offers]. rewrite Es. simpl.
    rewrite existsb_app. simpl. rewrite Z.eqb_refl, orb_true_r. reflexivity.
Qed.

Lemma makeOffer_twice_rejected_witness :
  run (makeOffer true 3 30 42 None (Js.num 30))
      (fst (run (makeOffer true 3 30 41 (Some 10) (Js.num 25)) request_example))
  = (fst (run (makeOffer true 3 30 41 (Some 10) (Js.num 25)) request_example),
     Resp 400 "You already made an offer on this request").
Proof.
  apply (makeOffer_twice_rejected true true 3 30 41 42 (Some 10) None (Js.num 25) (Js.num 30)
           request_example).
  vm_compute. reflexivity.
Defined.

(** X27: cancelRequest by the request's passenger deletes the request whatever its status (also an accepted one) and answers 200. *)
Lemma cancelRequest_deletes (u rq : oid) (r : ride_request) (s : state) :
  requests s !! rq = Some r -> rr_passenger r = u ->
  run (cancelRequest u rq) s
  = (set_requests (delete rq) s, Resp 200 "Request cancelled and removed successfully")
  /\ requests (set_requests (delete rq) s) !! rq = None.
Proof.
  intros Er Hu. split.
  - apply run_ret. unfold cancelRequest, find_own_request, bind. rewrite Er, Hu, Z.eqb_refl.
    reflexivity.
  - apply lookup_delete_eq.
Qed.

Lemma cancelRequest_deletes_witness :
  run (cancelRequest 2 30) request_example
  = (set_requests (delete 30) request_example, Resp 200 "Request cancelled and removed successfully")
  /\ requests (set_requests (delete 30) request_example) !! 30 = None.
Proof. apply (cancelRequest_deletes 2 30 example_request); reflexivity. Defined.

(** X28: withdrawOffer by a driver with no pending offer on the request (for instance an already accepted offer) answers 404 and changes nothing. *)
Lemma withdrawOffer_no_pending (d rq : oid) (r : ride_request) (s : state) :
  requests s !! rq = Some r ->
  (forall o, In o (rr_offers r) -> of_driver o = d -> of_status o <> OfferPending) ->
  run (withdrawOffer d rq) s = (s, Resp 404 "No pending offer found").
Proof.
  intros Er Ho. apply run_ret. unfold withdrawOffer. rewrite Er.
  assert (E : remove_pending_offer (rr_offers r) d = None).
  { induction (rr_offers r) as [|o l IH]; [reflexivity|]. simpl.
    destruct (Z.eqb_spec (of_driver o) d) as [Hd|]; simpl.
    - destruct (of_status o) eqn:Es; simpl;
        [exfalso; apply (Ho o (or_introl eq_refl) Hd Es)| |];
        rewrite IH by (intros o' Hi; apply Ho; right; exact Hi); reflexivity.
    - rewrite IH by (intros o' Hi; apply Ho; right; exact Hi). reflexivity. }
  rewrite E. reflexivity.
Qed.

Lemma withdrawOffer_no_pending_witness :
  let s := set_requests (insert 30 (mkRequest 2 1 ReqAccepted (Some 1) (Some 10)
                                      [mkOffer 40 1 (Some 10) (Js.num 20) OfferAccepted] None))
             request_example in
  run (withdrawOffer 1 30) s = (s, Resp 404 "No pending offer found").
Proof.
  apply (withdrawOffer_no_pending 1 30 (mkRequest 2 1 ReqAccepted (Some 1) (Some 10)
                                          [mkOffer 40 1 (Some 10) (Js.num 20) OfferAccepted] None)).
  - reflexivity.
  - intros o [<-|[]] _. discriminate.
Defined.

(** X29: rejectOffer does not look at the request's status: on an accepted request of the caller it marks the named offer rejected, also the accepted one, answers 200 and leaves the request accepted with its matched driver and ride. *)
Lemma rejectOffer_on_accepted (u rq k : oid) (r : ride_request) (o : offer) (s : state) :
  requests s !! rq = Some r -> rr_passenger r = u -> rr_status r = ReqAccepted ->
  offers_id (rr_offers r) k = Some o ->
  exists r', run (rejectOffer u rq k) s = (set_requests (insert rq r') s, Resp 200 "Offer rejected")
    /\ rr_status r' = ReqAccepted /\ rr_matched_driver r' = rr_matched_driver r
    /\ rr_matched_ride r' = rr_matched_ride r
    /\ offers_id (rr_offers r') k = Some (with_offer_status o OfferRejected).
Proof.
  intros Er Hu Hst Ho.
  unfold run, handler, try_catch, rejectOffer, find_own_request, bind, ret, request_save, modify.
  rewrite Er. simpl. rewrite Hu, Z.eqb_refl. simpl. rewrite Ho.
  eexists. split; [reflexivity|]. simpl. split; [exact Hst|]. split; [reflexivity|].
  split; [reflexivity|].
  clear Er Hst. induction (rr_offers r) as [|o' l IH]; simpl in *; [discriminate|].
  destruct (of_id o' =? k) eqn:Ek.
  - injection Ho as <-. simpl. rewrite Ek. reflexivity.
  - simpl. rewrite Ek. apply IH, Ho.
Qed.

Lemma rejectOffer_on_accepted_witness :
  let s := fst (run (acceptOffer 2 30 40) request_example) in
  exists r', run (rejectOffer 2 30 40) s = (set_requests (insert 30 r') s, Resp 200 "Offer rejected")
    /\ rr_status r' = ReqAccepted /\ rr_matched_driver r' = Some 1
    /\ rr_matched_ride r' = Some 10
    /\ offers_id (rr_offers r') 40 = Some (with_offer_status (with_offer_status example_offer OfferAccepted) OfferRejected).
Proof.
  apply (rejectOffer_on_accepted 2 30 40 (accept_request example_request example_offer 40)
           (with_offer_status example_offer OfferAccepted)); vm_compute; reflexivity.
Defined.

(** X30: makeOffer's ownership check of a ride_id never compares the ride's driver_id with the caller: with mongoose's strictQuery off every offer naming a ride answers 404 "Ride not found or not yours" and changes nothing; with it on, an offer naming any existing ride, also one of another driver, is sent. *)
Lemma makeOffer_ride_check (d rq k rid : oid) (pr : float) (r : ride_request) (s : state) :
  requests s !! rq = Some r -> rr_status r = ReqPending ->
  existsb (fun o => of_driver o =? d) (rr_offers r) = false ->
  run (makeOffer false d rq k (Some rid) pr) s = (s, Resp 404 "Ride not found or not yours")
  /\ (forall rd, rides s !! rid = Some rd ->
        snd (run (makeOffer true d rq k (Some rid) pr) s) = Resp 200 "Offer sent successfully").
Proof.
  intros Er Hst Hx. split.
  - apply run_ret. unfold makeOffer, find_request, find_ride_of_driver, bind, ret.
    rewrite Er, Hst. simpl. rewrite Hx. reflexivity.
  - intros rd Hrd.
    unfold run, handler, try_catch, makeOffer, find_request, find_ride_of_driver, bind, ret,
      request_save, modify.
    rewrite Er, Hst. simpl. rewrite Hx, Hrd. reflexivity.
Qed.

Lemma makeOffer_ride_check_witness :
  run (makeOffer false 3 30 41 (Some 10) (Js.num 25)) request_example
  = (request_example, Resp 404 "Ride not found or not yours")
  /\ (forall rd, rides request_example !! 10 = Some rd ->
        snd (run (makeOffer true 3 30 41 (Some 10) (Js.num 25)) request_example)
        = Resp 200 "Offer sent successfully").
Proof.
  apply (makeOffer_ride_check 3 30 41 10 (Js.num 25) example_request request_example);
    vm_compute; reflexivity.
Defined.

End Extras.
